(** * aiswarm-hub: the market maker, agent scoring and swarm consensus

    A shallow embedding of the quantitative core of the repository:

    - [lmsr]    backend/handlers/math/probabilities/lmsr/lmsr.go
    - [lmsr64]  the same market maker over binary64 numbers
    - [models]  the [Agent] model, its score recalculation methods and
                [UpdateActivity]
    - [agents]  [calculateSwarmConsensus] of the swarm handler
    - [Spec]    the notions of the specification that the theorems compare
                the code with

    Conventions of the embedding.

    - A Go [float64] is read as a real number ([R]): rounding, NaN and the
      infinities are not represented.  [math.Exp], [math.Log], [math.Max],
      [math.Min] and [math.Abs] are [exp], [ln], [Rmax], [Rmin] and [Rabs];
      [math.Log] is only ever applied to positive arguments on the paths the
      theorems cover.  Only [lmsr64] keeps binary64 numbers, for the one
      property that is about NaN and the infinities.
    - A Go [int64] is an integer ([Z]); additions wrap around ([wrap64]).
      An [int] that counts loop iterations is bounded by the length of a
      slice and is kept as [Z] or [nat] without wrap-around.
    - A [map[int64]T] is a [gmap Z T], the set [map[int64]bool] a [gset Z].
    - A [time.Time] is an instant with its [time.Location]; a location is
      the table of its offset transitions, and [time.Now()] is a parameter
      of the function that calls it.
    - A method with a pointer receiver that mutates its agent is a function
      from the agent before to the agent after. *)

From Stdlib Require Import Reals Lra Lia ZArith Floats.
From stdpp Require Import base gmap sets list strings sorting.

Open Scope R_scope.

(** ** Go's numbers and time *)

Module Go.

Definition min_int64 : Z := (- 2 ^ 63)%Z.
Definition max_int64 : Z := (2 ^ 63 - 1)%Z.

(** Two's complement wrap-around of a 64-bit signed result. *)
Definition wrap64 (z : Z) : Z := ((z + 2 ^ 63) mod 2 ^ 64 - 2 ^ 63)%Z.

Definition in_int64 (z : Z) : Prop := (min_int64 <= z <= max_int64)%Z.

(** Equality of real numbers is decidable, classically; the statements
    about entries of equal weight select by it. *)
#[global] Instance R_eq_dec : EqDecision R := Req_EM_T.

(** [math.Log10]. *)
Definition Log10 (x : R) : R := ln x / ln 10.

(** A [time.Location]: the offset east of UTC, in seconds, in force before
    the first transition, and the transitions in ascending order of their
    instants (Unix seconds), each with the offset in force from it on.
    [time.UTC] and a [time.FixedZone] have no transition.  The transitions
    that the rule of a zone produces after the last one of its table are
    listed like those of the table. *)
Record Location := mkLocation {
  firstOffset : Z;
  transitions : list (Z * Z)
}.

Definition UTC : Location := mkLocation 0 [].

Definition FixedZone (offset : Z) : Location := mkLocation offset [].

(** The bounds [alpha] and [omega] of the first and of the last period of
    a location. *)
Definition alpha : Z := min_int64.
Definition omega : Z := max_int64.

(** [l.lookup(sec)]: the offset in force at the instant [sec], and the
    period [start, end) in which it is in force.  [offset] and [start] are
    those of the period that the transitions not yet passed follow. *)
Fixpoint lookupFrom (offset start : Z) (tx : list (Z * Z)) (sec : Z)
    : Z * Z * Z :=
  match tx with
  | [] => (offset, start, omega)
  | (when, offset') :: rest =>
      if (sec <? when)%Z then (offset, start, when)
      else lookupFrom offset' when rest sec
  end.

Definition lookup (l : Location) (sec : Z) : Z * Z * Z :=
  lookupFrom (firstOffset l) alpha (transitions l) sec.

Definition offsetAt (l : Location) (sec : Z) : Z := (lookup l sec).1.1.

(** A [time.Time]: an instant (seconds since the Unix epoch and the
    nanoseconds within the second) together with its [Location]. *)
Record Time := mkTime { unixSec : Z; nsec : Z; loc : Location }.

(** The offset in force at [t] in its location. *)
Definition zoneOffset (t : Time) : Z := offsetAt (loc t) (unixSec t).

(** The civil day of [t] in its own location, counted from 1970-01-01:
    the day that [t.Year(), t.Month(), t.Day()] name. *)
Definition civilDay (t : Time) : Z := ((unixSec t + zoneOffset t) / 86400)%Z.

(** The instant of [time.Date(year, month, day, 0, 0, 0, 0, l)] for the
    civil day [day]: [Date] takes the civil time for UTC, looks the offset
    up at that instant, looks it up again at the instant corrected by it
    when that falls outside of the period found, and subtracts the
    offset. *)
Definition midnight (day : Z) (l : Location) : Z :=
  let unix := (day * 86400)%Z in
  let '(offset, start, end_) := lookup l unix in
  if (offset =? 0)%Z then unix
  else
    let utc := (unix - offset)%Z in
    let offset :=
      if (utc <? start)%Z || (end_ <=? utc)%Z then offsetAt l utc
      else offset in
    (unix - offset)%Z.

(** [time.Date(t.Year(), t.Month(), t.Day(), 0, 0, 0, 0, t.Location())]:
    midnight of [t]'s civil day in [t]'s location. *)
Definition startOfDay (t : Time) : Time :=
  mkTime (midnight (civilDay t) (loc t)) 0 (loc t).

(** [t.Sub(u)] in nanoseconds: a [Duration] is an [int64], and [Sub]
    saturates at its bounds. *)
Definition Sub (t u : Time) : Z :=
  let d := ((unixSec t - unixSec u) * 1000000000 + (nsec t - nsec u))%Z in
  if (d <? min_int64)%Z then min_int64
  else if (max_int64 <? d)%Z then max_int64 else d.

(** [int(d.Hours() / 24)]: the conversion to [int] truncates toward zero,
    so this is the truncated quotient of the nanoseconds by those of a
    day. *)
Definition wholeDays (d : Z) : Z := (d ÷ (24 * 3600 * 1000000000))%Z.

End Go.

(** ** The LMSR market maker (lmsr.go) *)

Module lmsr.

Record LMSR := mkLMSR { B : R }.

Definition New (liquidity : R) : LMSR :=
  if Rle_dec liquidity 0 then mkLMSR 100 else mkLMSR liquidity.

Definition Cost (l : LMSR) (qYes qNo : R) : R :=
  let maxQ := Rmax qYes qNo in
  B l * maxQ / B l
  + B l * ln (exp ((qYes - maxQ) / B l) + exp ((qNo - maxQ) / B l)).

Definition PriceYes (l : LMSR) (qYes qNo : R) : R :=
  let maxQ := Rmax qYes qNo in
  let expYes := exp ((qYes - maxQ) / B l) in
  let expNo := exp ((qNo - maxQ) / B l) in
  expYes / (expYes + expNo).

Definition PriceNo (l : LMSR) (qYes qNo : R) : R :=
  1 - PriceYes l qYes qNo.

(** The test [outcome == "yes" || outcome == "YES"] of the pricing
    functions. *)
Definition isYes (outcome : string) : bool :=
  String.eqb outcome "yes" || String.eqb outcome "YES".

Definition CostToBuy (l : LMSR) (qYes qNo shares : R) (outcome : string) : R :=
  let currentCost := Cost l qYes qNo in
  let newCost :=
    if isYes outcome then Cost l (qYes + shares) qNo
    else Cost l qYes (qNo + shares) in
  newCost - currentCost.

Definition CostToSell (l : LMSR) (qYes qNo shares : R) (outcome : string) : R :=
  - CostToBuy l qYes qNo (- shares) outcome.

(** The body of the bisection loop of [SharesForCost], with [n] iterations
    left; after the last one the function returns [(low + high) / 2]. *)
Fixpoint bisect (n : nat) (l : LMSR) (qYes qNo cost : R) (outcome : string)
    (low high : R) : R :=
  match n with
  | O => (low + high) / 2
  | S n' =>
      let mid := (low + high) / 2 in
      let midCost := CostToBuy l qYes qNo mid outcome in
      if Rlt_dec (Rabs (midCost - cost)) 0.0001 then mid
      else if Rlt_dec midCost cost
           then bisect n' l qYes qNo cost outcome mid high
           else bisect n' l qYes qNo cost outcome low mid
  end.

Definition SharesForCost (l : LMSR) (qYes qNo cost : R) (outcome : string) : R :=
  if Rle_dec cost 0 then 0
  else bisect 100 l qYes qNo cost outcome 0 (cost * 10).

Definition NewProbabilityAfterBet (l : LMSR) (qYes qNo amount : R)
    (outcome : string) : R :=
  let shares := SharesForCost l qYes qNo amount outcome in
  if isYes outcome then PriceYes l (qYes + shares) qNo
  else PriceYes l qYes (qNo + shares).

Definition MaxLoss (l : LMSR) : R := B l * ln 2.

(** [BetSimulation]; its field [Cost] is [Cost_] here, the name [Cost]
    being the cost function's. *)
Record BetSimulation := mkBetSimulation {
  SharesReceived : R;
  Cost_ : R;
  NewPriceYes : R;
  NewPriceNo : R;
  PriceImpact : R;
  AveragePrice : R;
  PotentialPayout : R
}.

Definition SimulateBet (l : LMSR) (qYes qNo amount : R) (outcome : string)
    : BetSimulation :=
  let currentPriceYes := PriceYes l qYes qNo in
  let cost := amount in
  let shares := SharesForCost l qYes qNo amount outcome in
  let newQYes := if isYes outcome then qYes + shares else qYes in
  let newQNo := if isYes outcome then qNo else qNo + shares in
  let newPriceYes := PriceYes l newQYes newQNo in
  {| SharesReceived := shares;
     Cost_ := cost;
     NewPriceYes := newPriceYes;
     NewPriceNo := 1 - newPriceYes;
     PriceImpact := newPriceYes - currentPriceYes;
     AveragePrice := cost / shares;
     PotentialPayout := shares |}.

End lmsr.

(** ** The market maker in binary64

    The same functions over IEEE 754 binary64 numbers, which is what a
    [float64] is: here a division by zero yields an infinity or NaN instead
    of being left unspecified.  The functions of Go's [math] package that the
    market maker calls are parameters. *)

Module lmsr64.

Local Open Scope float_scope.

Section Math.

Variables (Exp Log Abs : float -> float) (Max : float -> float -> float).

Record LMSR := mkLMSR { B : float }.

Definition New (liquidity : float) : LMSR :=
  if liquidity <=? 0 then mkLMSR 100 else mkLMSR liquidity.

Definition Cost (l : LMSR) (qYes qNo : float) : float :=
  let maxQ := Max qYes qNo in
  B l * maxQ / B l
  + B l * Log (Exp ((qYes - maxQ) / B l) + Exp ((qNo - maxQ) / B l)).

Definition PriceYes (l : LMSR) (qYes qNo : float) : float :=
  let maxQ := Max qYes qNo in
  let expYes := Exp ((qYes - maxQ) / B l) in
  let expNo := Exp ((qNo - maxQ) / B l) in
  expYes / (expYes + expNo).

Definition CostToBuy (l : LMSR) (qYes qNo shares : float) (outcome : string)
    : float :=
  let currentCost := Cost l qYes qNo in
  let newCost :=
    if lmsr.isYes outcome then Cost l (qYes + shares) qNo
    else Cost l qYes (qNo + shares) in
  newCost - currentCost.

(** The constant [0.0001] of the source, as the binary64 number nearest to
    it. *)
Definition tolerance : float := 0x1.a36e2eb1c432dp-14.

Fixpoint bisect (n : nat) (l : LMSR) (qYes qNo cost : float)
    (outcome : string) (low high : float) : float :=
  match n with
  | O => (low + high) / 2
  | S n' =>
      let mid := (low + high) / 2 in
      let midCost := CostToBuy l qYes qNo mid outcome in
      if Abs (midCost - cost) <? tolerance then mid
      else if midCost <? cost
           then bisect n' l qYes qNo cost outcome mid high
           else bisect n' l qYes qNo cost outcome low mid
  end.

Definition SharesForCost (l : LMSR) (qYes qNo cost : float)
    (outcome : string) : float :=
  if cost <=? 0 then 0
  else bisect 100 l qYes qNo cost outcome 0 (cost * 10).

Record BetSimulation := mkBetSimulation {
  SharesReceived : float;
  Cost_ : float;
  NewPriceYes : float;
  NewPriceNo : float;
  PriceImpact : float;
  AveragePrice : float;
  PotentialPayout : float
}.

Definition SimulateBet (l : LMSR) (qYes qNo amount : float)
    (outcome : string) : BetSimulation :=
  let currentPriceYes := PriceYes l qYes qNo in
  let cost := amount in
  let shares := SharesForCost l qYes qNo amount outcome in
  let newQYes := if lmsr.isYes outcome then qYes + shares else qYes in
  let newQNo := if lmsr.isYes outcome then qNo else qNo + shares in
  let newPriceYes := PriceYes l newQYes newQNo in
  {| SharesReceived := shares;
     Cost_ := cost;
     NewPriceYes := newPriceYes;
     NewPriceNo := 1 - newPriceYes;
     PriceImpact := newPriceYes - currentPriceYes;
     AveragePrice := cost / shares;
     PotentialPayout := shares |}.

End Math.

End lmsr64.

(** ** The agent model and its scores *)

Module models.

(** The fields of [Agent] that the scoring methods and the consensus
    handler read or write; authentication, ownership, profile and legacy
    balance fields are left out. *)
Record Agent := mkAgent {
  ID : Z;
  Name : string;
  TotalPredictions : Z;
  CorrectPredictions : Z;
  ResolvedPredictions : Z;
  AccuracyScore : R;
  EngagementScore : R;
  CreatorScore : R;
  ActivityScore : R;
  CompositeScore : R;
  Reputation : R;
  TotalUpvotesReceived : Z;
  TotalDownvotesReceived : Z;
  TotalCommentsReceived : Z;
  TotalFollowers : Z;
  LastActiveAt : option Go.Time;
  CurrentStreak : Z;
  LongestStreak : Z;
  DaysActiveMonth : Z;
  MarketsCreated : Z;
  MarketEngagementAvg : R
}.

(** Assignments to single fields, [a.F = v]. *)
Definition set_AccuracyScore (v : R) (a : Agent) : Agent :=
  mkAgent (ID a) (Name a) (TotalPredictions a) (CorrectPredictions a)
    (ResolvedPredictions a) v (EngagementScore a) (CreatorScore a)
    (ActivityScore a) (CompositeScore a) (Reputation a)
    (TotalUpvotesReceived a) (TotalDownvotesReceived a)
    (TotalCommentsReceived a) (TotalFollowers a) (LastActiveAt a)
    (CurrentStreak a) (LongestStreak a) (DaysActiveMonth a)
    (MarketsCreated a) (MarketEngagementAvg a).

Definition set_EngagementScore (v : R) (a : Agent) : Agent :=
  mkAgent (ID a) (Name a) (TotalPredictions a) (CorrectPredictions a)
    (ResolvedPredictions a) (AccuracyScore a) v (CreatorScore a)
    (ActivityScore a) (CompositeScore a) (Reputation a)
    (TotalUpvotesReceived a) (TotalDownvotesReceived a)
    (TotalCommentsReceived a) (TotalFollowers a) (LastActiveAt a)
    (CurrentStreak a) (LongestStreak a) (DaysActiveMonth a)
    (MarketsCreated a) (MarketEngagementAvg a).

Definition set_CreatorScore (v : R) (a : Agent) : Agent :=
  mkAgent (ID a) (Name a) (TotalPredictions a) (CorrectPredictions a)
    (ResolvedPredictions a) (AccuracyScore a) (EngagementScore a) v
    (ActivityScore a) (CompositeScore a) (Reputation a)
    (TotalUpvotesReceived a) (TotalDownvotesReceived a)
    (TotalCommentsReceived a) (TotalFollowers a) (LastActiveAt a)
    (CurrentStreak a) (LongestStreak a) (DaysActiveMonth a)
    (MarketsCreated a) (MarketEngagementAvg a).

Definition set_ActivityScore (v : R) (a : Agent) : Agent :=
  mkAgent (ID a) (Name a) (TotalPredictions a) (CorrectPredictions a)
    (ResolvedPredictions a) (AccuracyScore a) (EngagementScore a)
    (CreatorScore a) v (CompositeScore a) (Reputation a)
    (TotalUpvotesReceived a) (TotalDownvotesReceived a)
    (TotalCommentsReceived a) (TotalFollowers a) (LastActiveAt a)
    (CurrentStreak a) (LongestStreak a) (DaysActiveMonth a)
    (MarketsCreated a) (MarketEngagementAvg a).

Definition set_CompositeScore (v : R) (a : Agent) : Agent :=
  mkAgent (ID a) (Name a) (TotalPredictions a) (CorrectPredictions a)
    (ResolvedPredictions a) (AccuracyScore a) (EngagementScore a)
    (CreatorScore a) (ActivityScore a) v (Reputation a)
    (TotalUpvotesReceived a) (TotalDownvotesReceived a)
    (TotalCommentsReceived a) (TotalFollowers a) (LastActiveAt a)
    (CurrentStreak a) (LongestStreak a) (DaysActiveMonth a)
    (MarketsCreated a) (MarketEngagementAvg a).

Definition set_Reputation (v : R) (a : Agent) : Agent :=
  mkAgent (ID a) (Name a) (TotalPredictions a) (CorrectPredictions a)
    (ResolvedPredictions a) (AccuracyScore a) (EngagementScore a)
    (CreatorScore a) (ActivityScore a) (CompositeScore a) v
    (TotalUpvotesReceived a) (TotalDownvotesReceived a)
    (TotalCommentsReceived a) (TotalFollowers a) (LastActiveAt a)
    (CurrentStreak a) (LongestStreak a) (DaysActiveMonth a)
    (MarketsCreated a) (MarketEngagementAvg a).

Definition set_LastActiveAt (v : option Go.Time) (a : Agent) : Agent :=
  mkAgent (ID a) (Name a) (TotalPredictions a) (CorrectPredictions a)
    (ResolvedPredictions a) (AccuracyScore a) (EngagementScore a)
    (CreatorScore a) (ActivityScore a) (CompositeScore a) (Reputation a)
    (TotalUpvotesReceived a) (TotalDownvotesReceived a)
    (TotalCommentsReceived a) (TotalFollowers a) v (CurrentStreak a)
    (LongestStreak a) (DaysActiveMonth a) (MarketsCreated a)
    (MarketEngagementAvg a).

Definition set_CurrentStreak (v : Z) (a : Agent) : Agent :=
  mkAgent (ID a) (Name a) (TotalPredictions a) (CorrectPredictions a)
    (ResolvedPredictions a) (AccuracyScore a) (EngagementScore a)
    (CreatorScore a) (ActivityScore a) (CompositeScore a) (Reputation a)
    (TotalUpvotesReceived a) (TotalDownvotesReceived a)
    (TotalCommentsReceived a) (TotalFollowers a) (LastActiveAt a) v
    (LongestStreak a) (DaysActiveMonth a) (MarketsCreated a)
    (MarketEngagementAvg a).

Definition set_LongestStreak (v : Z) (a : Agent) : Agent :=
  mkAgent (ID a) (Name a) (TotalPredictions a) (CorrectPredictions a)
    (ResolvedPredictions a) (AccuracyScore a) (EngagementScore a)
    (CreatorScore a) (ActivityScore a) (CompositeScore a) (Reputation a)
    (TotalUpvotesReceived a) (TotalDownvotesReceived a)
    (TotalCommentsReceived a) (TotalFollowers a) (LastActiveAt a)
    (CurrentStreak a) v (DaysActiveMonth a) (MarketsCreated a)
    (MarketEngagementAvg a).

Definition set_DaysActiveMonth (v : Z) (a : Agent) : Agent :=
  mkAgent (ID a) (Name a) (TotalPredictions a) (CorrectPredictions a)
    (ResolvedPredictions a) (AccuracyScore a) (EngagementScore a)
    (CreatorScore a) (ActivityScore a) (CompositeScore a) (Reputation a)
    (TotalUpvotesReceived a) (TotalDownvotesReceived a)
    (TotalCommentsReceived a) (TotalFollowers a) (LastActiveAt a)
    (CurrentStreak a) (LongestStreak a) v (MarketsCreated a)
    (MarketEngagementAvg a).

(** [RecalculateAccuracyScore]: Bayesian smoothing with a prior of 50 and a
    strength of 10. *)
Definition RecalculateAccuracyScore (a : Agent) : Agent :=
  if (ResolvedPredictions a =? 0)%Z then set_AccuracyScore 50 a
  else
    let accuracy :=
      IZR (CorrectPredictions a) / IZR (ResolvedPredictions a) * 100 in
    let priorStrength := 10 in
    set_AccuracyScore
      ((accuracy * IZR (ResolvedPredictions a) + 50 * priorStrength)
       / (IZR (ResolvedPredictions a) + priorStrength)) a.

Definition RecalculateEngagementScore (a : Agent) : Agent :=
  let totalEngagement :=
    IZR (Go.wrap64 (Go.wrap64 (TotalUpvotesReceived a + TotalCommentsReceived a)
                    + TotalFollowers a)) in
  if Rle_dec totalEngagement 0 then set_EngagementScore 0 a
  else set_EngagementScore (Rmin 100 (Go.Log10 (totalEngagement + 1) * 25)) a.

Definition RecalculateActivityScore (a : Agent) : Agent :=
  if (DaysActiveMonth a =? 0)%Z then set_ActivityScore 0 a
  else
    let baseActivity := IZR (DaysActiveMonth a) / 30 * 100 in
    let streakMultiplier := 1 + Rmin 0.5 (IZR (CurrentStreak a) / 60) in
    set_ActivityScore (Rmin 100 (baseActivity * streakMultiplier)) a.

Definition RecalculateCreatorScore (a : Agent) : Agent :=
  if (MarketsCreated a =? 0)%Z then set_CreatorScore 0 a
  else
    set_CreatorScore
      (Rmin 100 (MarketEngagementAvg a * 0.5 + IZR (MarketsCreated a) * 2)) a.

Definition RecalculateCompositeScore (a : Agent) : Agent :=
  set_CompositeScore
    (AccuracyScore a * 0.40 + EngagementScore a * 0.25
     + CreatorScore a * 0.20 + ActivityScore a * 0.15) a.

Definition RecalculateAllScores (a : Agent) : Agent :=
  let a := RecalculateAccuracyScore a in
  let a := RecalculateEngagementScore a in
  let a := RecalculateActivityScore a in
  let a := RecalculateCreatorScore a in
  let a := RecalculateCompositeScore a in
  set_Reputation (CompositeScore a / 100) a.

(** [UpdateActivity]; [now] is the value [time.Now()] returns in the call. *)
Definition UpdateActivity (now : Go.Time) (a : Agent) : Agent :=
  let today := Go.startOfDay now in
  let a :=
    match LastActiveAt a with
    | None => set_DaysActiveMonth 1 (set_CurrentStreak 1 a)
    | Some last =>
        let lastActive := Go.startOfDay last in
        let daysDiff := Go.wholeDays (Go.Sub today lastActive) in
        if (daysDiff =? 0)%Z then a
        else if (daysDiff =? 1)%Z then
          set_DaysActiveMonth (Go.wrap64 (DaysActiveMonth a + 1))
            (set_CurrentStreak (Go.wrap64 (CurrentStreak a + 1)) a)
        else
          set_DaysActiveMonth (Go.wrap64 (DaysActiveMonth a + 1))
            (set_CurrentStreak 1 a)
    end in
  let a :=
    if (LongestStreak a <? CurrentStreak a)%Z
    then set_LongestStreak (CurrentStreak a) a else a in
  set_LastActiveAt (Some now) a.

Definition CalculateWeight (a : Agent) : R :=
  let experienceFactor := 1 + Rmin 1 (IZR (TotalPredictions a) / 100) in
  CompositeScore a / 100 * experienceFactor.

End models.

(** ** Swarm consensus *)

Module agents.

Import models.

(** [AgentBet] (bet.go); the timestamps and the two calculated fields are
    not read by the consensus and are left out. *)
Module AgentBet.
Record t := mk {
  ID : Z;
  AgentID : Z;
  MarketID : Z;
  Amount : Z;
  Outcome : string;
  Confidence : R;
  Reasoning : string
}.
End AgentBet.

Module AgentPrediction.
Record t := mk {
  AgentName : string;
  Outcome : string;
  Amount : Z;
  Confidence : R;
  Reputation : R;
  Weight : R;
  Reasoning : string
}.
End AgentPrediction.

Record SwarmBreakdown := mkSwarmBreakdown {
  YesCount : Z;
  NoCount : Z;
  YesWeight : R;
  NoWeight : R;
  YesAmount : Z;
  NoAmount : Z
}.

Record SwarmConsensus := mkSwarmConsensus {
  MarketID : Z;
  ConsensusProbability : R;
  TotalAgents : Z;
  TotalBets : Z;
  TotalWagered : Z;
  AverageConfidence : R;
  AverageReputation : R;
  Breakdown : SwarmBreakdown;
  TopPredictors : list AgentPrediction.t
}.

(** The local variables of [calculateSwarmConsensus] that its first loop
    updates. *)
Record accumulators := mkAccumulators {
  weightedYesSum : R;
  weightedNoSum : R;
  totalWeight : R;
  totalConfidence : R;
  totalReputation : R;
  yesCount : Z;
  noCount : Z;
  yesAmount : Z;
  noAmount : Z;
  topPredictors : list AgentPrediction.t;
  uniqueAgents : gset Z
}.

Definition initial : accumulators :=
  mkAccumulators 0 0 0 0 0 0 0 0 0 [] ∅.

Definition betWeight (agent : Agent) (bet : AgentBet.t) : R :=
  let reputationWeight := Reputation agent in
  let confidenceWeight := AgentBet.Confidence bet in
  let amountWeight := ln (IZR (AgentBet.Amount bet) + 1) / ln 100 in
  reputationWeight * confidenceWeight * amountWeight.

(** The body of [for _, bet := range bets] for a bet whose agent is in the
    map. *)
Definition account (s : accumulators) (agent : Agent) (bet : AgentBet.t)
    : accumulators :=
  let weight := betWeight agent bet in
  let yes := String.eqb (AgentBet.Outcome bet) "yes" in
  {| weightedYesSum :=
       if yes then weightedYesSum s + weight else weightedYesSum s;
     weightedNoSum :=
       if yes then weightedNoSum s else weightedNoSum s + weight;
     totalWeight := totalWeight s + weight;
     totalConfidence := totalConfidence s + AgentBet.Confidence bet;
     totalReputation := totalReputation s + Reputation agent;
     yesCount := if yes then (yesCount s + 1)%Z else yesCount s;
     noCount := if yes then noCount s else (noCount s + 1)%Z;
     yesAmount :=
       if yes then Go.wrap64 (yesAmount s + AgentBet.Amount bet)
       else yesAmount s;
     noAmount :=
       if yes then noAmount s
       else Go.wrap64 (noAmount s + AgentBet.Amount bet);
     topPredictors :=
       topPredictors s ++
       [ AgentPrediction.mk (Name agent) (AgentBet.Outcome bet)
           (AgentBet.Amount bet) (AgentBet.Confidence bet)
           (Reputation agent) weight (AgentBet.Reasoning bet) ];
     uniqueAgents := {[ ID agent ]} ∪ uniqueAgents s |}.

(** One iteration of [for _, bet := range bets]: a bet whose agent is not in
    the map is skipped. *)
Definition accumulate (agents : gmap Z Agent) (s : accumulators)
    (bet : AgentBet.t) : accumulators :=
  match agents !! AgentBet.AgentID bet with
  | None => s
  | Some agent => account s agent bet
  end.

(** The bubble sort of the top predictors.  [swapIfLess j] is the body of
    the inner loop; an index outside the slice, which the loop bounds
    exclude, leaves the slice as it is. *)
Definition swapIfLess (j : nat) (ps : list AgentPrediction.t)
    : list AgentPrediction.t :=
  match ps !! j, ps !! S j with
  | Some a, Some b =>
      if Rlt_dec (AgentPrediction.Weight a) (AgentPrediction.Weight b)
      then <[S j := a]> (<[j := b]> ps)
      else ps
  | _, _ => ps
  end.

(** [for j := j0; j < j0 + count; j++]. *)
Fixpoint innerLoop (count j : nat) (ps : list AgentPrediction.t)
    : list AgentPrediction.t :=
  match count with
  | O => ps
  | S c => innerLoop c (S j) (swapIfLess j ps)
  end.

(** [for i := i0; i < i0 + count; i++], each round running [j] from [0]
    up to [len - i - 1]. *)
Fixpoint outerLoop (count i : nat) (ps : list AgentPrediction.t)
    : list AgentPrediction.t :=
  match count with
  | O => ps
  | S c => outerLoop c (S i) (innerLoop (length ps - i - 1) 0 ps)
  end.

Definition sortByWeight (ps : list AgentPrediction.t)
    : list AgentPrediction.t :=
  outerLoop (length ps - 1) 0 ps.

Definition limitTop10 (ps : list AgentPrediction.t)
    : list AgentPrediction.t :=
  if (10 <? length ps)%nat then take 10 ps else ps.

Definition calculateSwarmConsensus (bets : list AgentBet.t)
    (agents : gmap Z Agent) : SwarmConsensus :=
  match bets with
  | [] => mkSwarmConsensus 0 0.5 0 0 0 0 0 (mkSwarmBreakdown 0 0 0 0 0 0) []
  | _ =>
      let s := fold_left (accumulate agents) bets initial in
      let consensusProbability :=
        if Rlt_dec 0 (totalWeight s)
        then weightedYesSum s / totalWeight s else 0.5 in
      let top := limitTop10 (sortByWeight (topPredictors s)) in
      let n := IZR (Z.of_nat (length bets)) in
      let avgConfidence :=
        if (0 <? length bets)%nat then totalConfidence s / n else 0 in
      let avgReputation :=
        if (0 <? length bets)%nat then totalReputation s / n else 0 in
      {| MarketID := 0;
         ConsensusProbability := consensusProbability;
         TotalAgents := Z.of_nat (size (uniqueAgents s));
         TotalBets := Z.of_nat (length bets);
         TotalWagered := Go.wrap64 (yesAmount s + noAmount s);
         AverageConfidence := avgConfidence;
         AverageReputation := avgReputation;
         Breakdown :=
           mkSwarmBreakdown (yesCount s) (noCount s) (weightedYesSum s)
             (weightedNoSum s) (yesAmount s) (noAmount s);
         TopPredictors := top |}
  end.

End agents.

(** ** What the specification says, in its own words

    These definitions follow the text of the specification, not the code;
    the theorems below compare the code with them. *)

Module Spec.

Import models agents.

(** The two-valued outcome vocabulary of the specification. *)
Definition validOutcome (outcome : string) : bool :=
  String.eqb outcome "YES" || String.eqb outcome "NO".

(** The resolvable bets, each with the agent it resolves to, in input
    order. *)
Definition resolvable (agents : gmap Z Agent) (bets : list AgentBet.t)
    : list (Agent * AgentBet.t) :=
  omap (fun bet => agent ← agents !! AgentBet.AgentID bet; Some (agent, bet))
       bets.

Definition sumR (xs : list R) : R := foldr Rplus 0 xs.

(** The simple arithmetic mean. *)
Definition mean (xs : list R) : R := sumR xs / INR (length xs).

(** The per-bet weight of section 4.3. *)
Definition weight (ab : Agent * AgentBet.t) : R :=
  Reputation ab.1 * AgentBet.Confidence ab.2
  * (ln (IZR (AgentBet.Amount ab.2) + 1) / ln 100).

(** The per-bet projection of section 4.3, step 7. *)
Definition projection (ab : Agent * AgentBet.t) : AgentPrediction.t :=
  AgentPrediction.mk (Name ab.1) (AgentBet.Outcome ab.2)
    (AgentBet.Amount ab.2) (AgentBet.Confidence ab.2) (Reputation ab.1)
    (weight ab) (AgentBet.Reasoning ab.2).

Definition sumZ (xs : list Z) : Z := foldr Z.add 0%Z xs.

(** The resolvable bets on the YES side and on the NO side, for a given
    spelling of the YES outcome. *)
Definition onYes (yes : string) (rs : list (Agent * AgentBet.t))
    : list (Agent * AgentBet.t) :=
  filter (fun ab => AgentBet.Outcome ab.2 = yes) rs.

Definition onNo (yes : string) (rs : list (Agent * AgentBet.t))
    : list (Agent * AgentBet.t) :=
  filter (fun ab => AgentBet.Outcome ab.2 <> yes) rs.

(** A bet record of the data model: a non-negative amount and confidence,
    placed by an agent of non-negative reputation. *)
Definition wellFormed (ab : Agent * AgentBet.t) : Prop :=
  0 <= Reputation ab.1 /\ 0 <= AgentBet.Confidence ab.2
  /\ (0 <= AgentBet.Amount ab.2)%Z.

(** [a] comes before [b] in descending order of weight. *)
Definition heavier (a b : AgentPrediction.t) : Prop :=
  AgentPrediction.Weight b <= AgentPrediction.Weight a.

(** A list of predictions in descending order of weight. *)
Definition descending (ps : list AgentPrediction.t) : Prop :=
  StronglySorted heavier ps.

(** [out] keeps the entries of [inp] of every given weight in their
    original order. *)
Definition keepsOrderOfTies (inp out : list AgentPrediction.t) : Prop :=
  forall w : R,
    filter (fun p => AgentPrediction.Weight p = w) out
    = filter (fun p => AgentPrediction.Weight p = w) inp.

End Spec.

(** ** The rest of the market maker and the callers of the model *)

(** [MarketState] and [GetMarketState] (lmsr.go). *)
Module market.

Record MarketState := mkMarketState {
  QYes : R;
  QNo : R;
  PriceYes : R;
  PriceNo : R;
  TotalVolume : R
}.

Definition GetMarketState (l : lmsr.LMSR) (qYes qNo totalVolume : R)
    : MarketState :=
  {| QYes := qYes;
     QNo := qNo;
     PriceYes := lmsr.PriceYes l qYes qNo;
     PriceNo := lmsr.PriceNo l qYes qNo;
     TotalVolume := totalVolume |}.

End market.

(** The update of the agent in [MakePredictionHandler] (predict.go) once a
    new prediction is stored: [agent.TotalPredictions++], then
    [UpdateActivity], [RecalculateActivityScore] and
    [RecalculateCompositeScore]. *)
Module predictions.

Import models.

Definition set_TotalPredictions (v : Z) (a : Agent) : Agent :=
  mkAgent (ID a) (Name a) v (CorrectPredictions a) (ResolvedPredictions a)
    (AccuracyScore a) (EngagementScore a) (CreatorScore a) (ActivityScore a)
    (CompositeScore a) (Reputation a) (TotalUpvotesReceived a)
    (TotalDownvotesReceived a) (TotalCommentsReceived a) (TotalFollowers a)
    (LastActiveAt a) (CurrentStreak a) (LongestStreak a) (DaysActiveMonth a)
    (MarketsCreated a) (MarketEngagementAvg a).

Definition recordPrediction (now : Go.Time) (agent : Agent) : Agent :=
  let agent :=
    set_TotalPredictions (Go.wrap64 (TotalPredictions agent + 1)) agent in
  let agent := UpdateActivity now agent in
  let agent := RecalculateActivityScore agent in
  RecalculateCompositeScore agent.

End predictions.

(** The request validation of [PlaceBetHandler] (bet.go), the bet it
    builds for a request that passes, and the row that [tx.Create] stores
    for it. *)
Module placeBet.

Record AgentBetRequest := mkAgentBetRequest {
  MarketID : Z;
  Amount : Z;
  Outcome : string;
  Confidence : R;
  Reasoning : string
}.

(** [http.Error(w, message, status)] followed by [return]. *)
Record HTTPError := mkHTTPError { Message : string; StatusCode : Z }.

Definition StatusBadRequest : Z := 400.

(** The checks under [// Validate request]: the first one that fails
    answers the request; [None] lets it through.  The last check,
    [req.Confidence < 0 || req.Confidence > 1], is written as its two
    comparisons in turn. *)
Definition validate (req : AgentBetRequest) : option HTTPError :=
  if (MarketID req <=? 0)%Z
  then Some (mkHTTPError "Market ID is required" StatusBadRequest)
  else if (Amount req <=? 0)%Z
  then Some (mkHTTPError "Amount must be positive" StatusBadRequest)
  else if negb (String.eqb (Outcome req) "yes")
          && negb (String.eqb (Outcome req) "no")
  then Some (mkHTTPError "Outcome must be 'yes' or 'no'" StatusBadRequest)
  else if Rlt_dec (Confidence req) 0
  then Some (mkHTTPError "Confidence must be between 0 and 1"
               StatusBadRequest)
  else if Rlt_dec 1 (Confidence req)
  then Some (mkHTTPError "Confidence must be between 0 and 1"
               StatusBadRequest)
  else None.

(** [bet := AgentBet{AgentID: agent.ID, MarketID: req.MarketID, ...}], the
    struct before it is stored: the primary key is still zero. *)
Definition newBet (agent : models.Agent) (req : AgentBetRequest)
    : agents.AgentBet.t :=
  agents.AgentBet.mk 0 (models.ID agent) (MarketID req) (Amount req)
    (Outcome req) (Confidence req) (Reasoning req).

(** The column default of [Confidence] ([gorm:"default:0.5"]). *)
Definition defaultConfidence : R := 0.5.

(** The row of a successful [tx.Create(&bet)]: the database assigns the
    primary key [id], and a [Confidence] of zero, which gorm leaves out of
    the insert, takes the default of its column.  This is the bet that the
    consensus handler reads back. *)
Definition create (id : Z) (bet : agents.AgentBet.t) : agents.AgentBet.t :=
  agents.AgentBet.mk id (agents.AgentBet.AgentID bet)
    (agents.AgentBet.MarketID bet) (agents.AgentBet.Amount bet)
    (agents.AgentBet.Outcome bet)
    (if Req_dec_T (agents.AgentBet.Confidence bet) 0 then defaultConfidence
     else agents.AgentBet.Confidence bet)
    (agents.AgentBet.Reasoning bet).

End placeBet.

(** ** Vocabulary of the theorems

    Notions that the statements and proofs below use to describe what the
    code computes. *)

(** The side that a pricing function trades for an outcome string. *)
Definition tradedSide (outcome : string) : string :=
  if lmsr.isYes outcome then "YES" else "NO".

(** The counters of an agent are non-negative. *)
Definition nonNegativeCounters (a : models.Agent) : Prop :=
  (0 <= models.TotalPredictions a)%Z /\ (0 <= models.CorrectPredictions a)%Z
  /\ (0 <= models.ResolvedPredictions a)%Z
  /\ (0 <= models.TotalUpvotesReceived a)%Z
  /\ (0 <= models.TotalDownvotesReceived a)%Z
  /\ (0 <= models.TotalCommentsReceived a)%Z
  /\ (0 <= models.TotalFollowers a)%Z /\ (0 <= models.CurrentStreak a)%Z
  /\ (0 <= models.LongestStreak a)%Z /\ (0 <= models.DaysActiveMonth a)%Z
  /\ (0 <= models.MarketsCreated a)%Z /\ 0 <= models.MarketEngagementAvg a.

(** The nanoseconds of a day. *)
Definition nanosPerDay : Z := (24 * 3600 * 1000000000)%Z.

(** [America/New_York] around the year 2026: Eastern Standard Time, five
    hours west of UTC, until 2026-03-08 07:00 UTC, when the clocks go from
    02:00 to 03:00; Eastern Daylight Time, four hours west, until 2026-11-01
    06:00 UTC; Eastern Standard Time again from then on. *)
Definition NewYork : Go.Location :=
  Go.mkLocation (-18000) [(1772953200, -14400); (1793512800, -18000)]%Z.

(** The accumulation loop, run over the resolvable bets only. *)
Definition accountAll (rs : list (models.Agent * agents.AgentBet.t))
    (s : agents.accumulators) : agents.accumulators :=
  fold_left (fun s ab => agents.account s ab.1 ab.2) rs s.

Definition amountOf (ab : models.Agent * agents.AgentBet.t) : Z :=
  agents.AgentBet.Amount ab.2.

(** One pass of the inner loop of the sort on the slice as a list: [count]
    comparisons of neighbours from the front, the lighter entry carried
    along. *)
Fixpoint bubble (count : nat) (ps : list agents.AgentPrediction.t)
    : list agents.AgentPrediction.t :=
  match count, ps with
  | S c, a :: b :: rest =>
      if Rlt_dec (agents.AgentPrediction.Weight a)
                 (agents.AgentPrediction.Weight b)
      then b :: bubble c (a :: rest)
      else a :: bubble c (b :: rest)
  | _, _ => ps
  end.

(** The cost function of liquidity [b] without the shift by the larger
    quantity. *)
Definition lse (b x y : R) : R := b * ln (exp (x / b) + exp (y / b)).

(** Its derivative in the first quantity: the price of that side. *)
Definition softmax (b x y : R) : R :=
  exp (x / b) / (exp (x / b) + exp (y / b)).

(** The four sub-scores as functions of the counters of an agent. *)
Definition accuracyOf (a : models.Agent) : R :=
  if (models.ResolvedPredictions a =? 0)%Z then 50
  else (IZR (models.CorrectPredictions a) / IZR (models.ResolvedPredictions a)
        * 100 * IZR (models.ResolvedPredictions a) + 50 * 10)
       / (IZR (models.ResolvedPredictions a) + 10).

Definition totalEngagementOf (a : models.Agent) : R :=
  IZR (Go.wrap64
         (Go.wrap64 (models.TotalUpvotesReceived a
                     + models.TotalCommentsReceived a)
          + models.TotalFollowers a)).

Definition engagementOf (a : models.Agent) : R :=
  if Rle_dec (totalEngagementOf a) 0 then 0
  else Rmin 100 (Go.Log10 (totalEngagementOf a + 1) * 25).

Definition activityOf (a : models.Agent) : R :=
  if (models.DaysActiveMonth a =? 0)%Z then 0
  else Rmin 100 (IZR (models.DaysActiveMonth a) / 30 * 100
                 * (1 + Rmin 0.5 (IZR (models.CurrentStreak a) / 60))).

Definition creatorOf (a : models.Agent) : R :=
  if (models.MarketsCreated a =? 0)%Z then 0
  else Rmin 100 (models.MarketEngagementAvg a * 0.5
                 + IZR (models.MarketsCreated a) * 2).

Definition compositeOf (a : models.Agent) : R :=
  accuracyOf a * 0.40 + engagementOf a * 0.25 + creatorOf a * 0.20
  + activityOf a * 0.15.

(** A bet that [PlaceBetHandler] has stored for some agent: the row created
    under some primary key from the bet built for a request that passed the
    validation. *)
Definition placed (bet : agents.AgentBet.t) : Prop :=
  exists agent req id,
    placeBet.validate req = None
    /\ bet = placeBet.create id (placeBet.newBet agent req).

(** * Theorems *)

(** ** The outcome argument of the pricing functions *)

Section Outcome.

Import lmsr.

Variable l : LMSR.
Variables qYes qNo : R.

Lemma isYes_tradedSide outcome : isYes (tradedSide outcome) = isYes outcome.
Proof. unfold tradedSide. destruct (isYes outcome) eqn:E; reflexivity. Qed.

Lemma CostToBuy_side shares outcome :
  CostToBuy l qYes qNo shares outcome
  = CostToBuy l qYes qNo shares (tradedSide outcome).
Proof. unfold CostToBuy. now rewrite isYes_tradedSide. Qed.

Lemma bisect_side n cost outcome : forall low high,
  bisect n l qYes qNo cost outcome low high
  = bisect n l qYes qNo cost (tradedSide outcome) low high.
Proof.
  induction n as [|n IH]; intros low high; simpl; [reflexivity|].
  rewrite <- CostToBuy_side, !IH. reflexivity.
Qed.

Lemma SharesForCost_side cost outcome :
  SharesForCost l qYes qNo cost outcome
  = SharesForCost l qYes qNo cost (tradedSide outcome).
Proof. unfold SharesForCost. now rewrite <- bisect_side. Qed.

End Outcome.

(** C1 (as amended): the pricing functions have no error result.  Each of
    [CostToBuy], [CostToSell], [SharesForCost], [NewProbabilityAfterBet] and
    [SimulateBet] returns, for every outcome string, the value it returns for
    the side the string is traded as: YES for "yes" and "YES", NO for every
    other string, those outside the outcome vocabulary included. *)
Theorem pricing_defaults_to_no :
  forall (l : lmsr.LMSR) (qYes qNo x : R) (outcome : string),
    lmsr.CostToBuy l qYes qNo x outcome
      = lmsr.CostToBuy l qYes qNo x (tradedSide outcome)
    /\ lmsr.CostToSell l qYes qNo x outcome
      = lmsr.CostToSell l qYes qNo x (tradedSide outcome)
    /\ lmsr.SharesForCost l qYes qNo x outcome
      = lmsr.SharesForCost l qYes qNo x (tradedSide outcome)
    /\ lmsr.NewProbabilityAfterBet l qYes qNo x outcome
      = lmsr.NewProbabilityAfterBet l qYes qNo x (tradedSide outcome)
    /\ lmsr.SimulateBet l qYes qNo x outcome
      = lmsr.SimulateBet l qYes qNo x (tradedSide outcome).
Proof.
  intros l qYes qNo x outcome.
  split; [|split; [|split; [|split]]].
  - apply CostToBuy_side.
  - unfold lmsr.CostToSell. now rewrite <- CostToBuy_side.
  - apply SharesForCost_side.
  - unfold lmsr.NewProbabilityAfterBet.
    now rewrite <- SharesForCost_side, isYes_tradedSide.
  - unfold lmsr.SimulateBet.
    now rewrite <- SharesForCost_side, isYes_tradedSide.
Qed.

(** C1 (as stated) fails: "maybe" is outside the outcome vocabulary, and
    every pricing function prices it as a NO trade instead of failing. *)
Lemma invalid_outcome_is_priced_as_no :
  Spec.validOutcome "maybe" = false
  /\ lmsr.CostToBuy (lmsr.New 100) 0 0 10 "maybe"
     = lmsr.CostToBuy (lmsr.New 100) 0 0 10 "NO"
  /\ lmsr.CostToSell (lmsr.New 100) 0 0 10 "maybe"
     = lmsr.CostToSell (lmsr.New 100) 0 0 10 "NO"
  /\ lmsr.SharesForCost (lmsr.New 100) 0 0 10 "maybe"
     = lmsr.SharesForCost (lmsr.New 100) 0 0 10 "NO"
  /\ lmsr.NewProbabilityAfterBet (lmsr.New 100) 0 0 10 "maybe"
     = lmsr.NewProbabilityAfterBet (lmsr.New 100) 0 0 10 "NO"
  /\ lmsr.SimulateBet (lmsr.New 100) 0 0 10 "maybe"
     = lmsr.SimulateBet (lmsr.New 100) 0 0 10 "NO".
Proof.
  split; [reflexivity|].
  split; [|split; [|split; [|split]]].
  - apply (CostToBuy_side _ _ _ _ "maybe").
  - unfold lmsr.CostToSell. now rewrite (CostToBuy_side _ _ _ _ "maybe").
  - apply (SharesForCost_side _ _ _ _ "maybe").
  - unfold lmsr.NewProbabilityAfterBet.
    now rewrite (SharesForCost_side _ _ _ _ "maybe").
  - unfold lmsr.SimulateBet.
    now rewrite (SharesForCost_side _ _ _ _ "maybe").
Qed.

(** ** Agent scores *)

Section Scores.

Import models.

Lemma Rmin_100_bounds x : 0 <= x -> 0 <= Rmin 100 x <= 100.
Proof.
  intros Hx. split.
  - apply Rmin_glb; lra.
  - apply Rmin_l.
Qed.

Lemma Log10_nonneg x : 1 <= x -> 0 <= Go.Log10 x.
Proof.
  intros Hx. unfold Go.Log10.
  assert (0 < ln 10) by (rewrite <- ln_1; apply ln_increasing; lra).
  assert (0 <= ln x).
  { destruct (Req_dec x 1) as [->|Hne]; [rewrite ln_1; lra|].
    left. rewrite <- ln_1. apply ln_increasing; lra. }
  apply Rmult_le_pos; [assumption|]. left. now apply Rinv_0_lt_compat.
Qed.

Lemma accuracy_bounds (a : Agent) :
  (0 <= CorrectPredictions a <= ResolvedPredictions a)%Z ->
  0 <= AccuracyScore (RecalculateAccuracyScore a) <= 100.
Proof.
  intros [Hc Hr]. unfold RecalculateAccuracyScore.
  destruct (Z.eqb_spec (ResolvedPredictions a) 0) as [E|E]; simpl; [lra|].
  assert (Hpos : (0 < ResolvedPredictions a)%Z) by lia.
  apply IZR_lt in Hpos. apply IZR_le in Hc, Hr.
  set (c := IZR (CorrectPredictions a)) in *.
  set (r := IZR (ResolvedPredictions a)) in *.
  replace ((c / r * 100 * r + 50 * 10) / (r + 10))
    with ((100 * c + 500) / (r + 10)) by (field; lra).
  split.
  - apply Rmult_le_pos; [lra|]. left. apply Rinv_0_lt_compat. lra.
  - apply (Rmult_le_reg_r (r + 10)); [lra|].
    unfold Rdiv. rewrite Rmult_assoc, Rinv_l; lra.
Qed.

Lemma engagement_bounds (a : Agent) :
  0 <= EngagementScore (RecalculateEngagementScore a) <= 100.
Proof.
  unfold RecalculateEngagementScore.
  match goal with |- context [Rle_dec ?t 0] => destruct (Rle_dec t 0) end;
    simpl; [lra|].
  apply Rmin_100_bounds. apply Rmult_le_pos; [|lra].
  apply Log10_nonneg. lra.
Qed.

Lemma activity_bounds (a : Agent) :
  (0 <= DaysActiveMonth a)%Z -> (0 <= CurrentStreak a)%Z ->
  0 <= ActivityScore (RecalculateActivityScore a) <= 100.
Proof.
  intros Hd Hs. unfold RecalculateActivityScore.
  destruct (Z.eqb_spec (DaysActiveMonth a) 0) as [E|E]; simpl; [lra|].
  apply IZR_le in Hd, Hs.
  apply Rmin_100_bounds. apply Rmult_le_pos; [lra|].
  assert (0 <= Rmin 0.5 (IZR (CurrentStreak a) / 60))
    by (apply Rmin_glb; lra).
  lra.
Qed.

Lemma creator_bounds (a : Agent) :
  (0 <= MarketsCreated a)%Z -> 0 <= MarketEngagementAvg a ->
  0 <= CreatorScore (RecalculateCreatorScore a) <= 100.
Proof.
  intros Hm He. unfold RecalculateCreatorScore.
  destruct (Z.eqb_spec (MarketsCreated a) 0) as [E|E]; simpl; [lra|].
  apply IZR_le in Hm. apply Rmin_100_bounds. lra.
Qed.

(** Each method writes its own score and none of the counters. *)
Lemma RecalculateAccuracyScore_frame (a : Agent) :
  let a' := RecalculateAccuracyScore a in
  TotalUpvotesReceived a' = TotalUpvotesReceived a
  /\ TotalCommentsReceived a' = TotalCommentsReceived a
  /\ TotalFollowers a' = TotalFollowers a
  /\ DaysActiveMonth a' = DaysActiveMonth a
  /\ CurrentStreak a' = CurrentStreak a
  /\ MarketsCreated a' = MarketsCreated a
  /\ MarketEngagementAvg a' = MarketEngagementAvg a.
Proof.
  unfold RecalculateAccuracyScore.
  destruct (ResolvedPredictions a =? 0)%Z; simpl; tauto.
Qed.

Lemma RecalculateEngagementScore_frame (a : Agent) :
  let a' := RecalculateEngagementScore a in
  AccuracyScore a' = AccuracyScore a
  /\ DaysActiveMonth a' = DaysActiveMonth a
  /\ CurrentStreak a' = CurrentStreak a
  /\ MarketsCreated a' = MarketsCreated a
  /\ MarketEngagementAvg a' = MarketEngagementAvg a.
Proof.
  unfold RecalculateEngagementScore.
  match goal with |- context [Rle_dec ?t 0] => destruct (Rle_dec t 0) end;
    simpl; tauto.
Qed.

Lemma RecalculateActivityScore_frame (a : Agent) :
  let a' := RecalculateActivityScore a in
  AccuracyScore a' = AccuracyScore a
  /\ EngagementScore a' = EngagementScore a
  /\ MarketsCreated a' = MarketsCreated a
  /\ MarketEngagementAvg a' = MarketEngagementAvg a.
Proof.
  unfold RecalculateActivityScore.
  destruct (DaysActiveMonth a =? 0)%Z; simpl; tauto.
Qed.

Lemma RecalculateCreatorScore_frame (a : Agent) :
  let a' := RecalculateCreatorScore a in
  AccuracyScore a' = AccuracyScore a
  /\ EngagementScore a' = EngagementScore a
  /\ ActivityScore a' = ActivityScore a.
Proof.
  unfold RecalculateCreatorScore.
  destruct (MarketsCreated a =? 0)%Z; simpl; tauto.
Qed.

End Scores.

(** C6: [RecalculateAccuracyScore] sets the accuracy score to exactly 50
    when no prediction is resolved, and otherwise to
    (rawAccuracyPct * resolved + 50 * 10) / (resolved + 10) with
    rawAccuracyPct = correct / resolved * 100; with 100 resolved and 80
    correct predictions the score is 8500/110, which is 77.27 to two
    decimals. *)
Theorem RecalculateAccuracyScore_smoothed :
  (forall a : models.Agent,
     models.AccuracyScore (models.RecalculateAccuracyScore a)
     = if (models.ResolvedPredictions a =? 0)%Z then 50
       else
         let resolved := IZR (models.ResolvedPredictions a) in
         let rawAccuracyPct :=
           IZR (models.CorrectPredictions a) / resolved * 100 in
         (rawAccuracyPct * resolved + 50 * 10) / (resolved + 10))
  /\ (forall a : models.Agent,
        models.AccuracyScore
          (models.RecalculateAccuracyScore
             (models.mkAgent (models.ID a) (models.Name a)
                (models.TotalPredictions a) 80 100 (models.AccuracyScore a)
                (models.EngagementScore a) (models.CreatorScore a)
                (models.ActivityScore a) (models.CompositeScore a)
                (models.Reputation a) (models.TotalUpvotesReceived a)
                (models.TotalDownvotesReceived a)
                (models.TotalCommentsReceived a) (models.TotalFollowers a)
                (models.LastActiveAt a) (models.CurrentStreak a)
                (models.LongestStreak a) (models.DaysActiveMonth a)
                (models.MarketsCreated a) (models.MarketEngagementAvg a)))
        = 8500 / 110)
  /\ Rabs (8500 / 110 - 77.27) < 0.01.
Proof.
  split; [|split].
  - intros a. unfold models.RecalculateAccuracyScore.
    destruct (models.ResolvedPredictions a =? 0)%Z; reflexivity.
  - intros a. unfold models.RecalculateAccuracyScore. simpl. field.
  - apply Rabs_def1; lra.
Qed.

(** C9: for non-negative counters with correctPredictions not above
    resolvedPredictions, after [RecalculateAllScores] the accuracy,
    engagement, activity, creator and composite scores all lie in [0,100],
    and the composite score is
    0.40 accuracy + 0.25 engagement + 0.20 creator + 0.15 activity. *)
Theorem RecalculateAllScores_bounded (a : models.Agent) :
  nonNegativeCounters a ->
  (models.CorrectPredictions a <= models.ResolvedPredictions a)%Z ->
  let a' := models.RecalculateAllScores a in
  0 <= models.AccuracyScore a' <= 100
  /\ 0 <= models.EngagementScore a' <= 100
  /\ 0 <= models.ActivityScore a' <= 100
  /\ 0 <= models.CreatorScore a' <= 100
  /\ 0 <= models.CompositeScore a' <= 100
  /\ models.CompositeScore a'
     = 0.40 * models.AccuracyScore a' + 0.25 * models.EngagementScore a'
       + 0.20 * models.CreatorScore a' + 0.15 * models.ActivityScore a'.
Proof.
  intros (_ & Hc & _ & _ & _ & _ & _ & Hs & _ & Hd & Hm & He) Hcr.
  pose proof (accuracy_bounds a (conj Hc Hcr)) as Hacc.
  set (a1 := models.RecalculateAccuracyScore a) in *.
  destruct (RecalculateAccuracyScore_frame a)
    as (_ & _ & _ & Ed1 & Es1 & Em1 & Ee1). fold a1 in Ed1, Es1, Em1, Ee1.
  pose proof (engagement_bounds a1) as Heng.
  set (a2 := models.RecalculateEngagementScore a1) in *.
  destruct (RecalculateEngagementScore_frame a1)
    as (Ea2 & Ed2 & Es2 & Em2 & Ee2). fold a2 in Ea2, Ed2, Es2, Em2, Ee2.
  assert (Hact : 0 <= models.ActivityScore (models.RecalculateActivityScore a2)
                 <= 100)
    by (apply activity_bounds; congruence).
  set (a3 := models.RecalculateActivityScore a2) in *.
  destruct (RecalculateActivityScore_frame a2) as (Ea3 & Eg3 & Em3 & Ee3).
  fold a3 in Ea3, Eg3, Em3, Ee3.
  assert (Hcre : 0 <= models.CreatorScore (models.RecalculateCreatorScore a3)
                 <= 100)
    by (apply creator_bounds; congruence).
  set (a4 := models.RecalculateCreatorScore a3) in *.
  destruct (RecalculateCreatorScore_frame a3) as (Ea4 & Eg4 & Et4).
  fold a4 in Ea4, Eg4, Et4.
  assert (Ha : 0 <= models.AccuracyScore a4 <= 100)
    by (rewrite Ea4, Ea3, Ea2; exact Hacc).
  assert (Hg : 0 <= models.EngagementScore a4 <= 100)
    by (rewrite Eg4, Eg3; exact Heng).
  assert (Ht : 0 <= models.ActivityScore a4 <= 100)
    by (rewrite Et4; exact Hact).
  change (models.RecalculateAllScores a)
    with (models.set_Reputation
            (models.CompositeScore (models.RecalculateCompositeScore a4) / 100)
            (models.RecalculateCompositeScore a4)).
  cbv zeta. unfold models.RecalculateCompositeScore. simpl.
  repeat split; lra.
Qed.

(** C9 holds of an agent with 100 resolved and 80 correct predictions. *)
Lemma RecalculateAllScores_bounded_example :
  let a := models.mkAgent 1 "oracle" 120 80 100 50 0 0 0 12.5 0.5
             40 3 25 12 None 4 9 20 2 30 in
  let a' := models.RecalculateAllScores a in
  0 <= models.AccuracyScore a' <= 100
  /\ 0 <= models.EngagementScore a' <= 100
  /\ 0 <= models.ActivityScore a' <= 100
  /\ 0 <= models.CreatorScore a' <= 100
  /\ 0 <= models.CompositeScore a' <= 100
  /\ models.CompositeScore a'
     = 0.40 * models.AccuracyScore a' + 0.25 * models.EngagementScore a'
       + 0.20 * models.CreatorScore a' + 0.15 * models.ActivityScore a'.
Proof.
  apply (RecalculateAllScores_bounded
           (models.mkAgent 1 "oracle" 120 80 100 50 0 0 0 12.5 0.5
              40 3 25 12 None 4 9 20 2 30)).
  - unfold nonNegativeCounters; simpl. repeat split; try lia; lra.
  - simpl. lia.
Defined.

(** ** Activity streaks *)

Section Activity.

Import models.

Lemma offsetAt_fixed (l : Go.Location) (sec : Z) :
  Go.transitions l = [] -> Go.offsetAt l sec = Go.firstOffset l.
Proof.
  intros Hfix. unfold Go.offsetAt, Go.lookup. rewrite Hfix. reflexivity.
Qed.

(** In a location without transitions midnight is the civil midnight less
    the offset. *)
Lemma midnight_fixed (day : Z) (l : Go.Location) :
  Go.transitions l = [] ->
  Go.midnight day l = (day * 86400 - Go.firstOffset l)%Z.
Proof.
  intros Hfix. unfold Go.midnight. cbv zeta.
  unfold Go.lookup at 1. rewrite Hfix. cbn [Go.lookupFrom].
  destruct (Z.eqb_spec (Go.firstOffset l) 0) as [E|_]; [lia|].
  destruct (_ || _); [rewrite offsetAt_fixed by assumption|]; reflexivity.
Qed.

(** Between two instants of one location without transitions, the midnights
    of their civil days are a whole number of days apart. *)
Lemma Sub_startOfDay (now last : Go.Time) :
  Go.loc now = Go.loc last -> Go.transitions (Go.loc last) = [] ->
  let d := ((Go.civilDay now - Go.civilDay last) * nanosPerDay)%Z in
  Go.Sub (Go.startOfDay now) (Go.startOfDay last)
  = if (d <? Go.min_int64)%Z then Go.min_int64
    else if (Go.max_int64 <? d)%Z then Go.max_int64 else d.
Proof.
  intros Hl Hfix. unfold Go.Sub, Go.startOfDay, nanosPerDay.
  cbn [Go.unixSec Go.nsec]. rewrite Hl, !midnight_fixed by assumption.
  replace ((Go.civilDay now * 86400 - Go.firstOffset (Go.loc last)
            - (Go.civilDay last * 86400 - Go.firstOffset (Go.loc last)))
           * 1000000000 + (0 - 0))%Z
    with ((Go.civilDay now - Go.civilDay last) * (24 * 3600 * 1000000000))%Z
    by lia.
  reflexivity.
Qed.

Lemma daysDiff_same_day (now last : Go.Time) :
  Go.loc now = Go.loc last -> Go.transitions (Go.loc last) = [] ->
  Go.civilDay now = Go.civilDay last ->
  Go.wholeDays (Go.Sub (Go.startOfDay now) (Go.startOfDay last)) = 0%Z.
Proof.
  intros Hl Hfix Hd. rewrite (Sub_startOfDay _ _ Hl Hfix). cbv zeta.
  rewrite Hd, Z.sub_diag. reflexivity.
Qed.

Lemma daysDiff_next_day (now last : Go.Time) :
  Go.loc now = Go.loc last -> Go.transitions (Go.loc last) = [] ->
  Go.civilDay now = (Go.civilDay last + 1)%Z ->
  Go.wholeDays (Go.Sub (Go.startOfDay now) (Go.startOfDay last)) = 1%Z.
Proof.
  intros Hl Hfix Hd. rewrite (Sub_startOfDay _ _ Hl Hfix). cbv zeta.
  replace (Go.civilDay now - Go.civilDay last)%Z with 1%Z by lia.
  reflexivity.
Qed.

Lemma daysDiff_later (now last : Go.Time) :
  Go.loc now = Go.loc last -> Go.transitions (Go.loc last) = [] ->
  (Go.civilDay last + 1 < Go.civilDay now)%Z ->
  (2 <= Go.wholeDays (Go.Sub (Go.startOfDay now) (Go.startOfDay last)))%Z.
Proof.
  intros Hl Hfix Hd. rewrite (Sub_startOfDay _ _ Hl Hfix). cbv zeta.
  set (k := (Go.civilDay now - Go.civilDay last)%Z).
  assert (Hk : (2 <= k)%Z) by (unfold k; lia).
  assert (Hn : (0 < nanosPerDay)%Z) by reflexivity.
  assert (Hmin : (Go.min_int64 < 0)%Z) by reflexivity.
  destruct (Z.ltb_spec (k * nanosPerDay) Go.min_int64) as [H1|H1]; [nia|].
  destruct (Z.ltb_spec Go.max_int64 (k * nanosPerDay)) as [H2|H2].
  - vm_compute. discriminate.
  - unfold Go.wholeDays. fold nanosPerDay.
    rewrite Z.quot_mul by lia. exact Hk.
Qed.

Lemma wrap64_small (z : Z) :
  (Go.min_int64 <= z <= Go.max_int64)%Z -> Go.wrap64 z = z.
Proof.
  unfold Go.min_int64, Go.max_int64, Go.wrap64. intros H.
  rewrite Z.mod_small by lia. lia.
Qed.

End Activity.

(** C7: [UpdateActivity] is keyed on the number of whole 24-hour periods
    between the two local midnights, which is not the number of calendar
    days when a day of the location is shorter than 24 hours.  In New York
    the clocks went forward on 2026-03-08, so the midnights of 03-08 and
    03-09 are 23 hours apart.  For an agent last active on 03-08 at 10:00
    local time with a streak of 3 and 5 active days, a call on the next
    calendar day (03-09 at 10:00) finds a day difference of 0 and leaves
    both counters unchanged, where they should become 4 and 6; a call two
    calendar days later (03-10 at 10:00) finds a day difference of 1 and
    continues the streak to 4, where it should be reset to 1. *)
Theorem UpdateActivity_counts_short_day_as_none :
  let last := Go.mkTime (20520 * 86400 + 50400) 0 NewYork in
  let next := Go.mkTime (20521 * 86400 + 50400) 0 NewYork in
  let later := Go.mkTime (20522 * 86400 + 50400) 0 NewYork in
  let a := models.mkAgent 1 "oracle" 120 80 100 50 0 0 0 12.5 0.5
             40 3 25 12 (Some last) 3 7 5 2 30 in
  (Go.civilDay last = 20520%Z /\ Go.civilDay next = 20521%Z
   /\ Go.civilDay later = 20522%Z)
  /\ (Go.Sub (Go.startOfDay next) (Go.startOfDay last)
      = (23 * 3600 * 1000000000)%Z
      /\ models.CurrentStreak (models.UpdateActivity next a) = 3%Z
      /\ models.DaysActiveMonth (models.UpdateActivity next a) = 5%Z)
  /\ (Go.Sub (Go.startOfDay later) (Go.startOfDay last)
      = (47 * 3600 * 1000000000)%Z
      /\ models.CurrentStreak (models.UpdateActivity later a) = 4%Z
      /\ models.DaysActiveMonth (models.UpdateActivity later a) = 6%Z).
Proof. repeat split; reflexivity. Qed.

(** Where every day has 24 hours the count is that of the calendar days.
    After every call longestStreak is the larger of its old value and the
    new currentStreak, and lastActiveAt is the event time.  When the agent
    was active before, at an instant of the location of the event, a
    location without transitions such as UTC, and the two counters are below
    the largest [int64]: a call on the same calendar day leaves currentStreak
    and daysActiveMonth unchanged; a call on the next calendar day adds 1 to
    both; a call after a larger gap sets currentStreak to 1 and adds 1 to
    daysActiveMonth. *)
Lemma UpdateActivity_calendar_day (now : Go.Time) (a : models.Agent) :
  let a' := models.UpdateActivity now a in
  (models.LongestStreak a'
   = Z.max (models.LongestStreak a) (models.CurrentStreak a')
   /\ models.LastActiveAt a' = Some now)
  /\ forall last : Go.Time,
       models.LastActiveAt a = Some last ->
       Go.loc now = Go.loc last -> Go.transitions (Go.loc last) = [] ->
       (Go.min_int64 <= models.CurrentStreak a < Go.max_int64)%Z ->
       (Go.min_int64 <= models.DaysActiveMonth a < Go.max_int64)%Z ->
       (Go.civilDay now = Go.civilDay last ->
          models.CurrentStreak a' = models.CurrentStreak a
          /\ models.DaysActiveMonth a' = models.DaysActiveMonth a)
       /\ (Go.civilDay now = (Go.civilDay last + 1)%Z ->
             models.CurrentStreak a' = (models.CurrentStreak a + 1)%Z
             /\ models.DaysActiveMonth a' = (models.DaysActiveMonth a + 1)%Z)
       /\ ((Go.civilDay last + 1 < Go.civilDay now)%Z ->
             models.CurrentStreak a' = 1%Z
             /\ models.DaysActiveMonth a' = (models.DaysActiveMonth a + 1)%Z).
Proof.
  intros a'. split.
  - subst a'. unfold models.UpdateActivity. cbv zeta.
    destruct (models.LastActiveAt a) as [last|]; cbv zeta;
      [destruct (Go.wholeDays
                   (Go.Sub (Go.startOfDay now) (Go.startOfDay last)) =? 0)%Z;
       [|destruct (Go.wholeDays
                     (Go.Sub (Go.startOfDay now) (Go.startOfDay last)) =? 1)%Z]
      |];
      simpl;
      match goal with
      | |- context [(?x <? ?y)%Z] => destruct (Z.ltb_spec x y)
      end; simpl; split; try reflexivity; lia.
  - intros last Hlast Hl Hfix Hs Hd.
    assert (Ws : Go.wrap64 (models.CurrentStreak a + 1)
                 = (models.CurrentStreak a + 1)%Z)
      by (apply wrap64_small; unfold Go.min_int64, Go.max_int64 in *; lia).
    assert (Wd : Go.wrap64 (models.DaysActiveMonth a + 1)
                 = (models.DaysActiveMonth a + 1)%Z)
      by (apply wrap64_small; unfold Go.min_int64, Go.max_int64 in *; lia).
    subst a'. unfold models.UpdateActivity. rewrite Hlast. cbv zeta.
    split; [|split].
    + intros Hday. rewrite (daysDiff_same_day _ _ Hl Hfix Hday). simpl.
      destruct (models.LongestStreak a <? models.CurrentStreak a)%Z;
        simpl; auto.
    + intros Hday. rewrite (daysDiff_next_day _ _ Hl Hfix Hday). simpl.
      rewrite Ws, Wd.
      destruct (models.LongestStreak a <? models.CurrentStreak a + 1)%Z;
        simpl; auto.
    + intros Hday. pose proof (daysDiff_later _ _ Hl Hfix Hday) as H2.
      destruct (Z.eqb_spec
                  (Go.wholeDays
                     (Go.Sub (Go.startOfDay now) (Go.startOfDay last)))
                  0) as [E|_]; [lia|].
      destruct (Z.eqb_spec
                  (Go.wholeDays
                     (Go.Sub (Go.startOfDay now) (Go.startOfDay last)))
                  1) as [E|_]; [lia|].
      simpl. rewrite Wd.
      destruct (models.LongestStreak a <? 1)%Z; simpl; auto.
Qed.

(** An agent last active on day 19999 at 02:00 UTC, with a streak of 3 and
    5 active days, at an event on day 20000 at 01:00 UTC. *)
Lemma UpdateActivity_calendar_day_example :
  let last := Go.mkTime (19999 * 86400 + 7200) 0 Go.UTC in
  let now := Go.mkTime (20000 * 86400 + 3600) 0 Go.UTC in
  let a := models.mkAgent 1 "oracle" 120 80 100 50 0 0 0 12.5 0.5
             40 3 25 12 (Some last) 3 7 5 2 30 in
  models.CurrentStreak (models.UpdateActivity now a) = 4%Z
  /\ models.DaysActiveMonth (models.UpdateActivity now a) = 6%Z.
Proof.
  intros last now a.
  destruct (UpdateActivity_calendar_day now a) as [_ H].
  destruct (H last) as (_ & Hnext & _).
  - reflexivity.
  - reflexivity.
  - reflexivity.
  - unfold Go.min_int64, Go.max_int64. simpl. lia.
  - unfold Go.min_int64, Go.max_int64. simpl. lia.
  - apply Hnext. reflexivity.
Defined.

(** The civil days are those of each instant's own location.  An event on
    the next civil day of a location two hours east of the last activity's
    comes 22 hours after the last activity's midnight and is counted as the
    same day: the streak stays. *)
Lemma UpdateActivity_across_locations :
  let last := Go.mkTime (19999 * 86400 + 7200) 0 Go.UTC in
  let now := Go.mkTime (20000 * 86400 + 3600) 0 (Go.FixedZone 7200) in
  let a := models.mkAgent 1 "oracle" 120 80 100 50 0 0 0 12.5 0.5
             40 3 25 12 (Some last) 3 7 5 2 30 in
  Go.civilDay now = (Go.civilDay last + 1)%Z
  /\ models.CurrentStreak (models.UpdateActivity now a) = 3%Z
  /\ models.DaysActiveMonth (models.UpdateActivity now a) = 5%Z.
Proof. repeat split; reflexivity. Qed.

(** The first activity of an agent starts a streak of one day. *)
Lemma UpdateActivity_first (now : Go.Time) (a : models.Agent) :
  models.LastActiveAt a = None ->
  models.CurrentStreak (models.UpdateActivity now a) = 1%Z
  /\ models.DaysActiveMonth (models.UpdateActivity now a) = 1%Z.
Proof.
  intros Hnone. unfold models.UpdateActivity. rewrite Hnone. cbv zeta.
  destruct (_ <? _)%Z; simpl; split; reflexivity.
Qed.

(** ** Swarm consensus: the accumulation loop *)

Section Accumulation.

Import models agents.

Variable agentsMap : gmap Z Agent.

Lemma resolvable_cons bet bets :
  Spec.resolvable agentsMap (bet :: bets)
  = match agentsMap !! AgentBet.AgentID bet with
    | Some agent => (agent, bet) :: Spec.resolvable agentsMap bets
    | None => Spec.resolvable agentsMap bets
    end.
Proof.
  unfold Spec.resolvable. simpl.
  destruct (agentsMap !! AgentBet.AgentID bet); reflexivity.
Qed.

Lemma fold_accumulate_resolvable bets : forall s,
  fold_left (accumulate agentsMap) bets s
  = accountAll (Spec.resolvable agentsMap bets) s.
Proof.
  induction bets as [|bet bets IH]; intros s; [reflexivity|].
  rewrite resolvable_cons. simpl. rewrite IH. unfold accumulate.
  destruct (agentsMap !! AgentBet.AgentID bet); reflexivity.
Qed.

Lemma onYes_cons yes ab rs :
  Spec.onYes yes (ab :: rs)
  = if String.eqb (AgentBet.Outcome ab.2) yes
    then ab :: Spec.onYes yes rs else Spec.onYes yes rs.
Proof.
  unfold Spec.onYes. rewrite filter_cons.
  destruct (String.eqb_spec (AgentBet.Outcome ab.2) yes);
    destruct (decide (AgentBet.Outcome ab.2 = yes)); tauto.
Qed.

Lemma onNo_cons yes ab rs :
  Spec.onNo yes (ab :: rs)
  = if String.eqb (AgentBet.Outcome ab.2) yes
    then Spec.onNo yes rs else ab :: Spec.onNo yes rs.
Proof.
  unfold Spec.onNo. rewrite filter_cons.
  destruct (String.eqb_spec (AgentBet.Outcome ab.2) yes);
    destruct (decide (AgentBet.Outcome ab.2 <> yes)); tauto.
Qed.

Lemma betWeight_weight agent bet :
  betWeight agent bet = Spec.weight (agent, bet).
Proof. reflexivity. Qed.

Ltac by_accumulation rs :=
  induction rs as [|[agent bet] rs IH]; intros s; simpl;
  [ try lra; try lia; try reflexivity
  | rewrite IH; simpl; rewrite ?onYes_cons, ?onNo_cons, ?betWeight_weight;
    simpl; destruct (String.eqb (AgentBet.Outcome bet) "yes"); simpl;
    try lra; try lia ].

Lemma accountAll_totalWeight rs : forall s,
  totalWeight (accountAll rs s)
  = totalWeight s + Spec.sumR (map Spec.weight rs).
Proof. by_accumulation rs. Qed.

Lemma accountAll_totalConfidence rs : forall s,
  totalConfidence (accountAll rs s)
  = totalConfidence s
    + Spec.sumR (map (fun ab => AgentBet.Confidence ab.2) rs).
Proof. by_accumulation rs. Qed.

Lemma accountAll_totalReputation rs : forall s,
  totalReputation (accountAll rs s)
  = totalReputation s + Spec.sumR (map (fun ab => Reputation ab.1) rs).
Proof. by_accumulation rs. Qed.

Lemma accountAll_weightedYesSum rs : forall s,
  weightedYesSum (accountAll rs s)
  = weightedYesSum s + Spec.sumR (map Spec.weight (Spec.onYes "yes" rs)).
Proof. by_accumulation rs. Qed.

Lemma accountAll_weightedNoSum rs : forall s,
  weightedNoSum (accountAll rs s)
  = weightedNoSum s + Spec.sumR (map Spec.weight (Spec.onNo "yes" rs)).
Proof. by_accumulation rs. Qed.

Lemma accountAll_yesCount rs : forall s,
  yesCount (accountAll rs s)
  = (yesCount s + Z.of_nat (length (Spec.onYes "yes" rs)))%Z.
Proof. by_accumulation rs. Qed.

Lemma accountAll_noCount rs : forall s,
  noCount (accountAll rs s)
  = (noCount s + Z.of_nat (length (Spec.onNo "yes" rs)))%Z.
Proof. by_accumulation rs. Qed.

Lemma accountAll_topPredictors rs : forall s,
  topPredictors (accountAll rs s)
  = topPredictors s ++ map Spec.projection rs.
Proof.
  induction rs as [|[agent bet] rs IH]; intros s; simpl.
  - now rewrite app_nil_r.
  - rewrite IH. simpl. now rewrite <- app_assoc.
Qed.

Lemma accountAll_uniqueAgents rs : forall s,
  uniqueAgents (accountAll rs s)
  = uniqueAgents s ∪ list_to_set (map (fun ab => ID ab.1) rs).
Proof.
  induction rs as [|[agent bet] rs IH]; intros s; simpl.
  - now rewrite union_empty_r_L.
  - rewrite IH. simpl.
    rewrite (union_comm_L {[ID agent]} (uniqueAgents s)).
    now rewrite union_assoc_L.
Qed.

End Accumulation.

Section Amounts.

Import models agents.

Lemma wrap64_range (z : Z) : Go.in_int64 (Go.wrap64 z).
Proof.
  unfold Go.in_int64, Go.min_int64, Go.max_int64, Go.wrap64.
  pose proof (Z.mod_pos_bound (z + 2 ^ 63) (2 ^ 64)). lia.
Qed.

Lemma wrap64_idem (z : Z) : Go.in_int64 z -> Go.wrap64 z = z.
Proof. intros H. now apply wrap64_small. Qed.

Lemma wrap64_add_l (a b : Z) : Go.wrap64 (Go.wrap64 a + b) = Go.wrap64 (a + b).
Proof.
  unfold Go.wrap64. f_equal.
  replace ((a + 2 ^ 63) mod 2 ^ 64 - 2 ^ 63 + b + 2 ^ 63)%Z
    with ((a + 2 ^ 63) mod 2 ^ 64 + b)%Z by lia.
  rewrite Zplus_mod_idemp_l. f_equal. lia.
Qed.

Lemma accountAll_amount_range rs : forall s,
  Go.in_int64 (yesAmount s) -> Go.in_int64 (noAmount s) ->
  Go.in_int64 (yesAmount (accountAll rs s))
  /\ Go.in_int64 (noAmount (accountAll rs s)).
Proof.
  induction rs as [|[agent bet] rs IH]; intros s Hy Hn; simpl; [tauto|].
  apply IH; simpl;
    destruct (String.eqb (AgentBet.Outcome bet) "yes");
    auto using wrap64_range.
Qed.

Lemma accountAll_yesAmount rs : forall s,
  Go.wrap64 (yesAmount (accountAll rs s))
  = Go.wrap64 (yesAmount s + Spec.sumZ (map amountOf (Spec.onYes "yes" rs))).
Proof.
  induction rs as [|[agent bet] rs IH]; intros s; simpl.
  - now rewrite Z.add_0_r.
  - rewrite IH, onYes_cons. simpl.
    destruct (String.eqb (AgentBet.Outcome bet) "yes"); simpl; [|reflexivity].
    rewrite wrap64_add_l. f_equal. unfold amountOf at 2. simpl. lia.
Qed.

Lemma accountAll_noAmount rs : forall s,
  Go.wrap64 (noAmount (accountAll rs s))
  = Go.wrap64 (noAmount s + Spec.sumZ (map amountOf (Spec.onNo "yes" rs))).
Proof.
  induction rs as [|[agent bet] rs IH]; intros s; simpl.
  - now rewrite Z.add_0_r.
  - rewrite IH, onNo_cons. simpl.
    destruct (String.eqb (AgentBet.Outcome bet) "yes"); simpl; [reflexivity|].
    rewrite wrap64_add_l. f_equal. unfold amountOf at 2. simpl. lia.
Qed.

Lemma initial_amounts_in_range :
  Go.in_int64 (yesAmount initial) /\ Go.in_int64 (noAmount initial).
Proof. split; vm_compute; split; discriminate. Qed.

(** The loop state after all bets, from the resolvable bets. *)
Lemma loop_yesAmount (agentsMap : gmap Z Agent) bets :
  yesAmount (fold_left (accumulate agentsMap) bets initial)
  = Go.wrap64
      (Spec.sumZ
         (map amountOf (Spec.onYes "yes" (Spec.resolvable agentsMap bets)))).
Proof.
  rewrite fold_accumulate_resolvable.
  destruct initial_amounts_in_range as [Hy Hn].
  destruct (accountAll_amount_range (Spec.resolvable agentsMap bets) initial
              Hy Hn) as [Hy' _].
  rewrite <- (wrap64_idem _ Hy'), accountAll_yesAmount. reflexivity.
Qed.

Lemma loop_noAmount (agentsMap : gmap Z Agent) bets :
  noAmount (fold_left (accumulate agentsMap) bets initial)
  = Go.wrap64
      (Spec.sumZ
         (map amountOf (Spec.onNo "yes" (Spec.resolvable agentsMap bets)))).
Proof.
  rewrite fold_accumulate_resolvable.
  destruct initial_amounts_in_range as [Hy Hn].
  destruct (accountAll_amount_range (Spec.resolvable agentsMap bets) initial
              Hy Hn) as [_ Hn'].
  rewrite <- (wrap64_idem _ Hn'), accountAll_noAmount. reflexivity.
Qed.

End Amounts.

(** C10: the outcome test of [calculateSwarmConsensus] is case-sensitive.
    The YES side of the breakdown (count, amount, weight) is made of exactly
    the resolvable bets whose outcome is the lowercase "yes", the NO side of
    all other resolvable bets; a bet on "YES" in capitals is therefore
    counted on the NO side. *)
Theorem consensus_yes_is_lowercase :
  (forall (bets : list agents.AgentBet.t) (agentsMap : gmap Z models.Agent),
     let r := agents.calculateSwarmConsensus bets agentsMap in
     let rs := Spec.resolvable agentsMap bets in
     agents.YesCount (agents.Breakdown r)
       = Z.of_nat (length (Spec.onYes "yes" rs))
     /\ agents.NoCount (agents.Breakdown r)
       = Z.of_nat (length (Spec.onNo "yes" rs))
     /\ agents.YesWeight (agents.Breakdown r)
       = Spec.sumR (map Spec.weight (Spec.onYes "yes" rs))
     /\ agents.NoWeight (agents.Breakdown r)
       = Spec.sumR (map Spec.weight (Spec.onNo "yes" rs))
     /\ agents.YesAmount (agents.Breakdown r)
       = Go.wrap64 (Spec.sumZ (map amountOf (Spec.onYes "yes" rs)))
     /\ agents.NoAmount (agents.Breakdown r)
       = Go.wrap64 (Spec.sumZ (map amountOf (Spec.onNo "yes" rs))))
  /\ (forall (agent : models.Agent) (confidence : R),
        let bet := agents.AgentBet.mk 1 7 1 100 "YES" confidence "" in
        let r := agents.calculateSwarmConsensus [bet] {[ 7%Z := agent ]} in
        agents.YesCount (agents.Breakdown r) = 0%Z
        /\ agents.NoCount (agents.Breakdown r) = 1%Z
        /\ agents.YesAmount (agents.Breakdown r) = 0%Z
        /\ agents.NoAmount (agents.Breakdown r) = 100%Z
        /\ agents.YesWeight (agents.Breakdown r) = 0
        /\ agents.NoWeight (agents.Breakdown r) = Spec.weight (agent, bet)).
Proof.
  assert (General :
    forall (bets : list agents.AgentBet.t) (agentsMap : gmap Z models.Agent),
     let r := agents.calculateSwarmConsensus bets agentsMap in
     let rs := Spec.resolvable agentsMap bets in
     agents.YesCount (agents.Breakdown r)
       = Z.of_nat (length (Spec.onYes "yes" rs))
     /\ agents.NoCount (agents.Breakdown r)
       = Z.of_nat (length (Spec.onNo "yes" rs))
     /\ agents.YesWeight (agents.Breakdown r)
       = Spec.sumR (map Spec.weight (Spec.onYes "yes" rs))
     /\ agents.NoWeight (agents.Breakdown r)
       = Spec.sumR (map Spec.weight (Spec.onNo "yes" rs))
     /\ agents.YesAmount (agents.Breakdown r)
       = Go.wrap64 (Spec.sumZ (map amountOf (Spec.onYes "yes" rs)))
     /\ agents.NoAmount (agents.Breakdown r)
       = Go.wrap64 (Spec.sumZ (map amountOf (Spec.onNo "yes" rs)))).
  { intros bets agentsMap.
    destruct bets as [|bet bets].
    - cbv zeta. simpl. repeat split; reflexivity.
    - set (all := bet :: bets). cbv zeta.
      unfold agents.calculateSwarmConsensus. subst all. cbv zeta.
      cbn [agents.Breakdown agents.YesCount agents.NoCount agents.YesWeight
           agents.NoWeight agents.YesAmount agents.NoAmount].
      rewrite loop_yesAmount, loop_noAmount.
      rewrite fold_accumulate_resolvable.
      rewrite accountAll_yesCount, accountAll_noCount,
        accountAll_weightedYesSum, accountAll_weightedNoSum.
      simpl. repeat split; try reflexivity; lra. }
  split; [exact General|].
  intros agent confidence bet r.
  destruct (General [bet] {[ 7%Z := agent ]})
    as (H1 & H2 & H3 & H4 & H5 & H6).
  fold r in H1, H2, H3, H4, H5, H6.
  rewrite H1, H2, H3, H4, H5, H6.
  rewrite resolvable_cons. subst bet. simpl.
  rewrite lookup_singleton_eq.
  rewrite onYes_cons, onNo_cons. simpl.
  repeat split; try reflexivity. lra.
Qed.

(** ** Swarm consensus: the weighted probability and the averages *)

Section Probability.

Import models agents.

Lemma sumR_yes_no (rs : list (Agent * AgentBet.t)) :
  Spec.sumR (map Spec.weight rs)
  = Spec.sumR (map Spec.weight (Spec.onYes "yes" rs))
    + Spec.sumR (map Spec.weight (Spec.onNo "yes" rs)).
Proof.
  induction rs as [|ab rs IH]; simpl; [lra|].
  rewrite onYes_cons, onNo_cons, IH.
  destruct (String.eqb (AgentBet.Outcome ab.2) "yes"); simpl; lra.
Qed.

Lemma ln_100_pos : 0 < ln 100.
Proof. rewrite <- ln_1. apply ln_increasing; lra. Qed.

Lemma weight_nonneg ab : Spec.wellFormed ab -> 0 <= Spec.weight ab.
Proof.
  intros (Hr & Hc & Ha). unfold Spec.weight.
  apply IZR_le in Ha.
  assert (0 <= ln (IZR (AgentBet.Amount ab.2) + 1)).
  { destruct (Req_dec (IZR (AgentBet.Amount ab.2)) 0) as [->|Hne].
    - rewrite Rplus_0_l, ln_1. lra.
    - left. rewrite <- ln_1. apply ln_increasing; lra. }
  pose proof ln_100_pos.
  apply Rmult_le_pos; [now apply Rmult_le_pos|].
  apply Rmult_le_pos; [assumption|]. left. now apply Rinv_0_lt_compat.
Qed.

Lemma sumR_weight_nonneg (rs : list (Agent * AgentBet.t)) :
  Forall Spec.wellFormed rs -> 0 <= Spec.sumR (map Spec.weight rs).
Proof.
  induction 1 as [|ab rs Hab _ IH]; simpl; [lra|].
  pose proof (weight_nonneg ab Hab). lra.
Qed.

(** The report for a non-empty list of bets, field by field, from the state
    the loop ends in. *)
Lemma consensus_nonempty bet bets (agentsMap : gmap Z Agent) :
  let all := bet :: bets in
  let s := accountAll (Spec.resolvable agentsMap all) initial in
  let r := calculateSwarmConsensus all agentsMap in
  ConsensusProbability r
    = (if Rlt_dec 0 (totalWeight s)
       then weightedYesSum s / totalWeight s else 0.5)
  /\ AverageConfidence r = totalConfidence s / INR (length all)
  /\ AverageReputation r = totalReputation s / INR (length all)
  /\ TotalBets r = Z.of_nat (length all)
  /\ TotalAgents r = Z.of_nat (size (uniqueAgents s))
  /\ TopPredictors r = limitTop10 (sortByWeight (topPredictors s)).
Proof.
  intros all s r. subst r s.
  unfold calculateSwarmConsensus. subst all. cbv zeta.
  rewrite fold_accumulate_resolvable.
  cbn [ConsensusProbability AverageConfidence AverageReputation TotalBets
       TotalAgents TopPredictors].
  change (0 <? length (bet :: bets))%nat with true. cbv iota.
  rewrite <- INR_IZR_INZ.
  repeat split; reflexivity.
Qed.

End Probability.

(** The weights of the two sides of the breakdown. *)
Lemma consensus_yes_lowercase_sides (bets : list agents.AgentBet.t)
    (agentsMap : gmap Z models.Agent) :
  let r := agents.calculateSwarmConsensus bets agentsMap in
  let rs := Spec.resolvable agentsMap bets in
  agents.YesWeight (agents.Breakdown r)
    = Spec.sumR (map Spec.weight (Spec.onYes "yes" rs))
  /\ agents.NoWeight (agents.Breakdown r)
    = Spec.sumR (map Spec.weight (Spec.onNo "yes" rs)).
Proof.
  destruct bets as [|bet bets].
  - cbv zeta. simpl. split; reflexivity.
  - cbv zeta. unfold agents.calculateSwarmConsensus. cbv zeta.
    cbn [agents.Breakdown agents.YesWeight agents.NoWeight].
    rewrite fold_accumulate_resolvable.
    rewrite accountAll_weightedYesSum, accountAll_weightedNoSum.
    simpl. split; lra.
Qed.

(** C4: on an empty bet list the aggregator returns the neutral report
    (consensusProbability 0.5, no agents, no bets).  On a non-empty list of
    well-formed bets the two sides carry the weights
    reputation * confidence * (ln (amount + 1) / ln 100) of their resolvable
    bets, and consensusProbability is
    weightedYesSum / (weightedYesSum + weightedNoSum), or 0.5 when the total
    weight is zero. *)
Theorem consensus_probability_weighted :
  (forall agentsMap : gmap Z models.Agent,
     let r := agents.calculateSwarmConsensus [] agentsMap in
     agents.ConsensusProbability r = 0.5
     /\ agents.TotalAgents r = 0%Z /\ agents.TotalBets r = 0%Z)
  /\ forall (bets : list agents.AgentBet.t) (agentsMap : gmap Z models.Agent),
       bets <> [] ->
       Forall Spec.wellFormed (Spec.resolvable agentsMap bets) ->
       let r := agents.calculateSwarmConsensus bets agentsMap in
       let rs := Spec.resolvable agentsMap bets in
       let weightedYesSum := Spec.sumR (map Spec.weight (Spec.onYes "yes" rs)) in
       let weightedNoSum := Spec.sumR (map Spec.weight (Spec.onNo "yes" rs)) in
       agents.YesWeight (agents.Breakdown r) = weightedYesSum
       /\ agents.NoWeight (agents.Breakdown r) = weightedNoSum
       /\ (weightedYesSum + weightedNoSum = 0 ->
           agents.ConsensusProbability r = 0.5)
       /\ (weightedYesSum + weightedNoSum <> 0 ->
           agents.ConsensusProbability r
           = weightedYesSum / (weightedYesSum + weightedNoSum)).
Proof.
  split.
  - intros agentsMap. cbv zeta. simpl. repeat split; reflexivity.
  - intros bets agentsMap Hne Hwf r rs wy wn.
    destruct (consensus_yes_lowercase_sides bets agentsMap) as (Hy & Hn).
    fold r rs in Hy, Hn. fold wy in Hy. fold wn in Hn.
    split; [exact Hy|]. split; [exact Hn|].
    destruct bets as [|bet bets]; [contradiction|].
    destruct (consensus_nonempty bet bets agentsMap) as (Hp & _).
    cbv zeta in Hp. fold r rs in Hp.
    rewrite accountAll_totalWeight, accountAll_weightedYesSum in Hp.
    rewrite sumR_yes_no in Hp. fold wy wn in Hp.
    unfold agents.initial in Hp.
    cbn [agents.totalWeight agents.weightedYesSum] in Hp.
    rewrite !Rplus_0_l in Hp.
    assert (0 <= wy + wn).
    { unfold wy, wn. rewrite <- sumR_yes_no.
      now apply sumR_weight_nonneg. }
    rewrite Hp. split; intros Htot.
    + destruct (Rlt_dec 0 (wy + wn)); [lra|reflexivity].
    + destruct (Rlt_dec 0 (wy + wn)); [reflexivity|lra].
Qed.

(** C4 on the single bet of the specification's test: a bet of 100 on "yes"
    with confidence 1 by an agent of reputation 1 puts all weight on YES. *)
Lemma consensus_probability_weighted_example :
  let agent := models.mkAgent 7 "oracle" 120 80 100 50 0 0 0 100 1
                 40 3 25 12 None 4 9 20 2 30 in
  let bet := agents.AgentBet.mk 1 7 1 100 "yes" 1 "" in
  agents.ConsensusProbability
    (agents.calculateSwarmConsensus [bet] {[ 7%Z := agent ]}) = 1.
Proof.
  intros agent bet.
  destruct consensus_probability_weighted as [_ H].
  assert (Hrs : Spec.resolvable {[ 7%Z := agent ]} [bet] = [(agent, bet)]).
  { rewrite resolvable_cons. subst bet. simpl.
    rewrite lookup_singleton_eq. reflexivity. }
  destruct (H [bet] {[ 7%Z := agent ]}) as (_ & _ & _ & Hp).
  - discriminate.
  - rewrite Hrs. constructor; [|constructor].
    unfold Spec.wellFormed. simpl. split; [lra|split; [lra|lia]].
  - assert (HY : Spec.onYes "yes" [(agent, bet)] = [(agent, bet)])
      by reflexivity.
    assert (HN : Spec.onNo "yes" [(agent, bet)] = []) by reflexivity.
    rewrite Hrs, HY, HN in Hp. cbn [map Spec.sumR foldr] in Hp.
    assert (Hw : 0 < Spec.weight (agent, bet)).
    { unfold Spec.weight. simpl.
      assert (0 < ln (100 + 1)) by (rewrite <- ln_1; apply ln_increasing; lra).
      pose proof ln_100_pos.
      rewrite !Rmult_1_l. apply Rmult_lt_0_compat; [assumption|].
      now apply Rinv_0_lt_compat. }
    rewrite Hp by lra. field. lra.
Defined.

(** The two averages of the report for a non-empty list of bets: the sums
    run over the resolvable bets, the divisor is the number of all bets. *)
Lemma consensus_averages bet bets (agentsMap : gmap Z models.Agent) :
  let all := bet :: bets in
  let r := agents.calculateSwarmConsensus all agentsMap in
  let rs := Spec.resolvable agentsMap all in
  agents.AverageConfidence r
    = Spec.sumR (map (fun ab => agents.AgentBet.Confidence ab.2) rs)
      / INR (length all)
  /\ agents.AverageReputation r
    = Spec.sumR (map (fun ab => models.Reputation ab.1) rs)
      / INR (length all).
Proof.
  intros all r rs.
  destruct (consensus_nonempty bet bets agentsMap) as (_ & Hc & Hr & _).
  cbv zeta in Hc, Hr. fold all r rs in Hc, Hr.
  rewrite accountAll_totalConfidence in Hc.
  rewrite accountAll_totalReputation in Hr.
  unfold agents.initial in Hc, Hr.
  cbn [agents.totalConfidence agents.totalReputation] in Hc, Hr.
  rewrite Rplus_0_l in Hc, Hr. split; assumption.
Qed.

(** C2 fails on the code: with one resolvable bet (confidence 0.8, by an
    agent of reputation 0.6) and one orphaned bet, the report gives
    averageConfidence 0.4 and averageReputation 0.3, while the means over the
    resolvable bets are 0.8 and 0.6: the orphaned bet is left out of the sums
    but counted in the divisor. *)
Theorem averages_count_orphaned_bets :
  let agent := models.mkAgent 7 "oracle" 120 80 100 50 0 0 0 60 0.6
                 40 3 25 12 None 4 9 20 2 30 in
  let b1 := agents.AgentBet.mk 1 7 1 100 "yes" 0.8 "" in
  let b2 := agents.AgentBet.mk 2 8 1 50 "no" 0.4 "" in
  let agentsMap : gmap Z models.Agent := {[ 7%Z := agent ]} in
  let r := agents.calculateSwarmConsensus [b1; b2] agentsMap in
  let rs := Spec.resolvable agentsMap [b1; b2] in
  rs = [(agent, b1)]
  /\ agents.AverageConfidence r = 0.4
  /\ Spec.mean (map (fun ab => agents.AgentBet.Confidence ab.2) rs) = 0.8
  /\ agents.AverageReputation r = 0.3
  /\ Spec.mean (map (fun ab => models.Reputation ab.1) rs) = 0.6.
Proof.
  intros agent b1 b2 agentsMap r rs.
  assert (Hrs : rs = [(agent, b1)]).
  { subst rs. rewrite !resolvable_cons. subst b1 b2 agentsMap. simpl.
    rewrite lookup_singleton_eq, lookup_singleton_ne by lia. reflexivity. }
  destruct (consensus_averages b1 [b2] agentsMap) as (Hc & Hr).
  cbv zeta in Hc, Hr. fold r rs in Hc, Hr.
  rewrite Hc, Hr, Hrs. unfold Spec.mean. simpl.
  split; [reflexivity|]. split; [lra|]. split; [lra|]. split; lra.
Qed.

(** ** Swarm consensus: the bubble sort of the top predictors *)

Section Sorting.

Import agents.

Local Abbreviation weightOf := AgentPrediction.Weight.

Lemma bubble_short count ps : (length ps <= 1)%nat -> bubble count ps = ps.
Proof.
  destruct count; [reflexivity|].
  destruct ps as [|a [|b rest]]; simpl; intros; try reflexivity; lia.
Qed.

Lemma swap_neighbours (pre : list AgentPrediction.t) a b rest :
  <[S (length pre) := a]> (<[length pre := b]> (pre ++ a :: b :: rest))
  = pre ++ b :: a :: rest.
Proof. induction pre as [|x pre IH]; simpl; [reflexivity|]. now rewrite IH. Qed.

Lemma take_S_app (pre : list AgentPrediction.t) x rest :
  take (S (length pre)) (pre ++ x :: rest) = pre ++ [x].
Proof. induction pre as [|y pre IH]; simpl; [reflexivity|]. now rewrite IH. Qed.

Lemma drop_S_app (pre : list AgentPrediction.t) x rest :
  drop (S (length pre)) (pre ++ x :: rest) = rest.
Proof. induction pre as [|y pre IH]; simpl; [reflexivity|]. exact IH. Qed.

Lemma swapIfLess_drop j ps a b rest :
  drop j ps = a :: b :: rest ->
  swapIfLess j ps
  = take j ps ++ (if Rlt_dec (weightOf a) (weightOf b)
                  then b :: a :: rest else a :: b :: rest).
Proof.
  intros Hd.
  assert (Hps : ps = take j ps ++ a :: b :: rest)
    by (now rewrite <- Hd, take_drop).
  assert (Hj : length (take j ps) = j).
  { apply length_take_le. apply Nat.lt_le_incl, (lookup_lt_is_Some_1 ps j).
    rewrite <- (Nat.add_0_r j), <- lookup_drop, Hd. eauto. }
  assert (Ha : ps !! j = Some a)
    by (now rewrite <- (Nat.add_0_r j), <- lookup_drop, Hd).
  assert (Hb : ps !! S j = Some b)
    by (now rewrite <- (Nat.add_1_r j), <- lookup_drop, Hd).
  unfold swapIfLess. rewrite Ha, Hb.
  destruct (Rlt_dec (weightOf a) (weightOf b)); [|exact Hps].
  remember (take j ps) as pre eqn:Hpre. clear Hpre Ha Hb Hd.
  subst ps j. apply swap_neighbours.
Qed.

Lemma swapIfLess_short j ps :
  (length (drop j ps) <= 1)%nat -> swapIfLess j ps = ps.
Proof.
  intros Hlen. unfold swapIfLess.
  destruct (ps !! S j) as [b|] eqn:Hb.
  - apply lookup_lt_Some in Hb. rewrite length_drop in Hlen. lia.
  - destruct (ps !! j); reflexivity.
Qed.

(** The inner loop, started at index [j], is a pass over the rest of the
    slice from [j] on. *)
Lemma innerLoop_bubble count : forall j ps,
  innerLoop count j ps = take j ps ++ bubble count (drop j ps).
Proof.
  induction count as [|c IH]; intros j ps; simpl.
  - now rewrite take_drop.
  - destruct (drop j ps) as [|a [|b rest]] eqn:Hd.
    + rewrite swapIfLess_short by (rewrite Hd; simpl; lia).
      rewrite IH. rewrite bubble_short, take_drop.
      * rewrite <- (take_drop j ps) at 1. now rewrite Hd.
      * rewrite length_drop. apply (f_equal length) in Hd.
        rewrite length_drop in Hd. simpl in Hd. lia.
    + rewrite swapIfLess_short by (rewrite Hd; simpl; lia).
      rewrite IH. rewrite bubble_short, take_drop.
      * rewrite <- (take_drop j ps) at 1. now rewrite Hd.
      * rewrite length_drop. apply (f_equal length) in Hd.
        rewrite length_drop in Hd. simpl in Hd. lia.
    + rewrite (swapIfLess_drop j ps a b rest Hd), IH.
      assert (Hj : length (take j ps) = j).
      { apply length_take_le. apply (f_equal length) in Hd.
        rewrite length_drop in Hd. simpl in Hd. lia. }
      remember (take j ps) as pre eqn:Hpre. clear Hpre Hd. subst j.
      simpl.
      destruct (Rlt_dec (weightOf a) (weightOf b));
        rewrite take_S_app, drop_S_app; now rewrite <- app_assoc.
Qed.

Lemma bubble_perm count : forall ps, bubble count ps ≡ₚ ps.
Proof.
  induction count as [|c IH]; intros ps; [reflexivity|].
  destruct ps as [|a [|b rest]]; simpl; try reflexivity.
  destruct (Rlt_dec (weightOf a) (weightOf b)).
  - rewrite IH. apply perm_swap.
  - now rewrite IH.
Qed.

Lemma bubble_length count ps : length (bubble count ps) = length ps.
Proof. apply Permutation_length, bubble_perm. Qed.

(** A pass never exchanges two entries of the same weight. *)
Lemma bubble_ties count : forall ps, Spec.keepsOrderOfTies ps (bubble count ps).
Proof.
  unfold Spec.keepsOrderOfTies.
  induction count as [|c IH]; intros ps v; [reflexivity|].
  destruct ps as [|a [|b rest]]; simpl; try reflexivity.
  destruct (Rlt_dec (weightOf a) (weightOf b)) as [Hlt|Hge].
  - rewrite filter_cons, IH, !filter_cons.
    destruct (decide (weightOf b = v)); destruct (decide (weightOf a = v));
      try reflexivity.
    lra.
  - now rewrite filter_cons, IH, !filter_cons.
Qed.

(** A pass of [count] comparisons carries the lightest of the first
    [count + 1] entries to index [count] and leaves the entries after it in
    place. *)
Lemma bubble_lightest count : forall a rest,
  (count <= length rest)%nat ->
  exists pre m,
    bubble count (a :: rest) = pre ++ m :: drop count rest
    /\ length pre = count
    /\ Forall (fun x => Spec.heavier x m) pre
    /\ Spec.heavier a m.
Proof.
  unfold Spec.heavier.
  induction count as [|c IH]; intros a rest Hlen.
  - exists [], a. simpl. rewrite drop_0. repeat split; auto; lra.
  - destruct rest as [|b rest]; simpl in Hlen; [lia|].
    simpl. destruct (Rlt_dec (weightOf a) (weightOf b)) as [Hlt|Hge].
    + destruct (IH a rest) as (pre & m & E & Hl & Hall & Hm); [lia|].
      exists (b :: pre), m. rewrite E. simpl.
      repeat split; auto. constructor; [lra|assumption].
    + destruct (IH b rest) as (pre & m & E & Hl & Hall & Hm); [lia|].
      exists (a :: pre), m. rewrite E. simpl.
      repeat split; auto; [|lra]. constructor; [lra|assumption].
Qed.

Lemma bubble_app count : forall front back,
  (count < length front)%nat ->
  bubble count (front ++ back) = bubble count front ++ back.
Proof.
  induction count as [|c IH]; intros front back Hlen; [reflexivity|].
  destruct front as [|a [|b front]]; simpl in Hlen; try lia.
  simpl. destruct (Rlt_dec (weightOf a) (weightOf b)).
  - rewrite <- app_comm_cons. f_equal.
    apply (IH (a :: front) back). simpl. lia.
  - rewrite <- app_comm_cons. f_equal.
    apply (IH (b :: front) back). simpl. lia.
Qed.

Lemma outerLoop_perm count : forall i ps, outerLoop count i ps ≡ₚ ps.
Proof.
  induction count as [|c IH]; intros i ps; simpl; [reflexivity|].
  rewrite IH, innerLoop_bubble, drop_0. simpl. apply bubble_perm.
Qed.

Lemma outerLoop_ties count : forall i ps,
  Spec.keepsOrderOfTies ps (outerLoop count i ps).
Proof.
  unfold Spec.keepsOrderOfTies.
  induction count as [|c IH]; intros i ps v; simpl; [reflexivity|].
  rewrite IH, innerLoop_bubble, drop_0. simpl. apply bubble_ties.
Qed.

(** The invariant of the outer loop: after [i] rounds the last [i] entries
    are in descending order and no heavier than any entry before them. *)
Lemma outerLoop_descending count : forall i front back,
  length front = S count -> length back = i ->
  Spec.descending back ->
  (forall x y, x ∈ front -> y ∈ back -> Spec.heavier x y) ->
  Spec.descending (outerLoop count i (front ++ back)).
Proof.
  unfold Spec.descending.
  induction count as [|c IH]; intros i front back Hf Hb Hsorted Hcross.
  - simpl. destruct front as [|x [|? ?]]; simpl in Hf; try lia.
    simpl. constructor; [assumption|].
    apply Forall_forall. intros y Hy. apply Hcross; [left|assumption].
  - simpl. rewrite innerLoop_bubble, drop_0. simpl take. rewrite app_nil_l.
    rewrite length_app, Hf, Hb.
    replace (S (S c) + i - i - 1)%nat with (S c) by lia.
    rewrite bubble_app by lia.
    destruct front as [|a rest]; simpl in Hf; [lia|].
    destruct (bubble_lightest (S c) a rest) as (pre & m & E & Hl & Hall & Hm);
      [lia|].
    rewrite drop_ge in E by lia.
    assert (Hperm : pre ++ [m] ≡ₚ a :: rest)
      by (rewrite <- E; apply bubble_perm).
    rewrite E, <- app_assoc. simpl.
    apply IH; [assumption|simpl; lia| |].
    + constructor; [assumption|].
      apply Forall_forall. intros y Hy. apply Hcross; [|assumption].
      rewrite <- Hperm. apply elem_of_app. right. now left.
    + intros x y Hx Hy. apply elem_of_cons in Hy as [->|Hy].
      * eapply Forall_forall in Hall; eauto.
      * apply Hcross; [|assumption].
        rewrite <- Hperm. apply elem_of_app. now left.
Qed.

Lemma sortByWeight_descending ps : Spec.descending (sortByWeight ps).
Proof.
  unfold sortByWeight.
  destruct ps as [|a rest]; [constructor|].
  rewrite <- (app_nil_r (a :: rest)) at 2.
  apply outerLoop_descending.
  - simpl. lia.
  - reflexivity.
  - constructor.
  - intros x y _ Hy. inversion Hy.
Qed.

Lemma limitTop10_take ps : limitTop10 ps = take 10 ps.
Proof.
  unfold limitTop10. destruct (Nat.ltb_spec 10 (length ps)); [reflexivity|].
  now rewrite take_ge.
Qed.

End Sorting.

(** C5: the top predictors of the report are the per-bet projections of the
    resolvable bets, rearranged into descending order of weight with entries
    of equal weight in their input order, and cut to the first 10. *)
Theorem topPredictors_sorted_stable_top10 :
  forall (bets : list agents.AgentBet.t) (agentsMap : gmap Z models.Agent),
    let projections :=
      map Spec.projection (Spec.resolvable agentsMap bets) in
    let sorted := agents.sortByWeight projections in
    sorted ≡ₚ projections
    /\ Spec.descending sorted
    /\ Spec.keepsOrderOfTies projections sorted
    /\ agents.TopPredictors (agents.calculateSwarmConsensus bets agentsMap)
       = take 10 sorted
    /\ (length
          (agents.TopPredictors (agents.calculateSwarmConsensus bets agentsMap))
        <= 10)%nat.
Proof.
  intros bets agentsMap projections sorted.
  assert (Htop :
    agents.TopPredictors (agents.calculateSwarmConsensus bets agentsMap)
    = take 10 sorted).
  { destruct bets as [|bet bets]; [reflexivity|].
    destruct (consensus_nonempty bet bets agentsMap)
      as (_ & _ & _ & _ & _ & Ht).
    cbv zeta in Ht. rewrite Ht, limitTop10_take.
    rewrite accountAll_topPredictors. reflexivity. }
  split; [apply outerLoop_perm|].
  split; [apply sortByWeight_descending|].
  split; [apply outerLoop_ties|].
  split; [exact Htop|].
  rewrite Htop, length_take. lia.
Qed.

(** ** The division in [SimulateBet] *)

(** In the real-number reading, a bet of a non-positive amount receives no
    shares, and the average price divides by them. *)
Lemma SharesForCost_nonpositive (l : lmsr.LMSR) (qYes qNo cost : R)
    (outcome : string) :
  cost <= 0 -> lmsr.SharesForCost l qYes qNo cost outcome = 0.
Proof.
  intros H. unfold lmsr.SharesForCost.
  destruct (Rle_dec cost 0); [reflexivity|contradiction].
Qed.

(** C8 fails on the code: [SimulateBet] does not guard the division
    averagePrice = cost / sharesReceived.  For an amount of zero no shares
    are received, and the average price is 0 / 0, NaN in binary64; for a
    negative amount it is an infinity.  This holds for every liquidity, all
    quantities and both sides, whatever [math.Exp], [math.Log], [math.Abs]
    and [math.Max] compute. *)
Theorem SimulateBet_divides_by_zero_shares :
  forall (Exp Log Abs : float -> float) (Max : float -> float -> float)
         (l : lmsr64.LMSR) (qYes qNo : float) (outcome : string),
    let zero := lmsr64.SimulateBet Exp Log Abs Max l qYes qNo 0 outcome in
    let negative :=
      lmsr64.SimulateBet Exp Log Abs Max l qYes qNo (-1) outcome in
    lmsr64.SharesReceived zero = 0%float
    /\ PrimFloat.is_nan (lmsr64.AveragePrice zero) = true
    /\ lmsr64.SharesReceived negative = 0%float
    /\ lmsr64.AveragePrice negative = neg_infinity.
Proof.
  intros Exp Log Abs Max l qYes qNo outcome zero negative.
  subst zero negative. unfold lmsr64.SimulateBet, lmsr64.SharesForCost.
  cbn [lmsr64.SharesReceived lmsr64.AveragePrice].
  split; [reflexivity|]. split; [reflexivity|].
  split; reflexivity.
Qed.

(** ** The cost function as a log-sum-exp *)

Section LogSumExp.

Variable b : R.
Hypothesis b_pos : 0 < b.

Lemma sum_exp_pos (x y : R) : 0 < exp x + exp y.
Proof. pose proof (exp_pos x). pose proof (exp_pos y). lra. Qed.

Lemma Cost_lse (l : lmsr.LMSR) (x y : R) :
  lmsr.B l = b -> lmsr.Cost l x y = lse b x y.
Proof.
  intros HB. unfold lmsr.Cost, lse. rewrite HB. cbv zeta.
  set (m := Rmax x y).
  assert (Hx : exp ((x - m) / b) = exp (x / b) * exp (- (m / b))).
  { rewrite <- exp_plus. f_equal. field. lra. }
  assert (Hy : exp ((y - m) / b) = exp (y / b) * exp (- (m / b))).
  { rewrite <- exp_plus. f_equal. field. lra. }
  rewrite Hx, Hy, <- Rmult_plus_distr_r.
  rewrite ln_mult by (apply sum_exp_pos || apply exp_pos).
  rewrite ln_exp. field. lra.
Qed.

Lemma lse_comm (x y : R) : lse b x y = lse b y x.
Proof. unfold lse. now rewrite Rplus_comm. Qed.

Lemma softmax_bounds (x y : R) : 0 < softmax b x y < 1.
Proof.
  unfold softmax.
  pose proof (exp_pos (x / b)) as Hx. pose proof (exp_pos (y / b)) as Hy.
  split.
  - apply Rdiv_lt_0_compat; lra.
  - apply (Rmult_lt_reg_r (exp (x / b) + exp (y / b))); [lra|].
    unfold Rdiv. rewrite Rmult_assoc, Rinv_l; lra.
Qed.

(** The exponential lies below its chord between [0] and [t]. *)
Lemma exp_below_chord (p t : R) :
  0 <= p <= 1 -> exp (p * t) <= p * exp t + (1 - p).
Proof.
  intros [Hp0 Hp1]. set (c := p * t).
  assert (H1 : exp c * (1 + (t - c)) <= exp t).
  { replace t with (c + (t - c)) at 2 by ring. rewrite exp_plus.
    apply Rmult_le_compat_l; [left; apply exp_pos|apply exp_ineq1_le]. }
  assert (H2 : exp c * (1 + - c) <= 1).
  { assert (Hone : exp c * exp (- c) = 1)
      by (rewrite <- exp_plus, Rplus_opp_r; apply exp_0).
    apply Rle_trans with (exp c * exp (- c)); [|right; exact Hone].
    apply Rmult_le_compat_l; [left; apply exp_pos|apply exp_ineq1_le]. }
  assert (E : p * (exp c * (1 + (t - c))) + (1 - p) * (exp c * (1 + - c))
              = exp c) by (unfold c; ring).
  apply (Rmult_le_compat_l p) in H1; [|assumption].
  apply (Rmult_le_compat_l (1 - p)) in H2; [|lra].
  lra.
Qed.

Lemma ln_le_compat (x y : R) : 0 < x -> x <= y -> ln x <= ln y.
Proof.
  intros Hx [Hlt|Heq].
  - left. now apply ln_increasing.
  - right. now rewrite Heq.
Qed.

(** The cost function lies above its tangents: buying [d] more of a side
    costs at least [d] times the current price of that side. *)
Lemma lse_gradient (x y d : R) :
  softmax b x y * d <= lse b (x + d) y - lse b x y.
Proof.
  pose proof (softmax_bounds x y) as [Hp0 Hp1].
  pose proof (sum_exp_pos (x / b) (y / b)) as HS.
  set (p := softmax b x y) in *. set (S := exp (x / b) + exp (y / b)) in *.
  assert (HpS : p * S = exp (x / b)).
  { unfold p, softmax. fold S. field. lra. }
  assert (HqS : (1 - p) * S = exp (y / b)).
  { replace ((1 - p) * S) with (S - p * S) by ring.
    rewrite HpS. unfold S. ring. }
  set (Q := p * exp (d / b) + (1 - p)).
  assert (HQ : exp (p * (d / b)) <= Q) by (apply exp_below_chord; lra).
  assert (HQ0 : 0 < Q) by (pose proof (exp_pos (p * (d / b))); lra).
  assert (Hsum : exp ((x + d) / b) + exp (y / b) = S * Q).
  { replace ((x + d) / b) with (x / b + d / b) by (field; lra).
    rewrite exp_plus, <- HpS, <- HqS. unfold Q. ring. }
  unfold lse. rewrite Hsum. fold S. rewrite ln_mult by assumption.
  assert (Hln : p * (d / b) <= ln Q).
  { rewrite <- (ln_exp (p * (d / b))).
    apply ln_le_compat; [apply exp_pos|assumption]. }
  apply (Rmult_le_compat_l b) in Hln; [|lra].
  replace (b * (p * (d / b))) with (p * d) in Hln by (field; lra).
  lra.
Qed.

End LogSumExp.

(** ** Buying and inverting the cost *)

Section Bisection.

Import lmsr.

Variable l : LMSR.
Variables qYes qNo : R.
Variable outcome : string.

Lemma CostToBuy_zero : CostToBuy l qYes qNo 0 outcome = 0.
Proof.
  unfold CostToBuy. destruct (isYes outcome); rewrite Rplus_0_r; lra.
Qed.

(** The result of the bisection lies between the bounds it starts from. *)
Lemma bisect_bounds (cost : R) (n : nat) : forall low high,
  low <= high -> low <= bisect n l qYes qNo cost outcome low high <= high.
Proof.
  induction n as [|n IH]; intros low high Hle; simpl; [lra|].
  destruct (Rlt_dec _ _); [lra|].
  destruct (Rlt_dec _ _).
  - destruct (IH ((low + high) / 2) high); lra.
  - destruct (IH low ((low + high) / 2)); lra.
Qed.

Lemma SharesForCost_bounds (cost : R) :
  0 < cost -> 0 <= SharesForCost l qYes qNo cost outcome <= cost * 10.
Proof.
  intros Hc. unfold SharesForCost.
  destruct (Rle_dec cost 0); [lra|]. apply bisect_bounds. lra.
Qed.

Hypothesis B_pos : 0 < B l.

(** At every number of shares the cost of buying has a slope, the price of
    the side after the purchase, and lies above the tangent of that slope. *)
Lemma CostToBuy_gradient (y : R) :
  exists p, 0 < p < 1
    /\ forall u, p * (u - y)
                 <= CostToBuy l qYes qNo u outcome
                    - CostToBuy l qYes qNo y outcome.
Proof.
  unfold CostToBuy. destruct (isYes outcome).
  - exists (softmax (B l) (qYes + y) qNo).
    split; [now apply softmax_bounds|]. intros u.
    rewrite !(Cost_lse (B l) B_pos l) by reflexivity.
    pose proof (lse_gradient (B l) B_pos (qYes + y) qNo (u - y)) as H.
    replace (qYes + y + (u - y)) with (qYes + u) in H by ring. lra.
  - exists (softmax (B l) (qNo + y) qYes).
    split; [now apply softmax_bounds|]. intros u.
    rewrite !(Cost_lse (B l) B_pos l) by reflexivity.
    rewrite (lse_comm (B l) qYes (qNo + u)), (lse_comm (B l) qYes (qNo + y)).
    pose proof (lse_gradient (B l) B_pos (qNo + y) qYes (u - y)) as H.
    replace (qNo + y + (u - y)) with (qNo + u) in H by ring. lra.
Qed.

Lemma CostToBuy_increasing (x y : R) :
  x < y -> CostToBuy l qYes qNo x outcome < CostToBuy l qYes qNo y outcome.
Proof.
  intros Hxy. destruct (CostToBuy_gradient x) as (p & [Hp _] & Hg).
  specialize (Hg y).
  assert (0 < p * (y - x)) by (apply Rmult_lt_0_compat; lra). lra.
Qed.

End Bisection.

Lemma New_B (b : R) : 0 < b -> lmsr.B (lmsr.New b) = b.
Proof.
  intros Hb. unfold lmsr.New. destruct (Rle_dec b 0); [lra|reflexivity].
Qed.

Section BuyingYes.

Variable l : lmsr.LMSR.
Hypothesis B_pos : 0 < lmsr.B l.
Variables qYes qNo shares : R.

(** The cost of buying YES shares lies between the shares times the YES
    price before and the shares times the YES price after the purchase. *)
Lemma CostToBuy_yes_between :
  softmax (lmsr.B l) qYes qNo * shares
  <= lmsr.CostToBuy l qYes qNo shares "YES"
  <= softmax (lmsr.B l) (qYes + shares) qNo * shares.
Proof.
  unfold lmsr.CostToBuy.
  change (lmsr.isYes "YES") with true. cbv iota.
  rewrite !(Cost_lse (lmsr.B l) B_pos l) by reflexivity.
  pose proof (lse_gradient (lmsr.B l) B_pos qYes qNo shares) as Hlo.
  pose proof (lse_gradient (lmsr.B l) B_pos (qYes + shares) qNo (- shares))
    as Hhi.
  replace (qYes + shares + - shares) with qYes in Hhi by ring.
  lra.
Qed.

End BuyingYes.

(** C3: buying and inverting the cost does not recover the shares when
    they cost less than a tenth of a unit each.  [SharesForCost] searches
    the interval from 0 to ten times the cost (its "upper bound estimate")
    and returns a share count inside it.  At liquidity 100 with 1000 NO
    shares outstanding, 100 YES shares cost less than 3.4, so the search ends
    below 34 and the result is not within 0.001 of the 100 shares that the
    cost buys. *)
Lemma round_trip_fails_below_a_tenth :
  let cost := lmsr.CostToBuy (lmsr.New 100) 0 1000 100 "YES" in
  0 < cost
  /\ 0.001
     < Rabs (lmsr.SharesForCost (lmsr.New 100) 0 1000 cost "YES" - 100).
Proof.
  intros cost.
  assert (HB : 0 < lmsr.B (lmsr.New 100)) by (rewrite New_B; lra).
  pose proof (CostToBuy_yes_between (lmsr.New 100) HB 0 1000 100)
    as [Hlo Hhi].
  fold cost in Hlo, Hhi.
  pose proof (softmax_bounds (lmsr.B (lmsr.New 100)) 0 1000) as [Hp0 _].
  assert (Hprice : softmax (lmsr.B (lmsr.New 100)) (0 + 100) 1000 < 1 / 30).
  { unfold softmax. rewrite New_B by lra.
    replace ((0 + 100) / 100) with 1 by lra.
    replace (1000 / 100) with (1 + (4.5 + 4.5)) by lra.
    rewrite !exp_plus.
    pose proof (exp_pos 1) as He.
    pose proof (exp_ineq1_le 4.5) as H45.
    assert (H9 : 30 < exp 4.5 * exp 4.5).
    { apply Rlt_le_trans with (5.5 * 5.5); [lra|].
      apply Rmult_le_compat; lra. }
    assert (H29 : exp 1 * 30 < exp 1 * (exp 4.5 * exp 4.5))
      by (apply Rmult_lt_compat_l; assumption).
    apply (Rmult_lt_reg_r (exp 1 + exp 1 * (exp 4.5 * exp 4.5))); [lra|].
    unfold Rdiv at 1. rewrite Rmult_assoc, Rinv_l by lra. lra. }
  assert (Hcost : 0 < cost < 3.4) by lra.
  split; [lra|].
  pose proof (SharesForCost_bounds (lmsr.New 100) 0 1000 "YES" cost
                (proj1 Hcost)) as [_ Hr].
  rewrite Rabs_left; lra.
Qed.

(** * Further properties of the code *)

(** ** Prices *)

Lemma New_pos (liquidity : R) : 0 < lmsr.B (lmsr.New liquidity).
Proof.
  unfold lmsr.New. destruct (Rle_dec liquidity 0); simpl; lra.
Qed.

Section Prices.

Variable l : lmsr.LMSR.

(** The price without the shift by the larger quantity. *)
Lemma PriceYes_softmax (qYes qNo : R) :
  lmsr.PriceYes l qYes qNo = softmax (lmsr.B l) qYes qNo.
Proof.
  unfold lmsr.PriceYes, softmax. cbv zeta.
  set (m := Rmax qYes qNo). set (b := lmsr.B l).
  assert (Hx : exp ((qYes - m) / b) = exp (qYes / b) * exp (- (m / b))).
  { rewrite <- exp_plus. f_equal. unfold Rdiv. ring. }
  assert (Hy : exp ((qNo - m) / b) = exp (qNo / b) * exp (- (m / b))).
  { rewrite <- exp_plus. f_equal. unfold Rdiv. ring. }
  rewrite Hx, Hy, <- Rmult_plus_distr_r.
  pose proof (exp_pos (qYes / b)). pose proof (exp_pos (qNo / b)).
  pose proof (exp_pos (- (m / b))).
  field. split; lra.
Qed.

Lemma softmax_swap (b x y : R) : softmax b x y + softmax b y x = 1.
Proof.
  unfold softmax.
  pose proof (exp_pos (x / b)). pose proof (exp_pos (y / b)).
  field. lra.
Qed.

End Prices.

(** X1: with a positive liquidity and at all quantities, the YES price
    and the NO price lie between 0 and 1 and add up to 1, also in the state
    that [GetMarketState] reports, which repeats the quantities and the
    volume it is given. *)
Theorem prices_are_probabilities :
  forall (l : lmsr.LMSR) (qYes qNo totalVolume : R),
    0 < lmsr.B l ->
    let state := market.GetMarketState l qYes qNo totalVolume in
    0 <= lmsr.PriceYes l qYes qNo <= 1
    /\ 0 <= lmsr.PriceNo l qYes qNo <= 1
    /\ lmsr.PriceYes l qYes qNo + lmsr.PriceNo l qYes qNo = 1
    /\ 0 <= market.PriceYes state <= 1
    /\ 0 <= market.PriceNo state <= 1
    /\ market.PriceYes state + market.PriceNo state = 1
    /\ market.QYes state = qYes /\ market.QNo state = qNo
    /\ market.TotalVolume state = totalVolume.
Proof.
  intros l qYes qNo totalVolume _ state. subst state. simpl.
  unfold lmsr.PriceNo. rewrite PriceYes_softmax.
  pose proof (softmax_bounds (lmsr.B l) qYes qNo) as [H0 H1].
  repeat split; lra.
Qed.

(** X1 at liquidity 100 with 250 YES and 40 NO shares outstanding. *)
Lemma prices_are_probabilities_example :
  0 <= lmsr.PriceYes (lmsr.New 100) 250 40 <= 1
  /\ 0 <= lmsr.PriceNo (lmsr.New 100) 250 40 <= 1
  /\ lmsr.PriceYes (lmsr.New 100) 250 40
     + lmsr.PriceNo (lmsr.New 100) 250 40 = 1.
Proof.
  destruct (prices_are_probabilities (lmsr.New 100) 250 40 1000
              (New_pos 100)) as (HY & HN & Hsum & _).
  split; [exact HY|]. split; [exact HN|exact Hsum].
Defined.


(** ** The cost function *)

Section CostBounds.

Variable l : lmsr.LMSR.
Hypothesis B_pos : 0 < lmsr.B l.

Lemma shifted_exp_le_1 (q m : R) : q <= m -> exp ((q - m) / lmsr.B l) <= 1.
Proof.
  intros Hq. rewrite <- exp_0.
  assert (H : (q - m) / lmsr.B l <= 0).
  { assert (0 < / lmsr.B l) by (now apply Rinv_0_lt_compat).
    assert (0 <= (m - q) * / lmsr.B l) by (apply Rmult_le_pos; lra).
    unfold Rdiv. lra. }
  destruct H as [H|H]; [left; now apply exp_increasing|right; now rewrite H].
Qed.

(** The shifted sum of exponentials lies between 1 and 2: the larger
    quantity contributes exactly 1, the smaller at most 1. *)
Lemma shifted_sum_bounds (qYes qNo : R) :
  let m := Rmax qYes qNo in
  1 <= exp ((qYes - m) / lmsr.B l) + exp ((qNo - m) / lmsr.B l) <= 2.
Proof.
  intros m.
  pose proof (shifted_exp_le_1 qYes m (Rmax_l _ _)) as H1.
  pose proof (shifted_exp_le_1 qNo m (Rmax_r _ _)) as H2.
  pose proof (exp_pos ((qYes - m) / lmsr.B l)) as P1.
  pose proof (exp_pos ((qNo - m) / lmsr.B l)) as P2.
  split; [|lra].
  unfold m in *. unfold Rmax in *. destruct (Rle_dec qYes qNo).
  - replace ((qNo - qNo) / lmsr.B l) with 0 by (unfold Rdiv; ring).
    rewrite exp_0. lra.
  - replace ((qYes - qYes) / lmsr.B l) with 0 by (unfold Rdiv; ring).
    rewrite exp_0. lra.
Qed.

Lemma Cost_between (qYes qNo : R) :
  Rmax qYes qNo <= lmsr.Cost l qYes qNo
  <= Rmax qYes qNo + lmsr.MaxLoss l.
Proof.
  unfold lmsr.Cost, lmsr.MaxLoss. cbv zeta.
  pose proof (shifted_sum_bounds qYes qNo) as [Hlo Hhi]. cbv zeta in Hlo, Hhi.
  set (S := exp ((qYes - Rmax qYes qNo) / lmsr.B l)
            + exp ((qNo - Rmax qYes qNo) / lmsr.B l)) in *.
  replace (lmsr.B l * Rmax qYes qNo / lmsr.B l) with (Rmax qYes qNo)
    by (field; lra).
  assert (H0 : 0 <= ln S) by (rewrite <- ln_1; apply ln_le_compat; lra).
  assert (H2 : ln S <= ln 2) by (apply ln_le_compat; lra).
  apply (Rmult_le_compat_l (lmsr.B l)) in H0; [|lra].
  apply (Rmult_le_compat_l (lmsr.B l)) in H2; [|lra].
  lra.
Qed.

Lemma Cost_empty : lmsr.Cost l 0 0 = lmsr.MaxLoss l.
Proof.
  unfold lmsr.Cost, lmsr.MaxLoss. cbv zeta.
  rewrite Rmax_left by lra.
  replace ((0 - 0) / lmsr.B l) with 0 by (unfold Rdiv; ring).
  rewrite exp_0. replace (1 + 1) with 2 by ring. field. lra.
Qed.

End CostBounds.

(** X3: with a positive liquidity the shifted formula of [Cost] computes
    b ln (exp (qYes / b) + exp (qNo / b)): subtracting the larger quantity
    before exponentiating does not change the value. *)
Theorem Cost_is_log_sum_exp (l : lmsr.LMSR) (qYes qNo : R) :
  0 < lmsr.B l ->
  lmsr.Cost l qYes qNo
  = lmsr.B l * ln (exp (qYes / lmsr.B l) + exp (qNo / lmsr.B l)).
Proof. intros HB. now apply (Cost_lse (lmsr.B l) HB l). Qed.

(** X3 for the market maker that [New] builds from a non-positive
    liquidity, which it replaces by 100. *)
Lemma Cost_is_log_sum_exp_example :
  lmsr.Cost (lmsr.New (-5)) 30 70
  = lmsr.B (lmsr.New (-5))
    * ln (exp (30 / lmsr.B (lmsr.New (-5)))
          + exp (70 / lmsr.B (lmsr.New (-5)))).
Proof. apply Cost_is_log_sum_exp. apply New_pos. Defined.

(** X4: the loss of the market maker is bounded by [MaxLoss].  With a
    positive liquidity the cost of the empty market is [MaxLoss], the cost at
    any quantities lies between the larger quantity and the larger quantity
    plus [MaxLoss], and so the payout of the winning side exceeds what the
    traders have paid since the empty market by [MaxLoss] at most. *)
Theorem loss_is_bounded (l : lmsr.LMSR) (qYes qNo : R) :
  0 < lmsr.B l ->
  lmsr.Cost l 0 0 = lmsr.MaxLoss l
  /\ Rmax qYes qNo <= lmsr.Cost l qYes qNo <= Rmax qYes qNo + lmsr.MaxLoss l
  /\ Rmax qYes qNo - (lmsr.Cost l qYes qNo - lmsr.Cost l 0 0)
     <= lmsr.MaxLoss l.
Proof.
  intros HB.
  pose proof (Cost_empty l HB) as H0.
  pose proof (Cost_between l HB qYes qNo) as [Hlo Hhi].
  repeat split; lra.
Qed.

(** X4 at liquidity 100 with 250 YES and 40 NO shares outstanding. *)
Lemma loss_is_bounded_example :
  lmsr.Cost (lmsr.New 100) 0 0 = lmsr.MaxLoss (lmsr.New 100)
  /\ Rmax 250 40 <= lmsr.Cost (lmsr.New 100) 250 40
     <= Rmax 250 40 + lmsr.MaxLoss (lmsr.New 100)
  /\ Rmax 250 40 - (lmsr.Cost (lmsr.New 100) 250 40
                    - lmsr.Cost (lmsr.New 100) 0 0)
     <= lmsr.MaxLoss (lmsr.New 100).
Proof. apply loss_is_bounded. apply New_pos. Defined.

(** ** Trades *)

(** X5: the price is the slope of the cost.  With a positive liquidity,
    changing the YES quantity by [d] (bought or, for a negative [d], sold)
    changes the cost by at least [d] times the YES price before and at most
    [d] times the YES price after the change; likewise for NO. *)
Theorem price_is_slope_of_cost (l : lmsr.LMSR) (qYes qNo d : R) :
  0 < lmsr.B l ->
  lmsr.PriceYes l qYes qNo * d
    <= lmsr.Cost l (qYes + d) qNo - lmsr.Cost l qYes qNo
    <= lmsr.PriceYes l (qYes + d) qNo * d
  /\ lmsr.PriceNo l qYes qNo * d
    <= lmsr.Cost l qYes (qNo + d) - lmsr.Cost l qYes qNo
    <= lmsr.PriceNo l qYes (qNo + d) * d.
Proof.
  intros HB.
  assert (HNo : forall x y,
            lmsr.PriceNo l x y = softmax (lmsr.B l) y x).
  { intros x y. unfold lmsr.PriceNo. rewrite PriceYes_softmax.
    pose proof (softmax_swap (lmsr.B l) x y). lra. }
  rewrite !HNo, !PriceYes_softmax.
  rewrite !(Cost_lse (lmsr.B l) HB l) by reflexivity.
  pose proof (lse_gradient (lmsr.B l) HB qYes qNo d) as Y1.
  pose proof (lse_gradient (lmsr.B l) HB (qYes + d) qNo (- d)) as Y2.
  pose proof (lse_gradient (lmsr.B l) HB qNo qYes d) as N1.
  pose proof (lse_gradient (lmsr.B l) HB (qNo + d) qYes (- d)) as N2.
  replace (qYes + d + - d) with qYes in Y2 by ring.
  replace (qNo + d + - d) with qNo in N2 by ring.
  rewrite (lse_comm (lmsr.B l) (qNo + d) qYes) in N1, N2.
  rewrite (lse_comm (lmsr.B l) qNo qYes) in N1, N2.
  repeat split; lra.
Qed.

(** X5 at liquidity 100 for 50 more YES or NO shares in an even market. *)
Lemma price_is_slope_of_cost_example :
  lmsr.PriceYes (lmsr.New 100) 10 10 * 50
    <= lmsr.Cost (lmsr.New 100) (10 + 50) 10 - lmsr.Cost (lmsr.New 100) 10 10
    <= lmsr.PriceYes (lmsr.New 100) (10 + 50) 10 * 50
  /\ lmsr.PriceNo (lmsr.New 100) 10 10 * 50
    <= lmsr.Cost (lmsr.New 100) 10 (10 + 50) - lmsr.Cost (lmsr.New 100) 10 10
    <= lmsr.PriceNo (lmsr.New 100) 10 (10 + 50) * 50.
Proof. apply price_is_slope_of_cost. apply New_pos. Defined.

(** X6: with a positive liquidity [CostToBuy] costs nothing for no
    shares, never falls when the shares grow, and for a non-negative number
    of shares lies between 0 and the payout of one unit a share. *)
Theorem CostToBuy_monotone (l : lmsr.LMSR) (qYes qNo : R) (outcome : string) :
  0 < lmsr.B l ->
  lmsr.CostToBuy l qYes qNo 0 outcome = 0
  /\ (forall s t, s <= t ->
        lmsr.CostToBuy l qYes qNo s outcome
        <= lmsr.CostToBuy l qYes qNo t outcome)
  /\ (forall s, 0 <= s -> 0 <= lmsr.CostToBuy l qYes qNo s outcome <= s).
Proof.
  intros HB.
  assert (Hinc : forall s t, s <= t ->
            lmsr.CostToBuy l qYes qNo s outcome
            <= lmsr.CostToBuy l qYes qNo t outcome).
  { intros s t [Hlt|Heq].
    - left. now apply CostToBuy_increasing.
    - right. now rewrite Heq. }
  split; [apply CostToBuy_zero|]. split; [exact Hinc|].
  intros s Hs. split.
  - rewrite <- (CostToBuy_zero l qYes qNo outcome). now apply Hinc.
  - destruct (CostToBuy_gradient l qYes qNo outcome HB s)
      as (p & [Hp0 Hp1] & Hg).
    specialize (Hg 0). rewrite CostToBuy_zero in Hg.
    assert (p * s <= 1 * s) by (apply Rmult_le_compat_r; lra).
    lra.
Qed.

(** X6 at liquidity 100: 20 shares cost at least what 10 cost and at most
    20. *)
Lemma CostToBuy_monotone_example :
  lmsr.CostToBuy (lmsr.New 100) 0 0 10 "no"
  <= lmsr.CostToBuy (lmsr.New 100) 0 0 20 "no" <= 20.
Proof.
  destruct (CostToBuy_monotone (lmsr.New 100) 0 0 "no" (New_pos 100))
    as (_ & Hinc & Hpay).
  split; [apply Hinc; lra|apply Hpay; lra].
Defined.


(** ** Shares for a cost, and the price after a bet *)

Lemma bisect_inside (l : lmsr.LMSR) (qYes qNo cost : R) (outcome : string)
    (n : nat) : forall low high,
  low < high ->
  low < lmsr.bisect n l qYes qNo cost outcome low high < high.
Proof.
  induction n as [|n IH]; intros low high Hlt; simpl; [lra|].
  destruct (Rlt_dec _ _); [lra|].
  destruct (Rlt_dec _ _).
  - destruct (IH ((low + high) / 2) high); lra.
  - destruct (IH low ((low + high) / 2)); lra.
Qed.

Lemma SharesForCost_inside (l : lmsr.LMSR) (qYes qNo cost : R)
    (outcome : string) :
  0 < cost -> 0 < lmsr.SharesForCost l qYes qNo cost outcome < 10 * cost.
Proof.
  intros Hc. unfold lmsr.SharesForCost.
  destruct (Rle_dec cost 0); [lra|].
  destruct (bisect_inside l qYes qNo cost outcome 100 0 (cost * 10)); lra.
Qed.

(** X8: [SharesForCost] returns no shares for a cost of zero or less, and
    for a positive cost a positive number of shares of at most ten times
    the cost, whatever the market, the liquidity and the outcome string. *)
Theorem SharesForCost_range :
  forall (l : lmsr.LMSR) (qYes qNo cost : R) (outcome : string),
    (cost <= 0 -> lmsr.SharesForCost l qYes qNo cost outcome = 0)
    /\ (0 < cost ->
        0 < lmsr.SharesForCost l qYes qNo cost outcome <= 10 * cost).
Proof.
  intros l qYes qNo cost outcome. split.
  - apply SharesForCost_nonpositive.
  - intros Hc. destruct (SharesForCost_inside l qYes qNo cost outcome Hc).
    split; lra.
Qed.

Lemma softmax_increasing (b x x' y : R) :
  0 < b -> x < x' -> softmax b x y < softmax b x' y.
Proof.
  intros Hb Hx. unfold softmax.
  pose proof (exp_pos (x / b)) as Px. pose proof (exp_pos (x' / b)) as Px'.
  pose proof (exp_pos (y / b)) as Py.
  assert (He : exp (x / b) < exp (x' / b)).
  { apply exp_increasing. apply Rmult_lt_compat_r; [|assumption].
    now apply Rinv_0_lt_compat. }
  assert (Hprod : exp (x / b) * exp (y / b) < exp (x' / b) * exp (y / b))
    by (apply Rmult_lt_compat_r; assumption).
  apply (Rmult_lt_reg_r (exp (x / b) + exp (y / b))); [lra|].
  apply (Rmult_lt_reg_r (exp (x' / b) + exp (y / b))); [lra|].
  replace (exp (x / b) / (exp (x / b) + exp (y / b))
           * (exp (x / b) + exp (y / b)) * (exp (x' / b) + exp (y / b)))
    with (exp (x / b) * (exp (x' / b) + exp (y / b))) by (field; lra).
  replace (exp (x' / b) / (exp (x' / b) + exp (y / b))
           * (exp (x / b) + exp (y / b)) * (exp (x' / b) + exp (y / b)))
    with (exp (x' / b) * (exp (x / b) + exp (y / b))) by (field; lra).
  lra.
Qed.

Lemma PriceYes_moves (l : lmsr.LMSR) (qYes qNo d : R) :
  0 < lmsr.B l -> 0 < d ->
  lmsr.PriceYes l qYes qNo < lmsr.PriceYes l (qYes + d) qNo
  /\ lmsr.PriceYes l qYes (qNo + d) < lmsr.PriceYes l qYes qNo.
Proof.
  intros HB Hd. rewrite !PriceYes_softmax. split.
  - apply softmax_increasing; lra.
  - pose proof (softmax_swap (lmsr.B l) qYes (qNo + d)).
    pose proof (softmax_swap (lmsr.B l) qYes qNo).
    assert (softmax (lmsr.B l) qNo qYes < softmax (lmsr.B l) (qNo + d) qYes)
      by (apply softmax_increasing; lra).
    lra.
Qed.

(** X9: a bet never moves the price away from its side.  With a positive
    liquidity and a positive amount, the YES probability after a bet on
    "yes" or "YES" is at least the YES price before it, and after a bet on
    any other outcome string at most that price; [SimulateBet] reports the
    same new price as [NewProbabilityAfterBet], a price impact that is their
    difference, a positive number of shares and a payout equal to the
    shares. *)
Theorem bet_moves_price_to_its_side (l : lmsr.LMSR) (qYes qNo amount : R)
    (outcome : string) :
  0 < lmsr.B l -> 0 < amount ->
  let before := lmsr.PriceYes l qYes qNo in
  let after := lmsr.NewProbabilityAfterBet l qYes qNo amount outcome in
  let sim := lmsr.SimulateBet l qYes qNo amount outcome in
  (if lmsr.isYes outcome then before <= after else after <= before)
  /\ lmsr.NewPriceYes sim = after
  /\ lmsr.PriceImpact sim = after - before
  /\ lmsr.NewPriceYes sim + lmsr.NewPriceNo sim = 1
  /\ 0 < lmsr.SharesReceived sim
  /\ lmsr.PotentialPayout sim = lmsr.SharesReceived sim
  /\ lmsr.Cost_ sim = amount.
Proof.
  intros HB Ha before after sim.
  destruct (SharesForCost_inside l qYes qNo amount outcome Ha) as [Hs _].
  subst before after sim.
  unfold lmsr.NewProbabilityAfterBet, lmsr.SimulateBet. cbv zeta.
  cbn [lmsr.NewPriceYes lmsr.NewPriceNo lmsr.PriceImpact lmsr.SharesReceived
       lmsr.PotentialPayout lmsr.Cost_].
  set (shares := lmsr.SharesForCost l qYes qNo amount outcome) in *.
  destruct (PriceYes_moves l qYes qNo shares HB Hs) as [Hup Hdown].
  destruct (lmsr.isYes outcome); repeat split; try assumption; lra.
Qed.

(** X9 at liquidity 100 in the empty market: after a bet of 25 on "yes" the
    YES probability is at least the even price. *)
Lemma bet_moves_price_to_its_side_example :
  lmsr.PriceYes (lmsr.New 100) 0 0
  <= lmsr.NewProbabilityAfterBet (lmsr.New 100) 0 0 25 "yes".
Proof.
  destruct (bet_moves_price_to_its_side (lmsr.New 100) 0 0 25 "yes")
    as [H _]; [apply New_pos|lra|exact H].
Defined.

(** ** Recalculating scores *)

Section Recalculation.

Import models.

Variable a : Agent.

Lemma RecalculateAccuracyScore_set :
  RecalculateAccuracyScore a = set_AccuracyScore (accuracyOf a) a.
Proof.
  unfold RecalculateAccuracyScore, accuracyOf.
  destruct (ResolvedPredictions a =? 0)%Z; reflexivity.
Qed.

Lemma RecalculateEngagementScore_set :
  RecalculateEngagementScore a = set_EngagementScore (engagementOf a) a.
Proof.
  unfold RecalculateEngagementScore, engagementOf, totalEngagementOf.
  cbv zeta. destruct (Rle_dec _ 0); reflexivity.
Qed.

Lemma RecalculateActivityScore_set :
  RecalculateActivityScore a = set_ActivityScore (activityOf a) a.
Proof.
  unfold RecalculateActivityScore, activityOf.
  destruct (DaysActiveMonth a =? 0)%Z; reflexivity.
Qed.

Lemma RecalculateCreatorScore_set :
  RecalculateCreatorScore a = set_CreatorScore (creatorOf a) a.
Proof.
  unfold RecalculateCreatorScore, creatorOf.
  destruct (MarketsCreated a =? 0)%Z; reflexivity.
Qed.

End Recalculation.

(** The agent that [RecalculateAllScores] returns, written out. *)
Lemma RecalculateAllScores_set (a : models.Agent) :
  models.RecalculateAllScores a
  = models.set_Reputation (compositeOf a / 100)
      (models.set_CompositeScore (compositeOf a)
         (models.set_CreatorScore (creatorOf a)
            (models.set_ActivityScore (activityOf a)
               (models.set_EngagementScore (engagementOf a)
                  (models.set_AccuracyScore (accuracyOf a) a))))).
Proof.
  unfold models.RecalculateAllScores. cbv zeta.
  rewrite (RecalculateAccuracyScore_set a).
  rewrite RecalculateEngagementScore_set.
  rewrite RecalculateActivityScore_set.
  rewrite RecalculateCreatorScore_set.
  reflexivity.
Qed.

(** The counters that the scores are computed from. *)
Lemma RecalculateAllScores_counters (a : models.Agent) :
  let a' := models.RecalculateAllScores a in
  models.CorrectPredictions a' = models.CorrectPredictions a
  /\ models.ResolvedPredictions a' = models.ResolvedPredictions a
  /\ models.TotalUpvotesReceived a' = models.TotalUpvotesReceived a
  /\ models.TotalCommentsReceived a' = models.TotalCommentsReceived a
  /\ models.TotalFollowers a' = models.TotalFollowers a
  /\ models.DaysActiveMonth a' = models.DaysActiveMonth a
  /\ models.CurrentStreak a' = models.CurrentStreak a
  /\ models.MarketsCreated a' = models.MarketsCreated a
  /\ models.MarketEngagementAvg a' = models.MarketEngagementAvg a.
Proof.
  cbv zeta. rewrite RecalculateAllScores_set.
  generalize (compositeOf a), (creatorOf a), (activityOf a), (engagementOf a),
    (accuracyOf a).
  intros. repeat split; reflexivity.
Qed.

Lemma scores_of_same_counters (a b : models.Agent) :
  models.CorrectPredictions b = models.CorrectPredictions a ->
  models.ResolvedPredictions b = models.ResolvedPredictions a ->
  models.TotalUpvotesReceived b = models.TotalUpvotesReceived a ->
  models.TotalCommentsReceived b = models.TotalCommentsReceived a ->
  models.TotalFollowers b = models.TotalFollowers a ->
  models.DaysActiveMonth b = models.DaysActiveMonth a ->
  models.CurrentStreak b = models.CurrentStreak a ->
  models.MarketsCreated b = models.MarketsCreated a ->
  models.MarketEngagementAvg b = models.MarketEngagementAvg a ->
  accuracyOf b = accuracyOf a /\ engagementOf b = engagementOf a
  /\ activityOf b = activityOf a /\ creatorOf b = creatorOf a
  /\ compositeOf b = compositeOf a.
Proof.
  intros Hc Hr Hu Hm Hf Hd Hs Hk Ha.
  assert (H1 : accuracyOf b = accuracyOf a)
    by (unfold accuracyOf; now rewrite Hc, Hr).
  assert (H2 : engagementOf b = engagementOf a)
    by (unfold engagementOf, totalEngagementOf; now rewrite Hu, Hm, Hf).
  assert (H3 : activityOf b = activityOf a)
    by (unfold activityOf; now rewrite Hd, Hs).
  assert (H4 : creatorOf b = creatorOf a)
    by (unfold creatorOf; now rewrite Hk, Ha).
  repeat split; try assumption.
  unfold compositeOf. now rewrite H1, H2, H3, H4.
Qed.

(** X10: [RecalculateAllScores] is idempotent: the scores it writes depend
    on the counters only, which it leaves alone, so recalculating twice
    gives the agent that recalculating once gives. *)
Theorem RecalculateAllScores_idempotent :
  forall a : models.Agent,
    models.RecalculateAllScores (models.RecalculateAllScores a)
    = models.RecalculateAllScores a.
Proof.
  intros a.
  destruct (RecalculateAllScores_counters a)
    as (Hc & Hr & Hu & Hm & Hf & Hd & Hs & Hk & Ha).
  destruct (scores_of_same_counters a (models.RecalculateAllScores a)
              Hc Hr Hu Hm Hf Hd Hs Hk Ha) as (H1 & H2 & H3 & H4 & H5).
  rewrite (RecalculateAllScores_set (models.RecalculateAllScores a)).
  rewrite H1, H2, H3, H4, H5.
  rewrite (RecalculateAllScores_set a).
  generalize (compositeOf a), (creatorOf a), (activityOf a), (engagementOf a),
    (accuracyOf a).
  intros c cr ac en acc. destruct a. reflexivity.
Qed.

Section ScoreBounds.

Import models.

Variable a : Agent.
Hypothesis counters : nonNegativeCounters a.
Hypothesis correct_resolved : (CorrectPredictions a <= ResolvedPredictions a)%Z.

Lemma subscores_bounded :
  0 <= accuracyOf a <= 100 /\ 0 <= engagementOf a <= 100
  /\ 0 <= activityOf a <= 100 /\ 0 <= creatorOf a <= 100
  /\ 0 <= compositeOf a <= 100.
Proof.
  destruct counters as (_ & Hc & _ & _ & _ & _ & _ & Hs & _ & Hd & Hm & He).
  pose proof (accuracy_bounds a (conj Hc correct_resolved)) as H1.
  rewrite RecalculateAccuracyScore_set in H1.
  change (0 <= accuracyOf a <= 100) in H1.
  pose proof (engagement_bounds a) as H2.
  rewrite RecalculateEngagementScore_set in H2.
  change (0 <= engagementOf a <= 100) in H2.
  pose proof (activity_bounds a Hd Hs) as H3.
  rewrite RecalculateActivityScore_set in H3.
  change (0 <= activityOf a <= 100) in H3.
  pose proof (creator_bounds a Hm He) as H4.
  rewrite RecalculateCreatorScore_set in H4.
  change (0 <= creatorOf a <= 100) in H4.
  unfold compositeOf. repeat split; lra.
Qed.

End ScoreBounds.

Lemma RecalculateAllScores_fields (a : models.Agent) :
  let a' := models.RecalculateAllScores a in
  models.Reputation a' = compositeOf a / 100
  /\ models.CompositeScore a' = compositeOf a
  /\ models.TotalPredictions a' = models.TotalPredictions a.
Proof.
  cbv zeta. rewrite RecalculateAllScores_set.
  generalize (compositeOf a), (creatorOf a), (activityOf a), (engagementOf a),
    (accuracyOf a).
  intros. repeat split; reflexivity.
Qed.

(** X11: after [RecalculateAllScores] on non-negative counters with no more
    correct than resolved predictions, the legacy reputation is the
    composite score over 100 and lies in [0,1], and the voting weight
    [CalculateWeight] lies between the reputation and twice the
    reputation, which it reaches from 100 predictions on. *)
Theorem reputation_and_weight_bounded (a : models.Agent) :
  nonNegativeCounters a ->
  (models.CorrectPredictions a <= models.ResolvedPredictions a)%Z ->
  let a' := models.RecalculateAllScores a in
  models.Reputation a' = models.CompositeScore a' / 100
  /\ 0 <= models.Reputation a' <= 1
  /\ models.Reputation a' <= models.CalculateWeight a'
     <= 2 * models.Reputation a'
  /\ ((100 <= models.TotalPredictions a)%Z ->
      models.CalculateWeight a' = 2 * models.Reputation a').
Proof.
  intros Hn Hcr a'.
  destruct (subscores_bounded a Hn Hcr) as (_ & _ & _ & _ & Hc).
  destruct (RecalculateAllScores_fields a) as (Hrep & Hcomp & Htot).
  fold a' in Hrep, Hcomp, Htot.
  unfold models.CalculateWeight. rewrite Hrep, Hcomp, Htot.
  destruct Hn as (Ht & _). apply IZR_le in Ht.
  assert (Hmin : 0 <= Rmin 1 (IZR (models.TotalPredictions a) / 100) <= 1)
    by (split; [apply Rmin_glb; lra|apply Rmin_l]).
  set (m := Rmin 1 (IZR (models.TotalPredictions a) / 100)) in *.
  assert (0 <= compositeOf a / 100 * m)
    by (apply Rmult_le_pos; lra).
  assert (compositeOf a / 100 * m <= compositeOf a / 100 * 1)
    by (apply Rmult_le_compat_l; lra).
  split; [reflexivity|]. split; [lra|]. split; [lra|].
  intros H100. apply IZR_le in H100.
  unfold m. rewrite Rmin_left by lra. lra.
Qed.

(** X11 on an agent with 120 predictions, 80 of 100 resolved ones correct. *)
Lemma reputation_and_weight_bounded_example :
  let a := models.mkAgent 1 "oracle" 120 80 100 50 0 0 0 12.5 0.5
             40 3 25 12 None 4 9 20 2 30 in
  let a' := models.RecalculateAllScores a in
  0 <= models.Reputation a' <= 1
  /\ models.CalculateWeight a' = 2 * models.Reputation a'.
Proof.
  intros a a'.
  destruct (reputation_and_weight_bounded a) as (_ & Hr & _ & Hw).
  - unfold nonNegativeCounters; simpl. repeat split; try lia; lra.
  - simpl. lia.
  - split; [exact Hr|]. apply Hw. simpl. lia.
Defined.

(** X12: the accuracy score shrinks the raw accuracy toward 50.  With
    resolved predictions, of which between none and all are correct, the
    score is (100 correct + 500) / (resolved + 10); it lies between 50 and
    the raw percentage 100 correct / resolved, and differs from the raw
    percentage by at most 500 / (resolved + 10). *)
Theorem accuracy_shrinks_toward_50 (a : models.Agent) :
  (0 < models.ResolvedPredictions a)%Z ->
  (0 <= models.CorrectPredictions a <= models.ResolvedPredictions a)%Z ->
  let correct := IZR (models.CorrectPredictions a) in
  let resolved := IZR (models.ResolvedPredictions a) in
  let raw := correct / resolved * 100 in
  let score := models.AccuracyScore (models.RecalculateAccuracyScore a) in
  score = (100 * correct + 500) / (resolved + 10)
  /\ Rmin 50 raw <= score <= Rmax 50 raw
  /\ Rabs (score - raw) <= 500 / (resolved + 10).
Proof.
  intros Hr [Hc0 Hc1] correct resolved raw score.
  assert (Hscore : score = (100 * correct + 500) / (resolved + 10)).
  { subst score. rewrite RecalculateAccuracyScore_set.
    change (accuracyOf a = (100 * correct + 500) / (resolved + 10)).
    unfold accuracyOf.
    destruct (Z.eqb_spec (models.ResolvedPredictions a) 0); [lia|].
    apply IZR_lt in Hr. fold correct resolved. fold resolved in Hr.
    field. lra. }
  apply IZR_lt in Hr. apply IZR_le in Hc0, Hc1.
  fold correct in Hc0, Hc1. fold resolved in Hr, Hc1.
  assert (Hinv : 0 < / (resolved + 10)) by (apply Rinv_0_lt_compat; lra).
  assert (Hinvr : 0 < / resolved) by (now apply Rinv_0_lt_compat).
  assert (H50 : score - 50 = 50 * (2 * correct - resolved) * / (resolved + 10))
    by (rewrite Hscore; field; lra).
  assert (Hraw : score - raw
                 = 500 * ((resolved - 2 * correct) * / resolved)
                   * / (resolved + 10))
    by (rewrite Hscore; unfold raw; field; lra).
  assert (Hfrac : -1 <= (resolved - 2 * correct) * / resolved <= 1).
  { split.
    - apply (Rmult_le_reg_r resolved); [lra|].
      rewrite Rmult_assoc, Rinv_l by lra. lra.
    - apply (Rmult_le_reg_r resolved); [lra|].
      rewrite Rmult_assoc, Rinv_l by lra. lra. }
  set (f := (resolved - 2 * correct) * / resolved) in *.
  assert (Hf : (0 <= f /\ 2 * correct <= resolved)
               \/ (f <= 0 /\ resolved <= 2 * correct)).
  { destruct (Rle_dec (2 * correct) resolved) as [Hle|Hgt].
    - left. split; [|assumption]. unfold f. apply Rmult_le_pos; lra.
    - right. split; [|lra].
      assert (0 <= (2 * correct - resolved) * / resolved)
        by (apply Rmult_le_pos; lra).
      unfold f. lra. }
  split; [exact Hscore|].
  destruct Hf as [[Hf0 Hside]|[Hf0 Hside]].
  - (* at most half correct: raw <= score <= 50 *)
    assert (0 <= 500 * f * / (resolved + 10))
      by (apply Rmult_le_pos; [apply Rmult_le_pos|]; lra).
    assert (500 * f * / (resolved + 10) <= 500 * 1 * / (resolved + 10)).
    { apply Rmult_le_compat_r; [lra|]. apply Rmult_le_compat_l; lra. }
    assert (0 <= 50 * (resolved - 2 * correct) * / (resolved + 10))
      by (apply Rmult_le_pos; [apply Rmult_le_pos|]; lra).
    assert (Hs50 : score <= 50).
    { replace (50 * (2 * correct - resolved) * / (resolved + 10))
        with (- (50 * (resolved - 2 * correct) * / (resolved + 10))) in H50
        by ring. lra. }
    split.
    + split.
      * apply Rle_trans with raw; [apply Rmin_r|lra].
      * apply Rle_trans with 50; [assumption|apply Rmax_l].
    + rewrite Rabs_right by lra. unfold Rdiv. lra.
  - (* at least half correct: 50 <= score <= raw *)
    assert (0 <= 500 * (- f) * / (resolved + 10))
      by (apply Rmult_le_pos; [apply Rmult_le_pos|]; lra).
    assert (500 * (- f) * / (resolved + 10) <= 500 * 1 * / (resolved + 10)).
    { apply Rmult_le_compat_r; [lra|]. apply Rmult_le_compat_l; lra. }
    assert (0 <= 50 * (2 * correct - resolved) * / (resolved + 10))
      by (apply Rmult_le_pos; [apply Rmult_le_pos|]; lra).
    assert (Hneg : 500 * f * / (resolved + 10)
                   = - (500 * (- f) * / (resolved + 10))) by ring.
    split.
    + split.
      * apply Rle_trans with 50; [apply Rmin_l|lra].
      * apply Rle_trans with raw; [lra|apply Rmax_r].
    + rewrite Rabs_left1 by lra. unfold Rdiv. lra.
Qed.

(** X12 on 100 resolved predictions with 80 correct. *)
Lemma accuracy_shrinks_toward_50_example :
  let a := models.mkAgent 1 "oracle" 120 80 100 50 0 0 0 12.5 0.5
             40 3 25 12 None 4 9 20 2 30 in
  let score := models.AccuracyScore (models.RecalculateAccuracyScore a) in
  Rmin 50 (80 / 100 * 100) <= score <= Rmax 50 (80 / 100 * 100).
Proof.
  intros a score.
  destruct (accuracy_shrinks_toward_50 a) as (_ & H & _).
  - simpl. lia.
  - simpl. lia.
  - exact H.
Defined.

Lemma ln_10000 : ln 10000 = 4 * ln 10.
Proof.
  replace 10000 with (10 * 10 * (10 * 10)) by ring.
  rewrite !ln_mult by lra. ring.
Qed.

Lemma ln_10_pos : 0 < ln 10.
Proof. rewrite <- ln_1. apply ln_increasing; lra. Qed.

(** X13: the engagement score counts upvotes, comments and followers.
    With non-negative counters whose sum fits an [int64], the score is 0
    for no engagement, 25 log10 (engagement + 1) strictly between 0 and 100
    for an engagement below 9999, and exactly 100 from 9999 on. *)
Theorem engagement_saturates (a : models.Agent) :
  (0 <= models.TotalUpvotesReceived a)%Z ->
  (0 <= models.TotalCommentsReceived a)%Z ->
  (0 <= models.TotalFollowers a)%Z ->
  let engagement :=
    (models.TotalUpvotesReceived a + models.TotalCommentsReceived a
     + models.TotalFollowers a)%Z in
  (engagement <= Go.max_int64)%Z ->
  let score := models.EngagementScore (models.RecalculateEngagementScore a) in
  (engagement = 0%Z -> score = 0)
  /\ ((0 < engagement < 9999)%Z ->
      score = Go.Log10 (IZR engagement + 1) * 25 /\ 0 < score < 100)
  /\ ((9999 <= engagement)%Z -> score = 100).
Proof.
  intros Hu Hc Hf engagement Hmax score.
  assert (Htot : totalEngagementOf a = IZR engagement).
  { unfold totalEngagementOf. f_equal.
    rewrite (wrap64_small (models.TotalUpvotesReceived a
                           + models.TotalCommentsReceived a))
      by (unfold Go.min_int64, Go.max_int64 in *; subst engagement; lia).
    apply wrap64_small.
    unfold Go.min_int64, Go.max_int64 in *; subst engagement; lia. }
  assert (Hscore : score = engagementOf a)
    by (subst score; now rewrite RecalculateEngagementScore_set).
  rewrite Hscore. unfold engagementOf. rewrite Htot.
  pose proof ln_10_pos as H10. pose proof ln_10000 as H4.
  split; [|split].
  - intros E. rewrite E. destruct (Rle_dec 0 0); [reflexivity|lra].
  - intros [Hlo Hhi]. apply IZR_lt in Hlo, Hhi.
    destruct (Rle_dec (IZR engagement) 0); [lra|].
    assert (Hln0 : 0 < ln (IZR engagement + 1))
      by (rewrite <- ln_1; apply ln_increasing; lra).
    assert (Hln4 : ln (IZR engagement + 1) < 4 * ln 10)
      by (rewrite <- H4; apply ln_increasing; lra).
    assert (Hlog : 0 < Go.Log10 (IZR engagement + 1) < 4).
    { unfold Go.Log10. split.
      - apply Rdiv_lt_0_compat; assumption.
      - apply (Rmult_lt_reg_r (ln 10)); [assumption|].
        unfold Rdiv. rewrite Rmult_assoc, Rinv_l; lra. }
    rewrite Rmin_right by lra. split; [reflexivity|lra].
  - intros Hbig. apply IZR_le in Hbig.
    destruct (Rle_dec (IZR engagement) 0); [lra|].
    assert (Hln4 : 4 * ln 10 <= ln (IZR engagement + 1))
      by (rewrite <- H4; apply ln_le_compat; lra).
    assert (Hlog : 4 <= Go.Log10 (IZR engagement + 1)).
    { unfold Go.Log10.
      apply (Rmult_le_reg_r (ln 10)); [assumption|].
      unfold Rdiv. rewrite Rmult_assoc, Rinv_l; lra. }
    rewrite Rmin_left by lra. reflexivity.
Qed.

(** X13 on an agent with 9000 upvotes, 900 comments and 99 followers. *)
Lemma engagement_saturates_example :
  let a := models.mkAgent 1 "oracle" 120 80 100 50 0 0 0 12.5 0.5
             9000 3 900 99 None 4 9 20 2 30 in
  models.EngagementScore (models.RecalculateEngagementScore a) = 100.
Proof.
  intros a.
  destruct (engagement_saturates a) as (_ & _ & H).
  - simpl. lia.
  - simpl. lia.
  - simpl. lia.
  - unfold Go.max_int64. simpl. lia.
  - apply H. simpl. lia.
Defined.

(** X14: the activity score is the share of 30 days the agent was active,
    raised by the streak.  With active days and a non-negative streak the
    score lies between min (100, base) and min (100, 1.5 base), where base =
    daysActiveMonth / 30 * 100; it is the lower bound without a streak, the
    upper bound from a streak of 30 days on, and 100 from 30 active days
    on. *)
Theorem activity_rewards_streaks (a : models.Agent) :
  (0 < models.DaysActiveMonth a)%Z -> (0 <= models.CurrentStreak a)%Z ->
  let base := IZR (models.DaysActiveMonth a) / 30 * 100 in
  let score := models.ActivityScore (models.RecalculateActivityScore a) in
  Rmin 100 base <= score <= Rmin 100 (1.5 * base)
  /\ (models.CurrentStreak a = 0%Z -> score = Rmin 100 base)
  /\ ((30 <= models.CurrentStreak a)%Z -> score = Rmin 100 (1.5 * base))
  /\ ((30 <= models.DaysActiveMonth a)%Z -> score = 100).
Proof.
  intros Hd Hs base score.
  assert (Hscore : score
                   = Rmin 100 (base * (1 + Rmin 0.5
                                             (IZR (models.CurrentStreak a) / 60)))).
  { subst score. rewrite RecalculateActivityScore_set.
    change (activityOf a = Rmin 100 (base * (1 + Rmin 0.5
                                             (IZR (models.CurrentStreak a) / 60)))).
    unfold activityOf.
    destruct (Z.eqb_spec (models.DaysActiveMonth a) 0); [lia|reflexivity]. }
  apply IZR_lt in Hd. apply IZR_le in Hs.
  assert (Hbase : 0 < base) by (unfold base; lra).
  set (bonus := Rmin 0.5 (IZR (models.CurrentStreak a) / 60)) in *.
  assert (Hbonus : 0 <= bonus <= 0.5)
    by (split; [apply Rmin_glb; lra|apply Rmin_l]).
  assert (Hlow : base <= base * (1 + bonus)).
  { assert (0 <= base * bonus) by (apply Rmult_le_pos; lra). lra. }
  assert (Hhigh : base * (1 + bonus) <= 1.5 * base).
  { assert (base * bonus <= base * 0.5)
      by (apply Rmult_le_compat_l; lra). lra. }
  rewrite Hscore. split; [|split; [|split]].
  - split; apply Rle_min_compat_l; assumption.
  - intros E. unfold bonus. rewrite E.
    rewrite (Rmin_right 0.5) by lra. f_equal. lra.
  - intros H30. apply IZR_le in H30. unfold bonus.
    rewrite (Rmin_left 0.5) by lra. f_equal. lra.
  - intros H30. apply IZR_le in H30.
    apply Rmin_left. unfold base in *. lra.
Qed.

(** X14 on an agent with 20 active days and a streak of 30. *)
Lemma activity_rewards_streaks_example :
  let a := models.mkAgent 1 "oracle" 120 80 100 50 0 0 0 12.5 0.5
             40 3 25 12 None 30 30 20 2 30 in
  models.ActivityScore (models.RecalculateActivityScore a) = 100.
Proof.
  intros a.
  destruct (activity_rewards_streaks a) as (_ & _ & H & _).
  - simpl. lia.
  - simpl. lia.
  - rewrite H by (simpl; lia). simpl. apply Rmin_left. lra.
Defined.

(** ** Activity and the update after a prediction *)

(** [UpdateActivity] writes the four activity fields and nothing else. *)
Lemma UpdateActivity_frame (now : Go.Time) (a : models.Agent) :
  let a' := models.UpdateActivity now a in
  a' = models.set_LastActiveAt (Some now)
         (models.set_LongestStreak (models.LongestStreak a')
            (models.set_DaysActiveMonth (models.DaysActiveMonth a')
               (models.set_CurrentStreak (models.CurrentStreak a') a))).
Proof.
  cbv zeta. unfold models.UpdateActivity.
  destruct a as [id name total correct resolved acc eng cre act comp rep
                 up down comments followers last streak longest days mk avg].
  cbn [models.LastActiveAt].
  destruct last as [last|]; cbv zeta;
    [destruct (Go.wholeDays _ =? 0)%Z;
     [|destruct (Go.wholeDays _ =? 1)%Z]|];
    cbn [models.set_DaysActiveMonth models.set_CurrentStreak
         models.LongestStreak models.CurrentStreak models.DaysActiveMonth];
    match goal with
    | |- context [(?x <? ?y)%Z] => destruct (x <? y)%Z
    end; reflexivity.
Qed.

(** [UpdateActivity] never lowers longestStreak, and leaves currentStreak
    at most longestStreak. *)
Lemma UpdateActivity_longest (now : Go.Time) (a : models.Agent) :
  let a' := models.UpdateActivity now a in
  (models.LongestStreak a <= models.LongestStreak a')%Z
  /\ (models.CurrentStreak a' <= models.LongestStreak a')%Z.
Proof.
  cbv zeta. unfold models.UpdateActivity. cbv zeta.
  destruct (models.LastActiveAt a) as [last|]; cbv zeta;
    [destruct (Go.wholeDays _ =? 0)%Z;
     [|destruct (Go.wholeDays _ =? 1)%Z]|];
    simpl;
    match goal with
    | |- context [(?x <? ?y)%Z] => destruct (Z.ltb_spec x y)
    end; simpl; lia.
Qed.

(** Without overflow of the two counters, [UpdateActivity] moves each by
    one step at most. *)
Lemma UpdateActivity_counters (now : Go.Time) (a : models.Agent) :
  (0 <= models.CurrentStreak a < Go.max_int64)%Z ->
  (0 <= models.DaysActiveMonth a < Go.max_int64)%Z ->
  let a' := models.UpdateActivity now a in
  (0 <= models.CurrentStreak a' <= Z.max 1 (models.CurrentStreak a + 1))%Z
  /\ (0 <= models.DaysActiveMonth a'
      <= Z.max 1 (models.DaysActiveMonth a + 1))%Z
  /\ (models.LastActiveAt a <> None ->
      (models.DaysActiveMonth a <= models.DaysActiveMonth a')%Z).
Proof.
  intros Hs Hd.
  assert (Ws : Go.wrap64 (models.CurrentStreak a + 1)
               = (models.CurrentStreak a + 1)%Z)
    by (apply wrap64_small; unfold Go.min_int64, Go.max_int64 in *; lia).
  assert (Wd : Go.wrap64 (models.DaysActiveMonth a + 1)
               = (models.DaysActiveMonth a + 1)%Z)
    by (apply wrap64_small; unfold Go.min_int64, Go.max_int64 in *; lia).
  cbv zeta. unfold models.UpdateActivity. cbv zeta.
  destruct (models.LastActiveAt a) as [last|]; cbv zeta;
    [destruct (Go.wholeDays _ =? 0)%Z;
     [|destruct (Go.wholeDays _ =? 1)%Z]|];
    simpl; rewrite ?Ws, ?Wd;
    match goal with
    | |- context [(?x <? ?y)%Z] => destruct (x <? y)%Z
    end; simpl; repeat split; try lia; try congruence.
Qed.

(** X15: what [UpdateActivity] keeps.  It changes no field other than
    currentStreak, daysActiveMonth, longestStreak and lastActiveAt; it never
    lowers longestStreak, and afterwards currentStreak is at most
    longestStreak.  With both counters non-negative and below the largest
    [int64], currentStreak stays at least 0 and grows by at most 1, and
    daysActiveMonth grows by at most 1 and, for an agent active before,
    never shrinks. *)
Theorem UpdateActivity_keeps (now : Go.Time) (a : models.Agent) :
  let a' := models.UpdateActivity now a in
  a' = models.set_LastActiveAt (Some now)
         (models.set_LongestStreak (models.LongestStreak a')
            (models.set_DaysActiveMonth (models.DaysActiveMonth a')
               (models.set_CurrentStreak (models.CurrentStreak a') a)))
  /\ (models.LongestStreak a <= models.LongestStreak a')%Z
  /\ (models.CurrentStreak a' <= models.LongestStreak a')%Z
  /\ ((0 <= models.CurrentStreak a < Go.max_int64)%Z ->
      (0 <= models.DaysActiveMonth a < Go.max_int64)%Z ->
      (0 <= models.CurrentStreak a' <= Z.max 1 (models.CurrentStreak a + 1))%Z
      /\ (0 <= models.DaysActiveMonth a'
          <= Z.max 1 (models.DaysActiveMonth a + 1))%Z
      /\ (models.LastActiveAt a <> None ->
          (models.DaysActiveMonth a <= models.DaysActiveMonth a')%Z)).
Proof.
  intros a'. split; [apply UpdateActivity_frame|].
  split; [apply UpdateActivity_longest|].
  split; [apply UpdateActivity_longest|].
  apply UpdateActivity_counters.
Qed.

(** X15 on an agent with a streak of 3 of at most 7, on the day after its
    last activity. *)
Lemma UpdateActivity_keeps_example :
  let last := Go.mkTime (19999 * 86400 + 7200) 0 Go.UTC in
  let now := Go.mkTime (20000 * 86400 + 3600) 0 Go.UTC in
  let a := models.mkAgent 1 "oracle" 120 80 100 50 0 0 0 12.5 0.5
             40 3 25 12 (Some last) 3 7 5 2 30 in
  (5 <= models.DaysActiveMonth (models.UpdateActivity now a) <= Z.max 1 6)%Z.
Proof.
  intros last now a.
  destruct (UpdateActivity_keeps now a) as (_ & _ & _ & H).
  destruct H as (_ & [H0 H1] & H2).
  - unfold Go.max_int64. simpl. lia.
  - unfold Go.max_int64. simpl. lia.
  - split; [apply H2; discriminate|exact H1].
Defined.

Lemma RecalculateCompositeScore_set (a : models.Agent) :
  models.RecalculateCompositeScore a
  = models.set_CompositeScore
      (models.AccuracyScore a * 0.40 + models.EngagementScore a * 0.25
       + models.CreatorScore a * 0.20 + models.ActivityScore a * 0.15) a.
Proof. reflexivity. Qed.

(** X16: the update of the agent after a new prediction
    ([MakePredictionHandler]).  With non-negative counters below the
    largest [int64] and accuracy, engagement and creator scores in [0,100],
    the update counts the prediction, leaves those three scores and the
    legacy reputation as they were, brings the activity score to the value
    of the updated activity counters, in [0,100], and sets the composite
    score to the weighted sum of the four scores, in [0,100]. *)
Theorem recordPrediction_updates (now : Go.Time) (a : models.Agent) :
  (0 <= models.TotalPredictions a < Go.max_int64)%Z ->
  (0 <= models.CurrentStreak a < Go.max_int64)%Z ->
  (0 <= models.DaysActiveMonth a < Go.max_int64)%Z ->
  0 <= models.AccuracyScore a <= 100 ->
  0 <= models.EngagementScore a <= 100 ->
  0 <= models.CreatorScore a <= 100 ->
  let a' := predictions.recordPrediction now a in
  models.TotalPredictions a' = (models.TotalPredictions a + 1)%Z
  /\ models.AccuracyScore a' = models.AccuracyScore a
  /\ models.EngagementScore a' = models.EngagementScore a
  /\ models.CreatorScore a' = models.CreatorScore a
  /\ models.Reputation a' = models.Reputation a
  /\ models.LastActiveAt a' = Some now
  /\ models.ActivityScore a' = activityOf a'
  /\ 0 <= models.ActivityScore a' <= 100
  /\ models.CompositeScore a'
     = models.AccuracyScore a' * 0.40 + models.EngagementScore a' * 0.25
       + models.CreatorScore a' * 0.20 + models.ActivityScore a' * 0.15
  /\ 0 <= models.CompositeScore a' <= 100.
Proof.
  intros Ht Hs Hd Hacc Heng Hcre a'.
  set (a1 := predictions.set_TotalPredictions
               (Go.wrap64 (models.TotalPredictions a + 1)) a).
  set (a2 := models.UpdateActivity now a1).
  assert (Ea' : a' = models.RecalculateCompositeScore
                       (models.RecalculateActivityScore a2)) by reflexivity.
  rewrite RecalculateActivityScore_set, RecalculateCompositeScore_set in Ea'.
  pose proof (UpdateActivity_frame now a1) as Hframe.
  cbv zeta in Hframe. fold a2 in Hframe.
  destruct (UpdateActivity_counters now a1 Hs Hd) as ([Hs0 _] & [Hd0 _] & _).
  fold a2 in Hs0, Hd0.
  assert (Hact : 0 <= activityOf a2 <= 100).
  { pose proof (activity_bounds a2 Hd0 Hs0) as H.
    rewrite RecalculateActivityScore_set in H. exact H. }
  assert (Wt : Go.wrap64 (models.TotalPredictions a + 1)
               = (models.TotalPredictions a + 1)%Z)
    by (apply wrap64_small; unfold Go.min_int64, Go.max_int64 in *; lia).
  assert (Hfields :
    models.TotalPredictions a2 = (models.TotalPredictions a + 1)%Z
    /\ models.AccuracyScore a2 = models.AccuracyScore a
    /\ models.EngagementScore a2 = models.EngagementScore a
    /\ models.CreatorScore a2 = models.CreatorScore a
    /\ models.Reputation a2 = models.Reputation a
    /\ models.LastActiveAt a2 = Some now).
  { rewrite Hframe.
    generalize (models.LongestStreak a2), (models.DaysActiveMonth a2),
      (models.CurrentStreak a2).
    intros. subst a1. repeat split; try reflexivity. exact Wt. }
  destruct Hfields as (F1 & F2 & F3 & F4 & F5 & F6).
  assert (Hsame : activityOf a' = activityOf a2).
  { rewrite Ea'. unfold activityOf. reflexivity. }
  rewrite Hsame. rewrite Ea'.
  cbn [models.set_CompositeScore models.set_ActivityScore
       models.TotalPredictions models.AccuracyScore models.EngagementScore
       models.CreatorScore models.Reputation models.LastActiveAt
       models.ActivityScore models.CompositeScore].
  rewrite F1, F2, F3, F4, F5, F6.
  repeat split; try reflexivity; lra.
Qed.

(** X16 on the first prediction of an agent with neutral scores. *)
Lemma recordPrediction_updates_example :
  let now := Go.mkTime (20000 * 86400 + 3600) 0 Go.UTC in
  let a := models.mkAgent 1 "oracle" 0 0 0 50 0 0 0 12.5 0.5
             0 0 0 0 None 0 0 0 0 0 in
  models.TotalPredictions (predictions.recordPrediction now a) = 1%Z
  /\ models.Reputation (predictions.recordPrediction now a) = 0.5.
Proof.
  intros now a.
  destruct (recordPrediction_updates now a) as (H1 & _ & _ & _ & H5 & _).
  - unfold Go.max_int64. simpl. lia.
  - unfold Go.max_int64. simpl. lia.
  - unfold Go.max_int64. simpl. lia.
  - simpl. lra.
  - simpl. lra.
  - simpl. lra.
  - split; [exact H1|exact H5].
Defined.

(** ** Swarm consensus: counts, totals and the edge cases *)

Section Counts.

Import models agents.

Lemma yes_no_partition (rs : list (Agent * AgentBet.t)) :
  (length (Spec.onYes "yes" rs) + length (Spec.onNo "yes" rs))%nat
  = length rs.
Proof.
  induction rs as [|ab rs IH]; [reflexivity|].
  rewrite onYes_cons, onNo_cons.
  destruct (String.eqb (AgentBet.Outcome ab.2) "yes"); simpl; lia.
Qed.

Lemma resolvable_length (agentsMap : gmap Z Agent) (bets : list AgentBet.t) :
  (length (Spec.resolvable agentsMap bets) <= length bets)%nat.
Proof.
  induction bets as [|bet bets IH]; [reflexivity|].
  rewrite resolvable_cons.
  destruct (agentsMap !! AgentBet.AgentID bet); simpl; lia.
Qed.

Lemma size_list_to_set_le (ids : list Z) :
  (size (list_to_set ids : gset Z) <= length ids)%nat.
Proof.
  induction ids as [|x ids IH].
  - rewrite list_to_set_nil, size_empty. reflexivity.
  - rewrite list_to_set_cons, size_union_alt, size_singleton. simpl.
    assert (size (list_to_set ids ∖ {[x]} : gset Z)
            <= size (list_to_set ids : gset Z))%nat
      by (apply subseteq_size, subseteq_difference_l; reflexivity).
    lia.
Qed.

Lemma sumZ_yes_no (rs : list (Agent * AgentBet.t)) :
  (Spec.sumZ (map amountOf (Spec.onYes "yes" rs))
   + Spec.sumZ (map amountOf (Spec.onNo "yes" rs)))%Z
  = Spec.sumZ (map amountOf rs).
Proof.
  induction rs as [|ab rs IH]; [reflexivity|].
  rewrite onYes_cons, onNo_cons.
  destruct (String.eqb (AgentBet.Outcome ab.2) "yes"); simpl; lia.
Qed.

Lemma wrap64_add (x y : Z) :
  Go.wrap64 (Go.wrap64 x + Go.wrap64 y) = Go.wrap64 (x + y).
Proof.
  rewrite wrap64_add_l, Z.add_comm, wrap64_add_l. f_equal. lia.
Qed.

Lemma sumZ_nonneg (xs : list Z) : Forall (fun x => (0 <= x)%Z) xs ->
  (0 <= Spec.sumZ xs)%Z.
Proof. induction 1; simpl; lia. Qed.

End Counts.

(** The fields of the report that the loop state gives directly, for any
    list of bets. *)
Lemma consensus_counts (bets : list agents.AgentBet.t)
    (agentsMap : gmap Z models.Agent) :
  let r := agents.calculateSwarmConsensus bets agentsMap in
  let rs := Spec.resolvable agentsMap bets in
  agents.TotalBets r = Z.of_nat (length bets)
  /\ agents.TotalAgents r
     = Z.of_nat (size (list_to_set (map (fun ab => models.ID ab.1) rs)
                       : gset Z))
  /\ agents.YesCount (agents.Breakdown r)
     = Z.of_nat (length (Spec.onYes "yes" rs))
  /\ agents.NoCount (agents.Breakdown r)
     = Z.of_nat (length (Spec.onNo "yes" rs))
  /\ agents.TotalWagered r
     = Go.wrap64 (agents.YesAmount (agents.Breakdown r)
                  + agents.NoAmount (agents.Breakdown r))
  /\ agents.YesAmount (agents.Breakdown r)
     = Go.wrap64 (Spec.sumZ (map amountOf (Spec.onYes "yes" rs)))
  /\ agents.NoAmount (agents.Breakdown r)
     = Go.wrap64 (Spec.sumZ (map amountOf (Spec.onNo "yes" rs))).
Proof.
  destruct bets as [|bet bets].
  - cbv zeta.
    change (Spec.resolvable agentsMap [])
      with (@nil (models.Agent * agents.AgentBet.t)).
    cbn [map]. rewrite list_to_set_nil, size_empty.
    repeat split; reflexivity.
  - cbv zeta. unfold agents.calculateSwarmConsensus. cbv zeta.
    cbn [agents.TotalBets agents.TotalAgents agents.Breakdown
         agents.YesCount agents.NoCount agents.TotalWagered
         agents.YesAmount agents.NoAmount].
    rewrite loop_yesAmount, loop_noAmount.
    rewrite fold_accumulate_resolvable.
    rewrite accountAll_uniqueAgents, accountAll_yesCount, accountAll_noCount.
    unfold agents.initial.
    cbn [agents.uniqueAgents agents.yesCount agents.noCount].
    rewrite union_empty_l_L.
    repeat split; reflexivity.
Qed.

(** X17: the counts of the report.  totalBets counts all bets, orphaned
    ones included; yesCount and noCount together count the resolvable bets,
    which are at most totalBets; totalAgents is the number of distinct
    agents among the resolvable bets and at most their number. *)
Theorem consensus_counts_agree :
  forall (bets : list agents.AgentBet.t) (agentsMap : gmap Z models.Agent),
    let r := agents.calculateSwarmConsensus bets agentsMap in
    let rs := Spec.resolvable agentsMap bets in
    agents.TotalBets r = Z.of_nat (length bets)
    /\ (agents.YesCount (agents.Breakdown r)
        + agents.NoCount (agents.Breakdown r))%Z = Z.of_nat (length rs)
    /\ (Z.of_nat (length rs) <= agents.TotalBets r)%Z
    /\ agents.TotalAgents r
       = Z.of_nat (size (list_to_set (map (fun ab => models.ID ab.1) rs)
                         : gset Z))
    /\ (0 <= agents.TotalAgents r <= Z.of_nat (length rs))%Z.
Proof.
  intros bets agentsMap r rs.
  destruct (consensus_counts bets agentsMap)
    as (Hb & Ha & Hy & Hn & _). fold r rs in Hb, Ha, Hy, Hn.
  pose proof (yes_no_partition rs) as Hp.
  pose proof (resolvable_length agentsMap bets) as Hl. fold rs in Hl.
  pose proof (size_list_to_set_le (map (fun ab => models.ID ab.1) rs)) as Hs.
  rewrite length_map in Hs.
  rewrite Hb, Ha, Hy, Hn. repeat split; lia.
Qed.

(** X18: totalWagered is the sum of the amounts of the resolvable bets,
    reduced to an [int64] by wrap-around; when the amounts are non-negative
    and their sum fits an [int64] it is the exact sum, and it is the sum of
    yesAmount and noAmount. *)
Theorem totalWagered_sums_resolvable :
  forall (bets : list agents.AgentBet.t) (agentsMap : gmap Z models.Agent),
    let r := agents.calculateSwarmConsensus bets agentsMap in
    let amounts := map amountOf (Spec.resolvable agentsMap bets) in
    agents.TotalWagered r = Go.wrap64 (Spec.sumZ amounts)
    /\ (Forall (fun x => (0 <= x)%Z) amounts ->
        (Spec.sumZ amounts <= Go.max_int64)%Z ->
        agents.TotalWagered r = Spec.sumZ amounts
        /\ agents.TotalWagered r
           = (agents.YesAmount (agents.Breakdown r)
              + agents.NoAmount (agents.Breakdown r))%Z).
Proof.
  intros bets agentsMap r amounts.
  destruct (consensus_counts bets agentsMap)
    as (_ & _ & _ & _ & Hw & Hy & Hn). fold r in Hw, Hy, Hn.
  set (rs := Spec.resolvable agentsMap bets) in *.
  assert (Htot : agents.TotalWagered r = Go.wrap64 (Spec.sumZ amounts)).
  { rewrite Hw, Hy, Hn, wrap64_add, sumZ_yes_no. reflexivity. }
  split; [exact Htot|].
  intros Hpos Hfit.
  assert (Hin : Go.wrap64 (Spec.sumZ amounts) = Spec.sumZ amounts).
  { apply wrap64_small. pose proof (sumZ_nonneg amounts Hpos).
    unfold Go.min_int64. lia. }
  split; [now rewrite Htot|].
  rewrite Htot, Hin, Hy, Hn.
  pose proof (sumZ_yes_no rs) as Hsplit. fold amounts in Hsplit.
  assert (Hy0 : (0 <= Spec.sumZ (map amountOf (Spec.onYes "yes" rs)))%Z).
  { apply sumZ_nonneg. apply Forall_forall. intros x Hx.
    apply list_elem_of_fmap in Hx as (ab & -> & Hab).
    unfold Spec.onYes in Hab. apply list_elem_of_filter in Hab as [_ Hab].
    eapply Forall_forall in Hpos; [exact Hpos|].
    apply list_elem_of_fmap. eauto. }
  assert (Hn0 : (0 <= Spec.sumZ (map amountOf (Spec.onNo "yes" rs)))%Z).
  { apply sumZ_nonneg. apply Forall_forall. intros x Hx.
    apply list_elem_of_fmap in Hx as (ab & -> & Hab).
    unfold Spec.onNo in Hab. apply list_elem_of_filter in Hab as [_ Hab].
    eapply Forall_forall in Hpos; [exact Hpos|].
    apply list_elem_of_fmap. eauto. }
  rewrite !wrap64_small by (unfold Go.min_int64; lia). lia.
Qed.

Section Validation.

Import models agents.

(** What a request that passes the validation of [PlaceBetHandler] looks
    like. *)
Lemma validate_None (req : placeBet.AgentBetRequest) :
  placeBet.validate req = None ->
  (0 < placeBet.MarketID req)%Z /\ (0 < placeBet.Amount req)%Z
  /\ (placeBet.Outcome req = "yes" \/ placeBet.Outcome req = "no")
  /\ 0 <= placeBet.Confidence req <= 1.
Proof.
  unfold placeBet.validate.
  destruct (Z.leb_spec (placeBet.MarketID req) 0); [discriminate|].
  destruct (Z.leb_spec (placeBet.Amount req) 0); [discriminate|].
  destruct (String.eqb_spec (placeBet.Outcome req) "yes") as [Hy|Hy];
    destruct (String.eqb_spec (placeBet.Outcome req) "no") as [Hn|Hn];
    simpl; try discriminate;
    (destruct (Rlt_dec (placeBet.Confidence req) 0); [discriminate|]);
    (destruct (Rlt_dec 1 (placeBet.Confidence req)); [discriminate|]);
    intros _; repeat split; try lia; try lra; auto.
Qed.

Lemma placed_bounds (bet : AgentBet.t) :
  placed bet ->
  (0 < AgentBet.Amount bet)%Z
  /\ (AgentBet.Outcome bet = "yes" \/ AgentBet.Outcome bet = "no")
  /\ 0 <= AgentBet.Confidence bet <= 1.
Proof.
  intros (agent & req & id & Hv & ->).
  destruct (validate_None req Hv) as (_ & Ha & Ho & Hc).
  unfold placeBet.create, placeBet.newBet, placeBet.defaultConfidence.
  cbn [AgentBet.Amount AgentBet.Outcome AgentBet.Confidence].
  split; [exact Ha|]. split; [exact Ho|].
  destruct (Req_dec_T (placeBet.Confidence req) 0); lra.
Qed.

Lemma resolvable_from (agentsMap : gmap Z Agent) (bets : list AgentBet.t) ab :
  ab ∈ Spec.resolvable agentsMap bets ->
  ab.2 ∈ bets /\ agentsMap !! AgentBet.AgentID ab.2 = Some ab.1.
Proof.
  induction bets as [|bet bets IH]; [intros H; inversion H|].
  rewrite resolvable_cons.
  destruct (agentsMap !! AgentBet.AgentID bet) as [agent|] eqn:E.
  - intros H. apply elem_of_cons in H as [->|H].
    + simpl. split; [left|exact E].
    + destruct (IH H). split; [now right|assumption].
  - intros H. destruct (IH H). split; [now right|assumption].
Qed.

Lemma sumR_bounds (xs : list R) :
  Forall (fun x => 0 <= x <= 1) xs -> 0 <= Spec.sumR xs <= INR (length xs).
Proof.
  induction 1 as [|x xs Hx _ IH]; [simpl; lra|].
  change (length (x :: xs)) with (S (length xs)). rewrite S_INR.
  simpl. lra.
Qed.

End Validation.

Section PlacedBets.

Import models agents.

Variable agentsMap : gmap Z Agent.
Variable bets : list AgentBet.t.

Hypothesis all_placed : Forall placed bets.
Hypothesis reputations :
  map_Forall (fun _ agent => 0 <= Reputation agent <= 1) agentsMap.

Lemma resolvable_placed ab :
  ab ∈ Spec.resolvable agentsMap bets ->
  0 <= Reputation ab.1 <= 1
  /\ (0 < AgentBet.Amount ab.2)%Z
  /\ (AgentBet.Outcome ab.2 = "yes" \/ AgentBet.Outcome ab.2 = "no")
  /\ 0 <= AgentBet.Confidence ab.2 <= 1.
Proof.
  intros Hab. destruct (resolvable_from agentsMap bets ab Hab) as [Hin Hlk].
  split; [exact (reputations _ _ Hlk)|].
  apply placed_bounds. eapply Forall_forall in all_placed; eauto.
Qed.

Lemma resolvable_wellFormed :
  Forall Spec.wellFormed (Spec.resolvable agentsMap bets).
Proof.
  apply Forall_forall. intros ab Hab.
  destruct (resolvable_placed ab Hab) as ([Hr _] & Ha & _ & [Hc _]).
  unfold Spec.wellFormed. repeat split; try assumption. lia.
Qed.

End PlacedBets.

Lemma Forall_onYes (P : models.Agent * agents.AgentBet.t -> Prop) yes rs :
  Forall P rs -> Forall P (Spec.onYes yes rs) /\ Forall P (Spec.onNo yes rs).
Proof.
  induction 1 as [|ab rs Hab _ [IHy IHn]]; [split; constructor|].
  rewrite onYes_cons, onNo_cons.
  destruct (String.eqb (agents.AgentBet.Outcome ab.2) yes);
    split; try constructor; assumption.
Qed.

Lemma onNo_is_no rs :
  Forall (fun ab => agents.AgentBet.Outcome ab.2 = "yes"
                    \/ agents.AgentBet.Outcome ab.2 = "no") rs ->
  Spec.onNo "yes" rs = Spec.onYes "no" rs.
Proof.
  induction 1 as [|ab rs Hab _ IH]; [reflexivity|].
  rewrite onYes_cons, onNo_cons, IH.
  destruct Hab as [E|E]; rewrite E; reflexivity.
Qed.

(** X19: the report on bets that [PlaceBetHandler] has stored.  When every
    bet is the row stored for a request that passed the handler's validation
    (under any primary key, a confidence of zero replaced by the column
    default 0.5) and every agent's reputation lies in [0,1], the consensus
    probability, the average confidence and the average reputation lie in
    [0,1], both weights are non-negative, and noCount counts exactly the
    resolvable bets on "no". *)
Theorem consensus_of_placed_bets (bets : list agents.AgentBet.t)
    (agentsMap : gmap Z models.Agent) :
  Forall placed bets ->
  map_Forall (fun _ agent => 0 <= models.Reputation agent <= 1) agentsMap ->
  let r := agents.calculateSwarmConsensus bets agentsMap in
  0 <= agents.ConsensusProbability r <= 1
  /\ 0 <= agents.YesWeight (agents.Breakdown r)
  /\ 0 <= agents.NoWeight (agents.Breakdown r)
  /\ 0 <= agents.AverageConfidence r <= 1
  /\ 0 <= agents.AverageReputation r <= 1
  /\ agents.NoCount (agents.Breakdown r)
     = Z.of_nat (length (Spec.onYes "no" (Spec.resolvable agentsMap bets))).
Proof.
  intros Hplaced Hrep r.
  set (rs := Spec.resolvable agentsMap bets).
  pose proof (resolvable_wellFormed agentsMap bets Hplaced Hrep) as Hwf.
  fold rs in Hwf.
  destruct (Forall_onYes Spec.wellFormed "yes" rs Hwf) as [Hwy Hwn].
  pose proof (sumR_weight_nonneg _ Hwy) as Hy0.
  pose proof (sumR_weight_nonneg _ Hwn) as Hn0.
  destruct (consensus_yes_lowercase_sides bets agentsMap) as [Hyw Hnw].
  fold r rs in Hyw, Hnw.
  destruct (consensus_counts bets agentsMap) as (_ & _ & _ & Hnc & _).
  fold r rs in Hnc.
  assert (Hout : Forall (fun ab => agents.AgentBet.Outcome ab.2 = "yes"
                                   \/ agents.AgentBet.Outcome ab.2 = "no") rs).
  { apply Forall_forall. intros ab Hab.
    now destruct (resolvable_placed agentsMap bets Hplaced Hrep ab Hab)
      as (_ & _ & Ho & _). }
  assert (Hconf : Forall (fun x => 0 <= x <= 1)
                    (map (fun ab => agents.AgentBet.Confidence ab.2) rs)).
  { apply Forall_forall. intros x Hx.
    apply list_elem_of_fmap in Hx as (ab & -> & Hab).
    now destruct (resolvable_placed agentsMap bets Hplaced Hrep ab Hab)
      as (_ & _ & _ & Hc). }
  assert (Hreps : Forall (fun x => 0 <= x <= 1)
                    (map (fun ab => models.Reputation ab.1) rs)).
  { apply Forall_forall. intros x Hx.
    apply list_elem_of_fmap in Hx as (ab & -> & Hab).
    now destruct (resolvable_placed agentsMap bets Hplaced Hrep ab Hab)
      as (Hr & _). }
  apply sumR_bounds in Hconf, Hreps. rewrite length_map in Hconf, Hreps.
  pose proof (resolvable_length agentsMap bets) as Hlen. fold rs in Hlen.
  apply le_INR in Hlen.
  rewrite Hyw, Hnw, Hnc. rewrite <- (onNo_is_no rs Hout).
  assert (Hfrac : forall s n : R, 0 <= s <= n -> 0 < n -> 0 <= s / n <= 1).
  { intros s n Hs Hn. split.
    - apply Rmult_le_pos; [lra|]. left. now apply Rinv_0_lt_compat.
    - apply (Rmult_le_reg_r n); [assumption|].
      unfold Rdiv. rewrite Rmult_assoc, Rinv_l; lra. }
  destruct bets as [|bet bets'] eqn:Ebets.
  - subst r. simpl. repeat split; try lra; reflexivity.
  - destruct (consensus_nonempty bet bets' agentsMap) as (Hp & _).
    cbv zeta in Hp. fold rs r in Hp.
    rewrite accountAll_totalWeight, accountAll_weightedYesSum in Hp.
    rewrite sumR_yes_no in Hp. unfold agents.initial in Hp.
    cbn [agents.totalWeight agents.weightedYesSum] in Hp.
    rewrite !Rplus_0_l in Hp.
    destruct (consensus_averages bet bets' agentsMap) as (Hc & Hr).
    cbv zeta in Hc, Hr. fold rs r in Hc, Hr.
    assert (Hn : 0 < INR (length (bet :: bets')))
      by (apply lt_0_INR; simpl; lia).
    rewrite Hp, Hc, Hr.
    split.
    { destruct (Rlt_dec _ _) as [Hpos|_]; [|lra]. apply Hfrac; lra. }
    split; [assumption|]. split; [assumption|].
    split; [apply Hfrac; lra|]. split; [apply Hfrac; lra|reflexivity].
Qed.

(** X19 on one bet of 100 on "no" stored under the key 41 for a request
    without a confidence, which the row holds as 0.5. *)
Lemma consensus_of_placed_bets_example :
  let agent := models.mkAgent 7 "oracle" 120 80 100 50 0 0 0 60 0.6
                 40 3 25 12 None 4 9 20 2 30 in
  let req := placeBet.mkAgentBetRequest 3 100 "no" 0 "" in
  let bet := placeBet.create 41 (placeBet.newBet agent req) in
  let r := agents.calculateSwarmConsensus [bet] {[ 7%Z := agent ]} in
  0 <= agents.ConsensusProbability r <= 1.
Proof.
  intros agent req bet r.
  destruct (consensus_of_placed_bets [bet] {[ 7%Z := agent ]}) as (H & _).
  - constructor; [|constructor]. exists agent, req, 41%Z.
    split; [|reflexivity].
    unfold placeBet.validate. simpl.
    destruct (Rlt_dec 0 0); [lra|]. destruct (Rlt_dec 1 0); [lra|].
    reflexivity.
  - apply map_Forall_singleton. simpl. lra.
  - exact H.
Defined.

(** The report as a function of the resolvable bets, for any list of
    bets. *)
Lemma consensus_probability_cases (bets : list agents.AgentBet.t)
    (agentsMap : gmap Z models.Agent) :
  let r := agents.calculateSwarmConsensus bets agentsMap in
  let rs := Spec.resolvable agentsMap bets in
  let yes := Spec.sumR (map Spec.weight (Spec.onYes "yes" rs)) in
  let no := Spec.sumR (map Spec.weight (Spec.onNo "yes" rs)) in
  agents.ConsensusProbability r
  = if Rlt_dec 0 (yes + no) then yes / (yes + no) else 0.5.
Proof.
  intros r rs yes no. destruct bets as [|bet bets'].
  - subst r yes no rs. simpl.
    destruct (Rlt_dec 0 (0 + 0)); [lra|reflexivity].
  - destruct (consensus_nonempty bet bets' agentsMap) as (Hp & _).
    cbv zeta in Hp. fold rs r in Hp.
    rewrite accountAll_totalWeight, accountAll_weightedYesSum in Hp.
    rewrite sumR_yes_no in Hp. unfold agents.initial in Hp.
    cbn [agents.totalWeight agents.weightedYesSum] in Hp.
    rewrite !Rplus_0_l in Hp. exact Hp.
Qed.

Lemma TopPredictors_take (bets : list agents.AgentBet.t)
    (agentsMap : gmap Z models.Agent) :
  agents.TopPredictors (agents.calculateSwarmConsensus bets agentsMap)
  = take 10 (agents.sortByWeight
               (map Spec.projection (Spec.resolvable agentsMap bets))).
Proof.
  destruct bets as [|bet bets]; [reflexivity|].
  destruct (consensus_nonempty bet bets agentsMap)
    as (_ & _ & _ & _ & _ & Ht).
  cbv zeta in Ht. rewrite Ht, limitTop10_take.
  rewrite accountAll_topPredictors. reflexivity.
Qed.

(** X20: the edge cases of the consensus.  The probability is the neutral
    0.5 whenever the total weight of the resolvable bets is zero or less,
    it is exactly 1 when the weight is positive and no resolvable bet is on
    the NO side, and exactly 0 when the weight is positive and none is on
    "yes".  When no bet is resolvable the report has no agents, no top
    predictors and averages of 0, yet totalBets still counts the bets. *)
Theorem consensus_edge_cases :
  forall (bets : list agents.AgentBet.t) (agentsMap : gmap Z models.Agent),
    let r := agents.calculateSwarmConsensus bets agentsMap in
    let rs := Spec.resolvable agentsMap bets in
    let total := Spec.sumR (map Spec.weight rs) in
    (total <= 0 -> agents.ConsensusProbability r = 0.5)
    /\ (0 < total -> Spec.onNo "yes" rs = [] ->
        agents.ConsensusProbability r = 1)
    /\ (0 < total -> Spec.onYes "yes" rs = [] ->
        agents.ConsensusProbability r = 0)
    /\ (rs = [] ->
        agents.ConsensusProbability r = 0.5
        /\ agents.TotalAgents r = 0%Z /\ agents.TopPredictors r = []
        /\ agents.AverageConfidence r = 0 /\ agents.AverageReputation r = 0
        /\ agents.TotalBets r = Z.of_nat (length bets)).
Proof.
  intros bets agentsMap r rs total.
  pose proof (consensus_probability_cases bets agentsMap) as Hp.
  cbv zeta in Hp. fold r rs in Hp.
  pose proof (sumR_yes_no rs) as Hsum. fold total in Hsum.
  rewrite <- Hsum in Hp.
  assert (Hneutral : total <= 0 -> agents.ConsensusProbability r = 0.5).
  { intros Hle. rewrite Hp. destruct (Rlt_dec 0 total); [lra|reflexivity]. }
  split; [exact Hneutral|]. split; [|split].
  - intros Hpos Hno. rewrite Hp. rewrite Hno in Hsum. simpl in Hsum.
    destruct (Rlt_dec 0 total); [|lra].
    assert (E : Spec.sumR (map Spec.weight (Spec.onYes "yes" rs)) = total)
      by lra.
    rewrite E. field. lra.
  - intros Hpos Hyes. rewrite Hp, Hyes. simpl.
    destruct (Rlt_dec 0 total); [|lra]. unfold Rdiv. ring.
  - intros Hnone.
    assert (Ht0 : total = 0) by (unfold total; rewrite Hnone; reflexivity).
    split; [apply Hneutral; lra|].
    destruct (consensus_counts bets agentsMap) as (Hb & Ha & _).
    fold r rs in Hb, Ha.
    split.
    { rewrite Ha, Hnone. cbn [map].
      rewrite list_to_set_nil, size_empty. reflexivity. }
    split.
    { unfold r. rewrite TopPredictors_take. fold rs. rewrite Hnone.
      reflexivity. }
    destruct bets as [|bet bets'].
    + repeat split; reflexivity.
    + destruct (consensus_averages bet bets' agentsMap) as (Hc & Hr).
      cbv zeta in Hc, Hr. fold rs r in Hc, Hr. rewrite Hnone in Hc, Hr.
      cbn [map Spec.sumR foldr] in Hc, Hr. rewrite Hc, Hr.
      split; [unfold Rdiv; ring|]. split; [unfold Rdiv; ring|exact Hb].
Qed.

(** X21: the top predictors are the heaviest.  They are the first
    min (10, number of resolvable bets) entries of the sorted projections;
    together with the entries left out they are a rearrangement of the
    projections, they are in descending order of weight, and no entry left
    out is heavier than any of them. *)
Theorem topPredictors_are_heaviest :
  forall (bets : list agents.AgentBet.t) (agentsMap : gmap Z models.Agent),
    let projections :=
      map Spec.projection (Spec.resolvable agentsMap bets) in
    let top :=
      agents.TopPredictors (agents.calculateSwarmConsensus bets agentsMap) in
    let rest := drop 10 (agents.sortByWeight projections) in
    top ++ rest ≡ₚ projections
    /\ length top
       = Nat.min 10 (length (Spec.resolvable agentsMap bets))
    /\ Spec.descending top
    /\ (forall p q, p ∈ top -> q ∈ rest ->
          agents.AgentPrediction.Weight q <= agents.AgentPrediction.Weight p).
Proof.
  intros bets agentsMap projections top rest.
  assert (Htop : top = take 10 (agents.sortByWeight projections))
    by apply TopPredictors_take.
  pose proof (outerLoop_perm (length projections - 1) 0 projections) as Hperm.
  fold (agents.sortByWeight projections) in Hperm.
  pose proof (sortByWeight_descending projections) as Hsorted.
  unfold Spec.descending in *.
  rewrite <- (take_drop 10 (agents.sortByWeight projections)) in Hsorted.
  rewrite Htop. unfold rest.
  split; [now rewrite take_drop|].
  split.
  { rewrite length_take, (Permutation_length Hperm).
    unfold projections. now rewrite length_map. }
  split; [now apply StronglySorted_app_1_l in Hsorted|].
  intros p q Hp Hq.
  exact (StronglySorted_app_1_elem_of _ _ _ p q Hsorted Hp Hq).
Qed.

(** ** Sorting a sorted slice *)

Lemma bubble_descending (count : nat) : forall ps,
  Spec.descending ps -> bubble count ps = ps.
Proof.
  unfold Spec.descending.
  induction count as [|c IH]; intros ps Hs; [reflexivity|].
  destruct ps as [|a [|b rest]]; try reflexivity.
  simpl. apply StronglySorted_inv in Hs as [Hrest Ha].
  apply Forall_cons in Ha as [Hab _]. unfold Spec.heavier in Hab.
  destruct (Rlt_dec _ _); [lra|].
  now rewrite IH.
Qed.

Lemma outerLoop_descending_id (count : nat) : forall i ps,
  Spec.descending ps -> agents.outerLoop count i ps = ps.
Proof.
  induction count as [|c IH]; intros i ps Hs; [reflexivity|].
  simpl. rewrite innerLoop_bubble, drop_0. simpl take. rewrite app_nil_l.
  rewrite bubble_descending by assumption. now apply IH.
Qed.

(** X22: the sort leaves a slice that is already in descending order of
    weight exactly as it is, so sorting a second time changes nothing. *)
Theorem sortByWeight_fixes_sorted :
  forall ps : list agents.AgentPrediction.t,
    (Spec.descending ps -> agents.sortByWeight ps = ps)
    /\ agents.sortByWeight (agents.sortByWeight ps) = agents.sortByWeight ps.
Proof.
  intros ps.
  assert (H : forall qs, Spec.descending qs -> agents.sortByWeight qs = qs)
    by (intros qs Hq; now apply outerLoop_descending_id).
  split; [apply H|]. apply H, sortByWeight_descending.
Qed.
